(** * Ribbon SBC CDR parser: the decode engine [parse_cdr_to_dict]

    A shallow embedding of [src/ribbon_cdr_parser/Ribbon_SBC_CDR_parser.py]
    (functions [safe_get], [get_codec_value],
    [extract_device_name_from_contact], [parse_prot_data_side] and
    [parse_cdr_to_dict]) together with the fragment of the Python runtime
    these functions rely on: [str.strip], [str.split], [str.lower], the
    substring test [in], [int(str)], integer true division, float
    multiplication, [round(x, 2)], the [.1f] format and [repr] of a list of
    strings.

    Characters are code points; the model covers U+0000..U+00FF, one
    [ascii] per code point, and gives every string operation its Python
    meaning on that range.  Python's [dict] is a [gmap string pyval];
    exceptions are the [Raise] branch of [result]. *)

From Stdlib Require Import ZArith String Ascii List Bool Lia.
From Stdlib Require Import SpecFloat DecimalString Sorted.
From stdpp Require Import gmap strings.

Open Scope Z_scope.

(** ** Python strings *)

Module PyStr.

Definition dquote : ascii := "034"%char.
Definition squote : ascii := "039"%char.
Definition backslash : ascii := "092"%char.

Definition code (c : ascii) : Z := Z.of_N (N_of_ascii c).

(** [str.isspace] on one character, as [str.strip] uses it. *)
Definition isspace (c : ascii) : bool :=
  let n := code c in
  ((9 <=? n) && (n <=? 13)) || ((28 <=? n) && (n <=? 32))
  || (n =? 133) || (n =? 160).

Fixpoint lstrip (s : string) : string :=
  match s with
  | EmptyString => EmptyString
  | String c t => if isspace c then lstrip t else s
  end.

Fixpoint rstrip (s : string) : string :=
  match s with
  | EmptyString => EmptyString
  | String c t =>
      match rstrip t with
      | EmptyString => if isspace c then EmptyString else String c EmptyString
      | t' => String c t'
      end
  end.

(** [s.strip()] *)
Definition strip (s : string) : string := rstrip (lstrip s).

(** [s.split(sep)] for a one-character separator: never the empty list. *)
Fixpoint split (sep : ascii) (s : string) : list string :=
  match s with
  | EmptyString => [EmptyString]
  | String c t =>
      if Ascii.eqb c sep then EmptyString :: split sep t
      else match split sep t with
           | h :: r => String c h :: r
           | [] => [String c EmptyString]
           end
  end.

(** [sub in s] *)
Fixpoint contains (sub s : string) : bool :=
  String.prefix sub s
  || match s with
     | EmptyString => false
     | String _ t => contains sub t
     end.

(** Truthiness of a string: [if s:] *)
Definition truthy (s : string) : bool :=
  match s with EmptyString => false | _ => true end.

Definition lower_char (c : ascii) : ascii :=
  let n := code c in
  if ((65 <=? n) && (n <=? 90))
     || ((192 <=? n) && (n <=? 222) && negb (n =? 215))
  then ascii_of_N (Z.to_N (n + 32)) else c.

(** [s.lower()] *)
Fixpoint lower (s : string) : string :=
  match s with
  | EmptyString => EmptyString
  | String c t => String (lower_char c) (lower t)
  end.

(** Number of occurrences of a character. *)
Fixpoint count (c : ascii) (s : string) : nat :=
  match s with
  | EmptyString => O
  | String d t => (if Ascii.eqb d c then 1 else 0)%nat + count c t
  end.

(** [sep.join(l)] for a string separator. *)
Fixpoint join (sep : string) (l : list string) : string :=
  match l with
  | [] => EmptyString
  | [x] => x
  | x :: r => x +:+ sep +:+ join sep r
  end.

End PyStr.

(** ** Exceptions *)

Inductive exn := ValueError | TypeError | OverflowError | ZeroDivisionError.

(** The outcome of running Python code: a value, or an exception that
    propagates to the caller. *)
Inductive result (A : Type) :=
| Ok (a : A)
| Raise (e : exn).
Arguments Ok {A} a.
Arguments Raise {A} e.

Definition bind {A B} (r : result A) (k : A -> result B) : result B :=
  match r with
  | Ok a => k a
  | Raise e => Raise e
  end.

Notation "'let*' x ':=' r 'in' k" := (bind r (fun x => k))
  (at level 10, x name, r at level 100, k at level 200).

(** [try: body / except (TypeError, ValueError): handler]: any other
    exception leaves the [try] statement. *)
Definition try_except_TypeError_ValueError {A}
    (body : result A) (handler : result A) : result A :=
  match body with
  | Raise ValueError | Raise TypeError => handler
  | r => r
  end.

(** ** Python numbers *)

Module PyNum.

(** *** [int(s)] and [str(n)] *)

(** Whitespace that [int()] skips around a literal. *)
Definition int_space (c : ascii) : bool :=
  let n := PyStr.code c in
  ((9 <=? n) && (n <=? 13)) || (n =? 32) || (n =? 133) || (n =? 160).

Definition digit (c : ascii) : option Z :=
  let n := PyStr.code c in
  if (48 <=? n) && (n <=? 57) then Some (n - 48) else None.

Fixpoint skip_space (s : string) : string :=
  match s with
  | String c t => if int_space c then skip_space t else s
  | EmptyString => EmptyString
  end.

(** Digits with single underscores between them.  Returns the value,
    the number of digits read and what follows the literal. *)
Fixpoint scan_digits (s : string) (acc : Z) (after_underscore : bool)
    (ndigits : nat) : option (Z * nat * string) :=
  match s with
  | EmptyString =>
      if after_underscore then None else Some (acc, ndigits, EmptyString)
  | String c t =>
      match digit c with
      | Some d => scan_digits t (10 * acc + d) false (S ndigits)
      | None =>
          if Ascii.eqb c "_"%char then
            if after_underscore then None
            else scan_digits t acc true ndigits
          else if after_underscore then None
               else Some (acc, ndigits, s)
      end
  end.

(** [sys.get_int_max_str_digits()], CPython's default. *)
Definition int_max_str_digits : nat := 4300.

Definition split_sign (s : string) : bool * string :=
  match s with
  | String c t =>
      if Ascii.eqb c "+"%char then (false, t)
      else if Ascii.eqb c "-"%char then (true, t)
      else (false, s)
  | EmptyString => (false, s)
  end.

(** [int(s)]: [None] stands for [ValueError]. *)
Definition int_of_str (s : string) : option Z :=
  let '(neg, body) := split_sign (skip_space s) in
  match body with
  | EmptyString => None
  | String c _ =>
      match digit c with
      | None => None
      | Some _ =>
          match scan_digits body 0 false O with
          | None => None
          | Some (v, n, rest) =>
              match skip_space rest with
              | EmptyString =>
                  if (int_max_str_digits <? n)%nat then None
                  else Some (if neg then - v else v)
              | String _ _ => None
              end
          end
      end
  end.

Definition py_int (s : string) : result Z :=
  match int_of_str s with
  | Some n => Ok n
  | None => Raise ValueError
  end.

(** [str(n)] for an integer. *)
Definition str_of_int (n : Z) : string :=
  DecimalString.NilZero.string_of_int (Z.to_int n).

(** *** Floats: IEEE 754 binary64 *)

Definition float := spec_float.
Definition prec : Z := 53.
Definition emax : Z := 1024.

(** An integer as an (unrounded) mantissa with exponent 0. *)
Definition exact_int (n : Z) : spec_float :=
  match n with
  | Z0 => S754_zero false
  | Zpos p => S754_finite false p 0
  | Zneg p => S754_finite true p 0
  end.

Definition is_inf (x : spec_float) : bool :=
  match x with S754_infinity _ => true | _ => false end.

(** Conversion of an [int] operand to [float]: round to nearest even,
    [OverflowError] past the largest double. *)
Definition float_of_int (n : Z) : result float :=
  let x := binary_normalize prec emax n 0 false in
  if is_inf x then Raise OverflowError else Ok x.

(** [a / b] on integers: the correctly rounded quotient. *)
Definition int_truediv (a b : Z) : result float :=
  if b =? 0 then Raise ZeroDivisionError
  else
    let x := SFdiv prec emax (exact_int a) (exact_int b) in
    if is_inf x then Raise OverflowError else Ok x.

Definition float_mul (x y : float) : float := SFmul prec emax x y.

(** The float literal [0.01]. *)
Definition float_0_01 : float :=
  SFdiv prec emax (exact_int 1) (exact_int 100).

(** [n * x] with an integer on the left. *)
Definition int_mul_float (n : Z) (x : float) : result float :=
  let* fn := float_of_int n in Ok (float_mul fn x).

(** [x * n] with an integer on the right. *)
Definition float_mul_int (x : float) (n : Z) : result float :=
  let* fn := float_of_int n in Ok (float_mul x fn).

(** The integer nearest to [m * 2^e * 10^ndigits], ties to even: what the
    shortest-digits conversion computes in fixed-point mode. *)
Definition round_half_even_scaled (m : positive) (e : Z) (ndigits : nat)
    : Z :=
  let num := Zpos m * 10 ^ Z.of_nat ndigits in
  if 0 <=? e then num * 2 ^ e
  else
    let den := 2 ^ (- e) in
    let q := num / den in
    let r := num mod den in
    match 2 * r ?= den with
    | Lt => q
    | Gt => q + 1
    | Eq => if Z.even q then q else q + 1
    end.

(** [round(x, ndigits)] for [0 <= ndigits]: round to a decimal string,
    read the string back as the nearest double. *)
Definition py_round (x : float) (ndigits : nat) : result float :=
  match x with
  | S754_finite s m e =>
      let k := round_half_even_scaled m e ndigits in
      match k with
      | Zpos p =>
          let y := SFdiv prec emax (S754_finite s p 0)
                     (exact_int (10 ^ Z.of_nat ndigits)) in
          if is_inf y then Raise OverflowError else Ok y
      | _ => Ok (S754_zero s)
      end
  | _ => Ok x
  end.

Definition zfill (width : nat) (s : string) : string :=
  PyStr.join EmptyString
    (repeat "0"%string (width - String.length s)) +:+ s.

(** [format(x, '.<ndigits>f')] for [0 < ndigits]. *)
Definition format_f (x : float) (ndigits : nat) : string :=
  match x with
  | S754_nan => "nan"
  | S754_infinity s => if s then "-inf" else "inf"
  | S754_zero s =>
      (if s then "-" else "") +:+ "0." +:+ zfill ndigits ""
  | S754_finite s m e =>
      let k := round_half_even_scaled m e ndigits in
      let p := 10 ^ Z.of_nat ndigits in
      (if s then "-" else "") +:+ str_of_int (k / p) +:+ "."
      +:+ zfill ndigits (str_of_int (k mod p))
  end.

End PyNum.

(** ** [repr] of strings and of lists of strings *)

Module PyRepr.
Import PyStr.

Definition hex_digit (n : Z) : ascii :=
  ascii_of_N (Z.to_N (if n <? 10 then 48 + n else 87 + n)).

(** Characters [repr] writes as an escape on U+0000..U+00FF. *)
Definition printable (c : ascii) : bool :=
  let n := code c in
  ((32 <=? n) && (n <=? 126)) || ((161 <=? n) && negb (n =? 173)).

Definition repr_char (quote : ascii) (c : ascii) : string :=
  if Ascii.eqb c quote || Ascii.eqb c backslash
  then String backslash (String c EmptyString)
  else if Ascii.eqb c "009"%char then String backslash "t"
  else if Ascii.eqb c "010"%char then String backslash "n"
  else if Ascii.eqb c "013"%char then String backslash "r"
  else if printable c then String c EmptyString
  else String backslash
         (String "x"%char
            (String (hex_digit (code c / 16))
               (String (hex_digit (code c mod 16)) EmptyString))).

Fixpoint repr_body (quote : ascii) (s : string) : string :=
  match s with
  | EmptyString => EmptyString
  | String c t => repr_char quote c +:+ repr_body quote t
  end.

(** [repr(s)] *)
Definition repr_str (s : string) : string :=
  let quote :=
    if (0 <? count squote s)%nat && (count dquote s =? 0)%nat
    then dquote else squote in
  String quote (repr_body quote s) +:+ String quote EmptyString.

(** [str(l)] for a list of strings, as an f-string renders it. *)
Definition str_of_list (l : list string) : string :=
  "[" +:+ join ", " (map repr_str l) +:+ "]".

End PyRepr.

(** ** The decoder *)

Import PyStr PyNum.

(** Values stored in the decoded mapping. *)
Inductive pyval :=
| VStr (s : string)
| VFloat (x : float)
| VList (l : list string).

(** [safe_get(seq, idx, default)]; [seq] is never [None] and [idx] always an
    [int] at the call sites, which the types record. *)
Definition safe_get {A} (seq : list A) (idx : Z) (default : A) : A :=
  if (idx <? 0) || (Z.of_nat (length seq) <=? idx) then default
  else nth (Z.to_nat idx) seq default.

Definition get_codec_value (codec : string) : string :=
  if String.eqb codec "P:4:0" then "G.729A"
  else if String.eqb codec "P:2:1" then "G.711 w/ Silence Suppression"
  else if String.eqb codec "P:1:1" then "G.711 u-law"
  else if String.eqb codec "P:6:0" then "Fax Relay"
  else "N/A".

Definition extract_device_name_from_contact (inv_contact_header : string)
    : string :=
  if negb (truthy inv_contact_header) then "N/A"
  else
    let h := strip inv_contact_header in
    let hl := lower h in
    if negb (existsb (fun token => contains token hl) ["csf"; "sep"; "vms"])
    then "N/A"
    else
      let parts := split "="%char h in
      let want_index : Z := if contains "transport" hl then 2 else 1 in
      if (want_index <? Z.of_nat (length parts))
         && truthy (strip (nth (Z.to_nat want_index) parts ""))
      then strip (nth (Z.to_nat want_index) parts "")
      else "N/A".

(** The substitution [re.sub(pattern, '', s)] whose pattern is a double
    quote, any run of characters other than a double quote, and a double
    quote: every span from a double quote to the next one is deleted; a last
    unpaired quote and what follows it stay. *)
Fixpoint re_sub_quoted_from (s : string) (skipping : bool) : string :=
  match s with
  | EmptyString => EmptyString
  | String c t =>
      if skipping then re_sub_quoted_from t (negb (Ascii.eqb c dquote))
      else if Ascii.eqb c dquote then
             if (0 <? count dquote t)%nat then re_sub_quoted_from t true
             else s
           else String c (re_sub_quoted_from t false)
  end.

Definition re_sub_quoted (s : string) : string := re_sub_quoted_from s false.

(** [x.split(",") if x else []] *)
Definition split_or_empty (x : string) : list string :=
  if truthy x then split ","%char x else [].

(** The decoded mapping: a Python [dict] from key to value. *)
Abbreviation dict := (gmap string pyval).

Section Decoder.

(** The lookup tables of [cdr_field_mappings], which the decoder reads
    with [.get(key, "Unknown Code")]. *)
Variable sip_cause_code_mapping : gmap string string.
Variable cdr_disconnect_reason : gmap string string.

Definition parse_prot_data_side (prot_data : list string)
    (side_prefix : string) (contact_idx : Z) : gmap string pyval :=
  let out : gmap string pyval :=
    <[side_prefix +:+ "_status" := VStr "N/A"]>
      (<[side_prefix +:+ "_call_id" := VStr "N/A"]> ∅) in
  if (length prot_data <? 19)%nat then out
  else
    let call_id := strip (safe_get prot_data 1 "") in
    let status_code := strip (safe_get prot_data 18 "") in
    let out :=
      if truthy call_id
      then <[side_prefix +:+ "_call_id" := VStr call_id]> out else out in
    let sip_key :=
      if truthy status_code then "sip_" +:+ status_code
      else "sip_UNKNOWN" in
    let sip_name :=
      if negb (String.eqb sip_key "sip_BYE")
      then default "Unknown Code" (sip_cause_code_mapping !! sip_key)
      else "BYE" in
    let code_display :=
      if truthy status_code then status_code else "UNKNOWN" in
    let out :=
      <[side_prefix +:+ "_status" :=
          VStr (code_display +:+ " (" +:+ sip_name +:+ ")")]> out in
    let inv_contact_header := safe_get prot_data contact_idx "" in
    let out_key_device :=
      if String.eqb side_prefix "ingress" then "ing_device_name"
      else "egr_device_name" in
    <[out_key_device :=
        VStr (extract_device_name_from_contact inv_contact_header)]> out.

(** *** Local variables of [parse_cdr_to_dict], as functions of the line *)

Definition cdr_fields_without_prot_data (raw_cdr : string) : list string :=
  split ","%char (strip (re_sub_quoted raw_cdr)).

Definition fields (raw_cdr : string) : list string :=
  split ","%char (strip raw_cdr).

Definition cdr_fields_parsed (raw_cdr : string) : list string :=
  split dquote (strip raw_cdr).

Definition cdr_type (raw_cdr : string) : string :=
  safe_get (fields raw_cdr) 0 "".

Definition ingr_prot_data_ck (raw_cdr : string) : string :=
  let cdr_type := cdr_type raw_cdr in
  if String.eqb cdr_type "ATTEMPT" then safe_get (fields raw_cdr) 44 ""
  else if String.eqb cdr_type "STOP" then safe_get (fields raw_cdr) 51 ""
  else if String.eqb cdr_type "START" then safe_get (fields raw_cdr) 41 ""
  else "".

(** The test of [if "SIP" in ingr_prot_data_ck or "GSX2GSX" in ...]. *)
Definition ingress_present (raw_cdr : string) : bool :=
  contains "SIP" (ingr_prot_data_ck raw_cdr)
  || contains "GSX2GSX" (ingr_prot_data_ck raw_cdr).

(** [if not any("SIP" in item for item in egr_prot_data):] the list is
    replaced by the empty one. *)
Definition discard_without_sip (egr_prot_data : list string)
    : list string :=
  if negb (existsb (fun item => contains "SIP" item) egr_prot_data)
  then [] else egr_prot_data.

Definition ingr_prot_data (raw_cdr : string) : list string :=
  if ingress_present raw_cdr then
    split_or_empty (strip (safe_get (cdr_fields_parsed raw_cdr) 1 ""))
  else [].

Definition egr_prot_data (raw_cdr : string) : list string :=
  let egr_prot_data :=
    if ingress_present raw_cdr then
      split_or_empty (strip (safe_get (cdr_fields_parsed raw_cdr) 3 ""))
    else
      split_or_empty (strip (safe_get (cdr_fields_parsed raw_cdr) 1 "")) in
  discard_without_sip egr_prot_data.

Definition calling_name (raw_cdr : string) : list string :=
  split_or_empty (strip (safe_get (cdr_fields_parsed raw_cdr) 5 "")).

(** *** Statements the three branches repeat *)

(** [parsed_data[key] = value] *)
Definition setitem (key : string) (value : pyval) (d : dict) : dict :=
  <[key := value]> d.

(** [parsed_data.update(other)] *)
Definition update (other d : dict) : dict := union other d.

(** [parsed_data.setdefault(key, value)] *)
Definition setdefault (key : string) (value : pyval) (d : dict) : dict :=
  match d !! key with
  | Some _ => d
  | None => <[key := value]> d
  end.

(** The disconnect reason: [DR<code>], or [drUNKNOWN] for a blank code,
    with the table's text in parentheses. *)
Definition disconnect_reason_text (dr_code : string) : string :=
  let disconnect_reason :=
    if truthy dr_code then "DR" +:+ dr_code else "drUNKNOWN" in
  let disconnect_name :=
    default "Unknown Code" (cdr_disconnect_reason !! disconnect_reason) in
  disconnect_reason +:+ " (" +:+ disconnect_name +:+ ")".

(** [service_provider if service_provider else "N/A"] *)
Definition or_na (s : string) : string := if truthy s then s else "N/A".

(** The calling number, annotated when [calling_name] is not empty. *)
Definition with_calling_name (calling_number : string)
    (calling_name : list string) : string :=
  match calling_name with
  | [] => calling_number
  | _ => calling_number +:+ " (" +:+ PyRepr.str_of_list calling_name +:+ ")"
  end.

Definition route_label_text (route_label : string) : string :=
  if negb (truthy route_label) then "N/A (GW-GW call)" else route_label.

Definition disconnect_initiator_text (disconnect_initiator : string)
    : string :=
  if String.eqb disconnect_initiator "0"
  then disconnect_initiator +:+ " (Internal)"
  else if String.eqb disconnect_initiator "1"
  then disconnect_initiator +:+ " (Calling Party)"
  else if String.eqb disconnect_initiator "2"
  then disconnect_initiator +:+ " (Called Party)"
  else if truthy disconnect_initiator
  then disconnect_initiator +:+ " (Invalid value found)"
  else "N/A".

(** The local and remote RTP address, set only when the raw field holds a
    slash. *)
Definition set_rtp_pair (local_key remote_key rtp_ip_port : string)
    (d : dict) : dict :=
  if truthy rtp_ip_port && contains "/" rtp_ip_port then
    let parts := split "/"%char (strip rtp_ip_port) in
    setitem remote_key (VStr (safe_get parts 1 ""))
      (setitem local_key (VStr (safe_get parts 0 "")) d)
  else d.

(** The [try] block that follows the three packet assignments of a STOP
    record.  [rcvd_raw] and [lost_raw] are the strings just stored under
    the received and lost keys; the outcome is the new text of the lost
    key, or [None] when the handler passes and the key keeps its value. *)
Definition packets_lost_text (rcvd_raw lost_raw : string)
    : result (option string) :=
  try_except_TypeError_ValueError
    (let* rcvd := py_int rcvd_raw in
     let* lost := py_int lost_raw in
     if (0 <=? lost) && (0 <? rcvd) then
       let* q := int_truediv lost rcvd in
       let* pct := float_mul_int q 100 in
       Ok (Some (str_of_int lost +:+ " (" +:+ format_f pct 1 +:+ "%)"))
     else Ok (Some (str_of_int lost)))
    (Ok None).

Definition add_loss_percentage (lost_key rcvd_raw lost_raw : string)
    (d : dict) : result dict :=
  let* text := packets_lost_text rcvd_raw lost_raw in
  Ok (match text with
      | Some v => setitem lost_key (VStr v) d
      | None => d
      end).

(** The [try] block that converts the duration of a STOP record: the
    value stored under the duration key. *)
Definition duration_value (duration_raw : string) : result pyval :=
  try_except_TypeError_ValueError
    (let* n := py_int duration_raw in
     let* duration_val := int_mul_float n float_0_01 in
     let* rounded := py_round duration_val 2 in
     Ok (VFloat rounded))
    (Ok (VStr "N/A")).

Definition set_duration (duration_raw : string) (d : dict) : result dict :=
  let* v := duration_value duration_raw in
  Ok (setitem "duration" v d).

Notation "d '.[' k ']' '<-' v" := (setitem k (VStr v) d)
  (at level 50, left associativity, format "d '//' .[ k ]  <-  v").

(** *** Everything before the dispatch on the record type *)

Definition common_part (raw_cdr : string) : dict :=
  let fields := fields raw_cdr in
  let parsed_data : dict := ∅ in
  let parsed_data :=
    setitem "calling_name" (VList (calling_name raw_cdr)) parsed_data in
  let parsed_data :=
    update (parse_prot_data_side (ingr_prot_data raw_cdr) "ingress" 12)
      parsed_data in
  let parsed_data :=
    update (parse_prot_data_side (egr_prot_data raw_cdr) "egress" 13)
      parsed_data in
  let parsed_data := setdefault "ing_device_name" (VStr "N/A") parsed_data in
  let parsed_data := setdefault "egr_device_name" (VStr "N/A") parsed_data in
  parsed_data
    .["cdr_type"] <- cdr_type raw_cdr
    .["gateway_name"] <- safe_get fields 1 ""
    .["start_date"] <- safe_get fields 5 ""
    .["start_time"] <- safe_get fields 6 "".

(** *** [if cdr_type == "ATTEMPT":] *)

Definition attempt_branch (raw_cdr : string) (parsed_data : dict) : dict :=
  let fields := fields raw_cdr in
  let cdr_fields_without_prot_data := cdr_fields_without_prot_data raw_cdr in
  let parsed_data :=
    parsed_data
      .["disconnect_time"] <- safe_get fields 9 ""
      .["duration"] <- "N/A"
      .["disconnect_reason"] <- disconnect_reason_text (safe_get fields 11 "")
      .["service_provider"] <- or_na (safe_get fields 14 "")
      .["calling_number"] <-
          with_calling_name (safe_get fields 16 "") (calling_name raw_cdr)
      .["called_number"] <- safe_get fields 17 ""
      .["billing_number"] <- safe_get fields 24 ""
      .["route_label"] <- route_label_text (safe_get fields 25 "")
      .["route_attempt_num"] <- safe_get fields 26 ""
      .["route_selected"] <- safe_get fields 27 ""
      .["ingress_tg"] <- safe_get fields 30 ""
      .["disconnect_initiator"] <-
          disconnect_initiator_text
            (safe_get cdr_fields_without_prot_data 56 "")
      .["egress_tg"] <- safe_get cdr_fields_without_prot_data 57 ""
      .["ingress_codec"] <-
          get_codec_value (safe_get cdr_fields_without_prot_data 68 "")
      .["egress_codec"] <-
          get_codec_value (safe_get cdr_fields_without_prot_data 69 "")
      .["sbc_call_id"] <- safe_get cdr_fields_without_prot_data 71 ""
      .["ingress_local_ip"] <- safe_get cdr_fields_without_prot_data 114 ""
      .["ingress_remote_ip"] <- safe_get cdr_fields_without_prot_data 115 ""
  in
  let parsed_data :=
    set_rtp_pair "ingress_local_rtp_ip" "ingress_remote_rtp_ip"
      (safe_get fields 32 "") parsed_data in
  let parsed_data :=
    parsed_data
      .["ingress_audio_packets_sent"] <- "N/A"
      .["ingress_audio_packets_rcvd"] <- "N/A"
      .["ingress_packets_lost"] <- "N/A"
      .["egress_local_ip"] <- safe_get fields 28 ""
      .["egress_remote_ip"] <- safe_get fields 29 "" in
  let parsed_data :=
    set_rtp_pair "egress_local_rtp_ip" "egress_remote_rtp_ip"
      (safe_get fields 34 "") parsed_data in
  parsed_data
    .["egress_audio_packets_sent"] <- "N/A"
    .["egress_audio_packets_rcvd"] <- "N/A"
    .["egress_packets_lost"] <- "N/A"
    .["stop_date"] <- safe_get cdr_fields_without_prot_data 104 "".

(** *** [if cdr_type == "STOP":] *)

Definition stop_branch (raw_cdr : string) (parsed_data : dict)
    : result dict :=
  let fields := fields raw_cdr in
  let cdr_fields_without_prot_data := cdr_fields_without_prot_data raw_cdr in
  let parsed_data :=
    parsed_data
      .["stop_date"] <- safe_get fields 10 ""
      .["disconnect_time"] <- safe_get fields 11 "" in
  let* parsed_data := set_duration (safe_get fields 13 "") parsed_data in
  let parsed_data :=
    parsed_data
      .["disconnect_reason"] <- disconnect_reason_text (safe_get fields 14 "")
      .["service_provider"] <- or_na (safe_get fields 17 "")
      .["calling_number"] <-
          with_calling_name (safe_get fields 19 "") (calling_name raw_cdr)
      .["called_number"] <- safe_get fields 20 ""
      .["billing_number"] <- safe_get fields 27 ""
      .["route_label"] <- route_label_text (safe_get fields 28 "")
      .["route_attempt_num"] <- safe_get fields 29 ""
      .["route_selected"] <- safe_get fields 30 ""
      .["ingress_tg"] <- safe_get fields 33 ""
      .["disconnect_initiator"] <-
          disconnect_initiator_text
            (safe_get cdr_fields_without_prot_data 63 "")
      .["egress_tg"] <- safe_get cdr_fields_without_prot_data 67 ""
      .["ingress_codec"] <-
          get_codec_value (safe_get cdr_fields_without_prot_data 78 "")
      .["egress_codec"] <-
          get_codec_value (safe_get cdr_fields_without_prot_data 79 "")
      .["sbc_call_id"] <- safe_get cdr_fields_without_prot_data 81 ""
      .["ingress_local_ip"] <- safe_get cdr_fields_without_prot_data 124 ""
      .["ingress_remote_ip"] <- safe_get cdr_fields_without_prot_data 125 ""
  in
  let parsed_data :=
    set_rtp_pair "ingress_local_rtp_ip" "ingress_remote_rtp_ip"
      (safe_get fields 35 "") parsed_data in
  let parsed_data :=
    parsed_data
      .["ingress_audio_packets_sent"] <- safe_get fields 39 ""
      .["ingress_audio_packets_rcvd"] <- safe_get fields 41 ""
      .["ingress_packets_lost"] <-
          safe_get cdr_fields_without_prot_data 64 "" in
  let* parsed_data :=
    add_loss_percentage "ingress_packets_lost" (safe_get fields 41 "")
      (safe_get cdr_fields_without_prot_data 64 "") parsed_data in
  let parsed_data :=
    parsed_data
      .["egress_local_ip"] <- safe_get fields 31 ""
      .["egress_remote_ip"] <- safe_get fields 32 "" in
  let parsed_data :=
    set_rtp_pair "egress_local_rtp_ip" "egress_remote_rtp_ip"
      (safe_get fields 37 "") parsed_data in
  let parsed_data :=
    parsed_data
      .["egress_audio_packets_sent"] <-
          safe_get cdr_fields_without_prot_data 145 ""
      .["egress_audio_packets_rcvd"] <-
          safe_get cdr_fields_without_prot_data 147 ""
      .["egress_packets_lost"] <-
          safe_get cdr_fields_without_prot_data 148 "" in
  add_loss_percentage "egress_packets_lost"
    (safe_get cdr_fields_without_prot_data 147 "")
    (safe_get cdr_fields_without_prot_data 148 "") parsed_data.

(** *** [if cdr_type == "START":] *)

Definition start_branch (raw_cdr : string) (parsed_data : dict) : dict :=
  let fields := fields raw_cdr in
  let cdr_fields_without_prot_data := cdr_fields_without_prot_data raw_cdr in
  let parsed_data :=
    parsed_data
      .["disconnect_time"] <- "N/A"
      .["duration"] <- "N/A"
      .["disconnect_reason"] <- "N/A"
      .["service_provider"] <- or_na (safe_get fields 12 "")
      .["calling_number"] <-
          with_calling_name (safe_get fields 15 "") (calling_name raw_cdr)
      .["called_number"] <- safe_get fields 16 ""
      .["billing_number"] <- safe_get fields 22 ""
      .["route_label"] <- route_label_text (safe_get fields 23 "")
      .["route_attempt_num"] <- safe_get fields 24 ""
      .["route_selected"] <- safe_get fields 25 ""
      .["ingress_tg"] <- safe_get fields 28 ""
      .["disconnect_initiator"] <- "N/A"
      .["egress_tg"] <- safe_get cdr_fields_without_prot_data 53 ""
      .["ingress_codec"] <- "N/A"
      .["egress_codec"] <- "N/A"
      .["sbc_call_id"] <- safe_get cdr_fields_without_prot_data 64 ""
      .["ingress_local_ip"] <- safe_get cdr_fields_without_prot_data 101 ""
      .["ingress_remote_ip"] <- safe_get cdr_fields_without_prot_data 102 ""
  in
  let parsed_data :=
    set_rtp_pair "ingress_local_rtp_ip" "ingress_remote_rtp_ip"
      (safe_get fields 30 "") parsed_data in
  let parsed_data :=
    parsed_data
      .["ingress_audio_packets_sent"] <- "N/A"
      .["ingress_audio_packets_rcvd"] <- "N/A"
      .["ingress_packets_lost"] <- "N/A"
      .["egress_local_ip"] <- safe_get fields 26 ""
      .["egress_remote_ip"] <- safe_get fields 27 "" in
  let parsed_data :=
    set_rtp_pair "egress_local_rtp_ip" "egress_remote_rtp_ip"
      (safe_get fields 32 "") parsed_data in
  parsed_data
    .["egress_audio_packets_sent"] <- "N/A"
    .["egress_audio_packets_rcvd"] <- "N/A"
    .["egress_packets_lost"] <- "N/A".

(** *** [parse_cdr_to_dict] *)

Definition parse_cdr_to_dict (raw_cdr : string) : result dict :=
  let cdr_type := cdr_type raw_cdr in
  let parsed_data := common_part raw_cdr in
  let* parsed_data :=
    if String.eqb cdr_type "ATTEMPT"
    then Ok (attempt_branch raw_cdr parsed_data) else Ok parsed_data in
  let* parsed_data :=
    if String.eqb cdr_type "STOP"
    then stop_branch raw_cdr parsed_data else Ok parsed_data in
  let* parsed_data :=
    if String.eqb cdr_type "START"
    then Ok (start_branch raw_cdr parsed_data) else Ok parsed_data in
  Ok parsed_data.

End Decoder.

(** ** Notions the specification speaks of *)

(** The field at a 1-based top-level position, with the accessor's
    default. *)
Definition field_at_position (p : Z) (raw_cdr : string) : string :=
  safe_get (fields raw_cdr) (p - 1) "".

(** Commas that lie outside double-quoted regions, a quote toggling the
    region: the specification's quote-aware field count is this plus one. *)
Fixpoint unquoted_commas_from (s : string) (inside : bool) : nat :=
  match s with
  | EmptyString => O
  | String c t =>
      if Ascii.eqb c dquote then unquoted_commas_from t (negb inside)
      else ((if Ascii.eqb c ","%char && negb inside then 1 else 0)
            + unquoted_commas_from t inside)%nat
  end.

Definition unquoted_commas (s : string) : nat := unquoted_commas_from s false.

(** The text up to the next double quote. *)
Fixpoint until_quote (s : string) : string :=
  match s with
  | EmptyString => EmptyString
  | String c t =>
      if Ascii.eqb c dquote then EmptyString else String c (until_quote t)
  end.

(** The specification's quoted segments: the contents between matching
    double quotes, in order of appearance (segment 1 is the head). *)
Fixpoint quoted_segments_from (s : string) (skipping : bool) : list string :=
  match s with
  | EmptyString => []
  | String c t =>
      if skipping then quoted_segments_from t (negb (Ascii.eqb c dquote))
      else if Ascii.eqb c dquote then
             if (0 <? count dquote t)%nat
             then until_quote t :: quoted_segments_from t true
             else []
           else quoted_segments_from t false
  end.

Definition quoted_segments (s : string) : list string :=
  quoted_segments_from s false.

(** The [k]-th quoted segment of a line, numbered from 1, empty when the
    line has fewer. *)
Definition quoted_segment (k : nat) (raw_cdr : string) : string :=
  nth (k - 1) (quoted_segments (strip raw_cdr)) "".

(** The keys every record gets, and the keys only a branch of the dispatch
    on the record type assigns. *)
Definition type_agnostic_keys : list string :=
  [ "calling_name"; "ingress_call_id"; "ingress_status"; "ing_device_name";
    "egress_call_id"; "egress_status"; "egr_device_name"; "cdr_type";
    "gateway_name"; "start_date"; "start_time" ].

Definition type_specific_keys : list string :=
  [ "disconnect_time"; "duration"; "disconnect_reason"; "service_provider";
    "calling_number"; "called_number"; "billing_number"; "route_label";
    "route_attempt_num"; "route_selected"; "ingress_tg";
    "disconnect_initiator"; "egress_tg"; "ingress_codec"; "egress_codec";
    "sbc_call_id"; "ingress_local_ip"; "ingress_remote_ip";
    "ingress_local_rtp_ip"; "ingress_remote_rtp_ip";
    "ingress_audio_packets_sent"; "ingress_audio_packets_rcvd";
    "ingress_packets_lost"; "egress_local_ip"; "egress_remote_ip";
    "egress_local_rtp_ip"; "egress_remote_rtp_ip";
    "egress_audio_packets_sent"; "egress_audio_packets_rcvd";
    "egress_packets_lost"; "stop_date" ].

Definition recognized (cdr_type : string) : bool :=
  String.eqb cdr_type "ATTEMPT" || String.eqb cdr_type "STOP"
  || String.eqb cdr_type "START".

(** A leg with fewer than the 19 tokens the sub-parser asks for. *)
Definition leg_short (l : list string) : bool := (length l <? 19)%nat.

(** [returns r P]: the run gives a value that satisfies [P]; the one
    exception that can leave the decoder is [OverflowError]. *)
Definition returns {A} (r : result A) (P : A -> Prop) : Prop :=
  match r with
  | Ok a => P a
  | Raise e => e = OverflowError
  end.

(** Segment [k] (from 1) of the line exists and is [seg]. *)
Definition segment_is (k : nat) (raw_cdr seg : string) : Prop :=
  nth_error (quoted_segments (strip raw_cdr)) (k - 1) = Some seg.

(** ** Concrete lines *)

Definition q : string := String dquote EmptyString.

Definition commas (n : nat) : string := join EmptyString (repeat "," n).
Definition zeros (n : nat) : string := join EmptyString (repeat "0" n).

(** One followed by 309 zeros: an integer past the largest double. *)
Definition huge_digits : string := "1" +:+ zeros 309.

(** Empty lookup tables. *)
Definition no_table : gmap string string := ∅.

(** A STOP record whose duration field (index 13) is [huge_digits]. *)
Definition stop_line_huge_duration : string :=
  "STOP" +:+ commas 13 +:+ huge_digits.

(** A STOP record with duration 2 followed by 308 zeros. *)
Definition stop_line_duration_2e308 : string :=
  "STOP" +:+ commas 13 +:+ "2" +:+ zeros 308.

Definition stop_line_306 : string := "STOP" +:+ commas 13 +:+ "306".
Definition stop_line_abc : string := "STOP" +:+ commas 13 +:+ "abc".

(** A STOP record that received 1 packet (index 41) and lost [huge_digits]
    (index 64). *)
Definition stop_line_huge_loss : string :=
  "STOP" +:+ commas 41 +:+ "1" +:+ commas 23 +:+ huge_digits.

(** A STOP record that received 20640 packets and lost 129. *)
Definition stop_line_129_of_20640 : string :=
  "STOP" +:+ commas 41 +:+ "20640" +:+ commas 23 +:+ "129".

(** A STOP record that received 0 packets and lost 0. *)
Definition stop_line_0_of_0 : string :=
  "STOP" +:+ commas 41 +:+ "0" +:+ commas 23 +:+ "0".

(** One quoted field holding a comma, between two plain fields. *)
Definition line_quoted_comma : string :=
  "a," +:+ q +:+ "b,c" +:+ q +:+ ",d".

(** Records whose field at 1-based position [p] is the numeral [p]. *)
Definition attempt_line_numbered : string :=
  "ATTEMPT,2,3,4,5,6,7,8,9,10,11,12,13,14,15,16,17,18,19,20".
Definition stop_line_numbered : string :=
  "STOP,2,3,4,5,6,7,8,9,10,11,12,13,14,15,16,17,18,19,20,21,22".
Definition start_line_numbered : string :=
  "START,2,3,4,5,6,7,8,9,10,11,12,13,14,15,16,17,18,19,20".

(** Five quoted segments A to E after an unrecognized first field. *)
Definition line_five_segments : string :=
  "X," +:+ q +:+ "A" +:+ q +:+ "," +:+ q +:+ "B" +:+ q +:+ ","
  +:+ q +:+ "C" +:+ q +:+ "," +:+ q +:+ "D" +:+ q +:+ ","
  +:+ q +:+ "E" +:+ q.

(** A START record whose checker field (index 41) opens the first of
    five quoted segments. *)
Definition start_line_five_segments : string :=
  "START" +:+ commas 41 +:+ q +:+ "SIP,a" +:+ q +:+ ","
  +:+ q +:+ "SIP,b" +:+ q +:+ "," +:+ q +:+ "C" +:+ q +:+ ","
  +:+ q +:+ "D" +:+ q +:+ "," +:+ q +:+ "E" +:+ q.

(** A START record whose checker field (index 41) opens the ingress trace,
    with two traces of 19 tokens and a calling name. *)
Definition start_line_two_legs : string :=
  "START" +:+ commas 41
  +:+ q +:+ "SIP,callA" +:+ commas 17 +:+ "BYE" +:+ q +:+ ","
  +:+ q +:+ "SIP,callB" +:+ commas 17 +:+ "404" +:+ q +:+ ","
  +:+ q +:+ "Bob" +:+ q.

(** A START record with number 5551234 at index 15 and the name Bob in
    its third quoted segment. *)
Definition start_line_bob : string :=
  "START" +:+ commas 15 +:+ "5551234," +:+ q +:+ "x" +:+ q +:+ ","
  +:+ q +:+ "y" +:+ q +:+ "," +:+ q +:+ "Bob" +:+ q.

(** The same record without quoted segments. *)
Definition start_line_no_name : string :=
  "START" +:+ commas 15 +:+ "5551234".

Definition unknown_type_line : string := "FOO,gw1,,,,02/22/2013,17:02:12.5".

(** ** Notions of the further properties *)

(** The kind of value a key may hold: a string, but for the calling name
    (a list of strings) and the duration (a string or a float). *)
Definition value_ok (k : string) (v : pyval) : Prop :=
  match v with
  | VStr _ => True
  | VList _ => k = "calling_name"
  | VFloat _ => k = "duration"
  end.

(** The two counts of a leg cannot reach the division: one of them is no
    integer, or nothing was received, or the loss is negative. *)
Definition no_percentage (rcvd_raw lost_raw : string) : Prop :=
  int_of_str rcvd_raw = None \/ int_of_str lost_raw = None
  \/ exists rcvd lost,
       int_of_str rcvd_raw = Some rcvd /\ int_of_str lost_raw = Some lost
       /\ (rcvd <= 0 \/ lost < 0).

(** The local and remote address the decoder stores for a raw RTP field
    that holds a slash. *)
Definition rtp_local (rtp_ip_port : string) : pyval :=
  VStr (safe_get (split "/"%char (strip rtp_ip_port)) 0 "").
Definition rtp_remote (rtp_ip_port : string) : pyval :=
  VStr (safe_get (split "/"%char (strip rtp_ip_port)) 1 "").

(** The four RTP keys of a record whose raw fields are [fi] (ingress) and
    [fe] (egress). *)
Definition rtp_keys_of (fi fe : string) (d : dict) : Prop :=
  d !! "ingress_local_rtp_ip"
    = (if contains "/" fi then Some (rtp_local fi) else None)
  /\ d !! "ingress_remote_rtp_ip"
     = (if contains "/" fi then Some (rtp_remote fi) else None)
  /\ d !! "egress_local_rtp_ip"
     = (if contains "/" fe then Some (rtp_local fe) else None)
  /\ d !! "egress_remote_rtp_ip"
     = (if contains "/" fe then Some (rtp_remote fe) else None).

(** The tokens of the quoted segment read as the egress trace, before the
    test for SIP. *)
Definition egress_trace (raw_cdr : string) : list string :=
  split_or_empty
    (strip (safe_get (cdr_fields_parsed raw_cdr)
              (if ingress_present raw_cdr then 3 else 1) "")).

(** ** The condensed view: [condensed_parse_cdr] *)

(** [parsed_data.get(key, "N/A")] *)
Definition get_or_na (parsed_data : dict) (key : string) : pyval :=
  default (VStr "N/A") (parsed_data !! key).

(** [parsed_cdr_sections]: five dict literals, each a list of rows in
    insertion order. *)
Definition parsed_cdr_sections (parsed_data : dict)
    : list (list (string * pyval)) :=
  let get := get_or_na parsed_data in
  [ [ ("CDR Type", get "cdr_type");
      ("Gateway Name", get "gateway_name");
      ("Disconnect Date", get "stop_date");
      ("Start Time", get "start_time");
      ("Disconnect Time", get "disconnect_time");
      ("Call Service Duration", get "duration");
      ("Calling Number", get "calling_number");
      ("Called Number", get "called_number");
      ("Billing Number", get "billing_number") ];
    [ ("Route Label", get "route_label");
      ("Route Attempt Number", get "route_attempt_num");
      ("Route Selected", get "route_selected");
      ("Service Provider", get "service_provider");
      ("GSX Call ID (GCID)", get "sbc_call_id") ];
    [ ("Call Disconnect Reason", get "disconnect_reason");
      ("Disconnect Initiator", get "disconnect_initiator");
      ("ING Status Msg for Call Release", get "ingress_status");
      ("EGR Status Msg for Call Release", get "egress_status") ];
    [ ("Ingress Trunk Group Name", get "ingress_tg");
      ("Ingress Call ID", get "ingress_call_id");
      ("Ingress Codec Type", get "ingress_codec");
      ("Ingress CUCM Device Name", get "ing_device_name");
      ("Ingress Local Signaling IP Addr", get "ingress_local_ip");
      ("Ingress Remote Signaling IP Addr", get "ingress_remote_ip");
      ("Ingress Local RTP IP Addr", get "ingress_local_rtp_ip");
      ("Ingress Remote RTP IP Addr", get "ingress_remote_rtp_ip");
      ("Ingress DSP Audio Packets Sent", get "ingress_audio_packets_sent");
      ("Ingress DSP Audio Packets Rcvd", get "ingress_audio_packets_rcvd");
      ("Ingress Number Packets Lost", get "ingress_packets_lost") ];
    [ ("Egress Trunk Group Name", get "egress_tg");
      ("Egress Call ID", get "egress_call_id");
      ("Egress Codec Type", get "egress_codec");
      ("Egress CUCM Device Name", get "egr_device_name");
      ("Egress Local Signaling IP Addr", get "egress_local_ip");
      ("Egress Remote Signaling IP Addr", get "egress_remote_ip");
      ("Egress Local RTP IP Addr", get "egress_local_rtp_ip");
      ("Egress Remote RTP IP Addr", get "egress_remote_rtp_ip");
      ("Egress DSP Audio Packets Sent", get "egress_audio_packets_sent");
      ("Egress DSP Audio Packets Rcvd", get "egress_audio_packets_rcvd");
      ("Egress Number Packets Lost", get "egress_packets_lost") ] ].

(** The test on the label in [add_section]. *)
Definition suppressible (k : string) : bool :=
  contains "CUCM Device Name" k || contains "DSP Audio Packets" k
  || contains "Number Packets Lost" k
  || String.eqb k "Call Service Duration".

(** [v == "N/A"]: a float or a list is never equal to a string. *)
Definition eq_na (v : pyval) : bool :=
  match v with
  | VStr s => String.eqb s "N/A"
  | VFloat _ | VList _ => false
  end.

(** The loop of [add_section] that builds [visible_items]. *)
Definition visible_items (fields : list (string * pyval))
    : list (string * pyval) :=
  fold_left
    (fun visible_items '(k, v) =>
       if suppressible k && eq_na v then visible_items
       else visible_items ++ [(k, v)])
    fields [].

(** The keys of the decoded mapping the condensed view reads. *)
Definition displayed_keys : list string :=
  [ "cdr_type"; "gateway_name"; "stop_date"; "start_time";
    "disconnect_time"; "duration"; "calling_number"; "called_number";
    "billing_number"; "route_label"; "route_attempt_num"; "route_selected";
    "service_provider"; "sbc_call_id"; "disconnect_reason";
    "disconnect_initiator"; "ingress_status"; "egress_status";
    "ingress_tg"; "ingress_call_id"; "ingress_codec"; "ing_device_name";
    "ingress_local_ip"; "ingress_remote_ip"; "ingress_local_rtp_ip";
    "ingress_remote_rtp_ip"; "ingress_audio_packets_sent";
    "ingress_audio_packets_rcvd"; "ingress_packets_lost"; "egress_tg";
    "egress_call_id"; "egress_codec"; "egr_device_name"; "egress_local_ip";
    "egress_remote_ip"; "egress_local_rtp_ip"; "egress_remote_rtp_ip";
    "egress_audio_packets_sent"; "egress_audio_packets_rcvd";
    "egress_packets_lost" ].

(** The labels of the rows that show a measurement of the finished call. *)
Definition measurement_labels : list string :=
  [ "Call Service Duration";
    "Ingress DSP Audio Packets Sent"; "Ingress DSP Audio Packets Rcvd";
    "Ingress Number Packets Lost";
    "Egress DSP Audio Packets Sent"; "Egress DSP Audio Packets Rcvd";
    "Egress Number Packets Lost" ].

(** ** The full view: the nested functions of [parse_cdr] *)

(** [block_edit(event)], as a function of [event.state] and
    [event.keysym]: [None] lets the key through, the string stops it. *)
Definition block_edit (state : Z) (keysym : string) : option string :=
  if negb (Z.land state 4 =? 0)
     && existsb (String.eqb (lower keysym)) ["c"; "a"]
  then None else Some "break".

(** The two variables the search functions share. *)
Record search_state := {
  search_matches : list (string * string);
  search_index : Z
}.

(** [goto_match(idx)]: the new value of the shared variables. *)
Definition goto_match (idx : Z) (st : search_state) : search_state :=
  match search_matches st with
  | [] => st
  | _ :: _ =>
      {| search_matches := search_matches st;
         search_index := idx mod Z.of_nat (length (search_matches st)) |}
  end.

Definition next_match (st : search_state) : search_state :=
  match search_matches st with
  | [] => st
  | _ :: _ => goto_match (search_index st + 1) st
  end.

Definition prev_match (st : search_state) : search_state :=
  match search_matches st with
  | [] => st
  | _ :: _ => goto_match (search_index st - 1) st
  end.

(** The span [goto_match] selects: [search_matches[search_index]]. *)
Definition selected (st : search_state) : option (string * string) :=
  if search_index st <? 0 then None
  else nth_error (search_matches st) (Z.to_nat (search_index st)).

(** A character of the text matches a character of the escaped query,
    with [re.IGNORECASE] or without. *)
Definition char_matches (ignore_case : bool) (p c : ascii) : bool :=
  if ignore_case then Ascii.eqb (lower_char p) (lower_char c)
  else Ascii.eqb p c.

(** The query matches at the start of the text. *)
Fixpoint matches_at (ignore_case : bool) (q text : string) : bool :=
  match q, text with
  | EmptyString, _ => true
  | String _ _, EmptyString => false
  | String p q', String c text' =>
      char_matches ignore_case p c && matches_at ignore_case q' text'
  end.

(** [re.finditer(re.escape(q), text, flags)] for a query that is not
    empty: the spans of the matches, scanning from the left and resuming
    after each match.  [pos] is the offset of [text] and [skip] the number
    of characters of the last match still to pass. *)
Fixpoint finditer_from (ignore_case : bool) (q text : string)
    (pos skip : nat) : list (nat * nat) :=
  match text with
  | EmptyString => []
  | String _ text' =>
      match skip with
      | S skip' => finditer_from ignore_case q text' (S pos) skip'
      | O =>
          if matches_at ignore_case q text
          then (pos, (pos + String.length q)%nat)
               :: finditer_from ignore_case q text' (S pos)
                    (String.length q - 1)
          else finditer_from ignore_case q text' (S pos) 0
      end
  end.

Definition finditer (ignore_case : bool) (q text : string)
    : list (nat * nat) :=
  finditer_from ignore_case q text 0 0.

(** The index [1.0+<n>c] of a text widget. *)
Definition tk_index (n : nat) : string :=
  "1.0+" +:+ str_of_int (Z.of_nat n) +:+ "c".

(** [run_search(find_next)], as a function of the entry's text, the
    check box and the widget's text: the shared variables and the status
    line it leaves. *)
Definition run_search (entry : string) (ignore_case : bool) (text : string)
    (find_next : bool) : search_state * string :=
  let q := strip entry in
  if negb (truthy q)
  then ({| search_matches := []; search_index := -1 |}, "")
  else
    let found :=
      map (fun m : nat * nat => (tk_index (fst m), tk_index (snd m)))
        (finditer ignore_case q text) in
    let st := {| search_matches := found; search_index := -1 |} in
    let status :=
      str_of_int (Z.of_nat (length found)) +:+ " match(es)" in
    (match found with
     | _ :: _ => if find_next then goto_match 0 st else st
     | [] => st
     end, status).

(** [text[n:]] *)
Fixpoint slice_from (n : nat) (text : string) : string :=
  match n, text with
  | O, _ => text
  | S n', String _ text' => slice_from n' text'
  | S _, EmptyString => EmptyString
  end.

(** ** Properties of the string primitives *)

Section StringFacts.

Lemma rstrip_cons c t :
  rstrip (String c t)
  = if isspace c && negb (truthy (rstrip t)) then EmptyString
    else String c (rstrip t).
Proof.
  cbn [rstrip]. destruct (rstrip t); cbn; destruct (isspace c); reflexivity.
Qed.

Lemma rstrip_idempotent s : rstrip (rstrip s) = rstrip s.
Proof.
  induction s as [|c t IH]; [reflexivity|].
  rewrite rstrip_cons.
  destruct (isspace c && negb (truthy (rstrip t))) eqn:E; [reflexivity|].
  rewrite rstrip_cons, IH, E. reflexivity.
Qed.

Lemma lstrip_idempotent s : lstrip (lstrip s) = lstrip s.
Proof.
  induction s as [|c t IH]; [reflexivity|].
  cbn [lstrip]. destruct (isspace c) eqn:E; [exact IH|].
  cbn [lstrip]. rewrite E. reflexivity.
Qed.

Lemma lstrip_rstrip s : lstrip (rstrip s) = rstrip (lstrip s).
Proof.
  induction s as [|c t IH]; [reflexivity|].
  rewrite rstrip_cons. cbn [lstrip].
  destruct (isspace c) eqn:E; cbn [andb].
  - rewrite <- IH. destruct (rstrip t); cbn; [reflexivity|].
    rewrite E. reflexivity.
  - cbn [lstrip]. rewrite E, rstrip_cons, E. reflexivity.
Qed.

Lemma strip_idempotent s : strip (strip s) = strip s.
Proof.
  unfold strip.
  rewrite lstrip_rstrip, lstrip_idempotent, rstrip_idempotent.
  reflexivity.
Qed.

(** Stripping removes whitespace only. *)
Lemma count_lstrip c s : isspace c = false -> count c (lstrip s) = count c s.
Proof.
  intros Hc. induction s as [|d t IH]; [reflexivity|].
  cbn [lstrip]. destruct (isspace d) eqn:E; [|reflexivity].
  rewrite IH. cbn [count].
  destruct (Ascii.eqb_spec d c) as [->|]; [congruence | reflexivity].
Qed.

Lemma count_rstrip c s : isspace c = false -> count c (rstrip s) = count c s.
Proof.
  intros Hc. induction s as [|d t IH]; [reflexivity|].
  rewrite rstrip_cons.
  destruct (isspace d && negb (truthy (rstrip t))) eqn:E.
  - apply andb_true_iff in E as [Hd Ht].
    cbn [count]. rewrite <- IH.
    destruct (rstrip t); [|discriminate].
    destruct (Ascii.eqb_spec d c) as [->|]; [congruence | reflexivity].
  - cbn [count]. rewrite IH. reflexivity.
Qed.

Lemma count_strip c s : isspace c = false -> count c (strip s) = count c s.
Proof.
  intros Hc. unfold strip. rewrite count_rstrip, count_lstrip; auto.
Qed.

Lemma split_nonempty sep s : split sep s <> [].
Proof.
  destruct s as [|c t]; cbn; [discriminate|].
  destruct (Ascii.eqb c sep); [discriminate|].
  destruct (split sep t); discriminate.
Qed.

Lemma split_cons sep c t :
  split sep (String c t)
  = if Ascii.eqb c sep then EmptyString :: split sep t
    else String c (hd EmptyString (split sep t)) :: tl (split sep t).
Proof.
  cbn [split]. destruct (Ascii.eqb c sep); [reflexivity|].
  pose proof (split_nonempty sep t).
  destruct (split sep t); [contradiction | reflexivity].
Qed.

(** A split has one more piece than the line has separators. *)
Lemma length_split sep s : length (split sep s) = S (count sep s).
Proof.
  induction s as [|c t IH]; [reflexivity|].
  rewrite split_cons. cbn [count].
  destruct (Ascii.eqb c sep); cbn [length Nat.add]; [rewrite IH; reflexivity|].
  rewrite <- IH. pose proof (split_nonempty sep t).
  destruct (split sep t); [contradiction | reflexivity].
Qed.

End StringFacts.

(** ** Properties of the quote scanner *)

Section QuoteFacts.

Lemma isspace_dquote : isspace dquote = false.
Proof. reflexivity. Qed.

Lemma isspace_comma : isspace ","%char = false.
Proof. reflexivity. Qed.

Lemma isspace_not_dquote c : isspace c = true -> Ascii.eqb c dquote = false.
Proof.
  intros H. destruct (Ascii.eqb_spec c dquote) as [->|]; [|reflexivity].
  rewrite isspace_dquote in H. discriminate.
Qed.

(** Leading whitespace is outside every quoted span. *)
Lemma lstrip_re_sub_quoted s :
  lstrip (re_sub_quoted s) = lstrip (re_sub_quoted (lstrip s)).
Proof.
  unfold re_sub_quoted.
  induction s as [|c t IH]; [reflexivity|].
  cbn [lstrip]. destruct (isspace c) eqn:E; [|reflexivity].
  rewrite <- IH. cbn [re_sub_quoted_from].
  rewrite (isspace_not_dquote c E). cbn [lstrip]. rewrite E. reflexivity.
Qed.

(** Trailing whitespace never closes a span. *)
Lemma rstrip_re_sub_quoted_from s skipping :
  rstrip (re_sub_quoted_from s skipping)
  = rstrip (re_sub_quoted_from (rstrip s) skipping).
Proof.
  revert skipping. induction s as [|c t IH]; intros skipping; [reflexivity|].
  rewrite (rstrip_cons c t).
  destruct (isspace c && negb (truthy (rstrip t))) eqn:E.
  - apply andb_true_iff in E as [Hc Ht].
    assert (Hr : rstrip t = EmptyString) by (destruct (rstrip t); [reflexivity | discriminate]).
    cbn [re_sub_quoted_from]. rewrite (isspace_not_dquote c Hc).
    destruct skipping; cbn [negb].
    + rewrite IH, Hr. reflexivity.
    + rewrite rstrip_cons, IH, Hr. cbn. rewrite Hc. reflexivity.
  - cbn [re_sub_quoted_from]. destruct skipping; [apply IH|].
    destruct (Ascii.eqb c dquote) eqn:Eq.
    + rewrite (count_rstrip dquote t isspace_dquote).
      destruct (0 <? count dquote t)%nat; [apply IH|].
      rewrite !rstrip_cons, rstrip_idempotent. reflexivity.
    + rewrite !rstrip_cons, IH. reflexivity.
Qed.

Lemma strip_re_sub_quoted s :
  strip (re_sub_quoted (strip s)) = strip (re_sub_quoted s).
Proof.
  unfold strip at 1 3.
  rewrite (lstrip_re_sub_quoted s).
  rewrite <- !lstrip_rstrip.
  unfold re_sub_quoted.
  rewrite (rstrip_re_sub_quoted_from (lstrip s) false).
  unfold strip. reflexivity.
Qed.

(** On a line with balanced quotes, what the substitution leaves holds
    exactly the unquoted commas. *)
Lemma count_comma_re_sub_quoted_from s :
  (Nat.even (count dquote s) = true ->
   count ","%char (re_sub_quoted_from s false) = unquoted_commas_from s false)
  /\ (Nat.odd (count dquote s) = true ->
      count ","%char (re_sub_quoted_from s true) = unquoted_commas_from s true).
Proof.
  induction s as [|c t [IHe IHo]]; [split; intros; reflexivity|].
  cbn [count re_sub_quoted_from unquoted_commas_from].
  destruct (Ascii.eqb_spec c dquote) as [->|Hne]; cbn [Nat.add negb andb].
  - split; intros H.
    + rewrite Nat.even_succ in H.
      destruct (count dquote t) eqn:Ec; [discriminate|].
      cbn [Nat.ltb Nat.leb]. rewrite <- Ec in *. apply IHo, H.
    + rewrite Nat.odd_succ in H. apply IHe, H.
  - split; intros H.
    + cbn [count]. rewrite IHe by exact H.
      rewrite andb_true_r. reflexivity.
    + rewrite IHo by exact H. rewrite andb_false_r. reflexivity.
Qed.

Lemma count_comma_re_sub_quoted s :
  Nat.even (count dquote s) = true ->
  count ","%char (re_sub_quoted s) = unquoted_commas s.
Proof. apply count_comma_re_sub_quoted_from. Qed.

Lemma split_head s : hd EmptyString (split dquote s) = until_quote s.
Proof.
  induction s as [|c t IH]; [reflexivity|].
  rewrite split_cons. cbn [until_quote].
  destruct (Ascii.eqb c dquote); cbn [hd]; [reflexivity|].
  rewrite IH. reflexivity.
Qed.

(** A quoted segment is an odd-numbered piece of the split on quotes:
    segment [k] (from 0) is piece [2k+1] outside a span, and piece [2k+2]
    when the scan starts inside one. *)
Lemma quoted_segments_from_split s :
  forall (k : nat) (seg : string),
    (nth_error (quoted_segments_from s false) k = Some seg ->
     nth_error (split dquote s) (2 * k + 1) = Some seg)
    /\ (nth_error (quoted_segments_from s true) k = Some seg ->
        nth_error (split dquote s) (2 * k + 2) = Some seg).
Proof.
  induction s as [|c t IH]; intros k seg.
  - split; intros H; destruct k; discriminate.
  - rewrite split_cons. cbn [quoted_segments_from].
    destruct (Ascii.eqb c dquote) eqn:Eq; cbn [negb].
    + split; intros H.
      * destruct (0 <? count dquote t)%nat; [|destruct k; discriminate].
        destruct k as [|k].
        -- cbn in H. injection H as <-. cbn.
           pose proof (split_head t) as Hh. pose proof (split_nonempty dquote t).
           destruct (split dquote t); [contradiction|]. cbn in Hh. subst. reflexivity.
        -- cbn [nth_error] in H. apply (IH k seg) in H.
           replace (2 * S k + 1)%nat with (S (2 * k + 2)) by lia. exact H.
      * apply (IH k seg) in H.
        replace (2 * k + 2)%nat with (S (2 * k + 1)) by lia. exact H.
    + pose proof (split_nonempty dquote t) as Hn.
      destruct (split dquote t) as [|h r] eqn:Es; [contradiction|].
      cbn [hd tl]. split; intros H; apply (IH k seg) in H.
      * replace (2 * k + 1)%nat with (S (2 * k)) in * by lia. exact H.
      * replace (2 * k + 2)%nat with (S (2 * k + 1)) in * by lia. exact H.
Qed.

Lemma safe_get_nth_error {A} (l : list A) (i : nat) (x d : A) :
  nth_error l i = Some x -> safe_get l (Z.of_nat i) d = x.
Proof.
  intros H. unfold safe_get.
  assert (Hlt : (i < length l)%nat) by (apply nth_error_Some; congruence).
  destruct (Z.ltb_spec (Z.of_nat i) 0); [lia|].
  destruct (Z.leb_spec (Z.of_nat (length l)) (Z.of_nat i)); [lia|].
  cbn [orb]. rewrite Nat2Z.id. apply nth_error_nth. exact H.
Qed.

(** The piece of [cdr_fields_parsed] the decoder reads for a quoted
    segment that exists. *)
Lemma cdr_fields_parsed_segment raw_cdr (k : nat) seg :
  nth_error (quoted_segments (strip raw_cdr)) k = Some seg ->
  safe_get (cdr_fields_parsed raw_cdr) (2 * Z.of_nat k + 1) "" = seg.
Proof.
  intros H. apply (quoted_segments_from_split (strip raw_cdr) k seg) in H.
  replace (2 * Z.of_nat k + 1) with (Z.of_nat (2 * k + 1)) by lia.
  apply safe_get_nth_error. exact H.
Qed.

End QuoteFacts.

(** ** Properties of the decoder's building blocks *)

Section DecoderFacts.

Variable sip_cause_code_mapping : gmap string string.
Variable cdr_disconnect_reason : gmap string string.

Local Abbreviation parse_side := (parse_prot_data_side sip_cause_code_mapping).
Local Abbreviation common := (common_part sip_cause_code_mapping).
Local Abbreviation parse :=
  (parse_cdr_to_dict sip_cause_code_mapping cdr_disconnect_reason).

Lemma safe_get_default {A} (l : list A) (i : Z) (d : A) :
  Z.of_nat (length l) <= i -> safe_get l i d = d.
Proof.
  intros H. unfold safe_get.
  destruct (Z.leb_spec (Z.of_nat (length l)) i); [|lia].
  rewrite orb_true_r. reflexivity.
Qed.

(** *** Stripping the line first changes nothing *)

Lemma fields_strip raw_cdr : fields (strip raw_cdr) = fields raw_cdr.
Proof. unfold fields. rewrite strip_idempotent. reflexivity. Qed.

Lemma cdr_fields_parsed_strip raw_cdr :
  cdr_fields_parsed (strip raw_cdr) = cdr_fields_parsed raw_cdr.
Proof. unfold cdr_fields_parsed. rewrite strip_idempotent. reflexivity. Qed.

Lemma cdr_fields_without_prot_data_strip raw_cdr :
  cdr_fields_without_prot_data (strip raw_cdr)
  = cdr_fields_without_prot_data raw_cdr.
Proof.
  unfold cdr_fields_without_prot_data. rewrite strip_re_sub_quoted.
  reflexivity.
Qed.

Lemma cdr_type_strip raw_cdr : cdr_type (strip raw_cdr) = cdr_type raw_cdr.
Proof. unfold cdr_type. rewrite fields_strip. reflexivity. Qed.

Lemma ingress_present_strip raw_cdr :
  ingress_present (strip raw_cdr) = ingress_present raw_cdr.
Proof.
  unfold ingress_present, ingr_prot_data_ck.
  rewrite cdr_type_strip, fields_strip. reflexivity.
Qed.

Lemma ingr_prot_data_strip raw_cdr :
  ingr_prot_data (strip raw_cdr) = ingr_prot_data raw_cdr.
Proof.
  unfold ingr_prot_data.
  rewrite ingress_present_strip, cdr_fields_parsed_strip. reflexivity.
Qed.

Lemma egr_prot_data_strip raw_cdr :
  egr_prot_data (strip raw_cdr) = egr_prot_data raw_cdr.
Proof.
  unfold egr_prot_data.
  rewrite ingress_present_strip, cdr_fields_parsed_strip. reflexivity.
Qed.

Lemma calling_name_strip raw_cdr :
  calling_name (strip raw_cdr) = calling_name raw_cdr.
Proof. unfold calling_name. rewrite cdr_fields_parsed_strip. reflexivity. Qed.

Lemma common_part_strip raw_cdr : common (strip raw_cdr) = common raw_cdr.
Proof.
  unfold common_part.
  rewrite calling_name_strip, ingr_prot_data_strip, egr_prot_data_strip,
    cdr_type_strip, fields_strip.
  reflexivity.
Qed.

Lemma attempt_branch_strip raw_cdr d :
  attempt_branch cdr_disconnect_reason (strip raw_cdr) d
  = attempt_branch cdr_disconnect_reason raw_cdr d.
Proof.
  unfold attempt_branch.
  rewrite calling_name_strip, fields_strip,
    cdr_fields_without_prot_data_strip.
  reflexivity.
Qed.

Lemma stop_branch_strip raw_cdr d :
  stop_branch cdr_disconnect_reason (strip raw_cdr) d
  = stop_branch cdr_disconnect_reason raw_cdr d.
Proof.
  unfold stop_branch.
  rewrite calling_name_strip, fields_strip,
    cdr_fields_without_prot_data_strip.
  reflexivity.
Qed.

Lemma start_branch_strip raw_cdr d :
  start_branch (strip raw_cdr) d = start_branch raw_cdr d.
Proof.
  unfold start_branch.
  rewrite calling_name_strip, fields_strip,
    cdr_fields_without_prot_data_strip.
  reflexivity.
Qed.

(** *** Which exceptions can leave the decoder *)

Lemma py_int_raises s e : py_int s = Raise e -> e = ValueError.
Proof. unfold py_int. destruct (int_of_str s); congruence. Qed.

Lemma float_of_int_raises n e :
  float_of_int n = Raise e -> e = OverflowError.
Proof.
  unfold float_of_int.
  destruct (is_inf (binary_normalize prec emax n 0 false)); congruence.
Qed.

Lemma py_round_raises x n e : py_round x n = Raise e -> e = OverflowError.
Proof.
  unfold py_round. destruct x as [| | |s m ex]; try discriminate.
  destruct (round_half_even_scaled m ex n); try discriminate.
  match goal with |- context [is_inf ?y] => destruct (is_inf y) end;
    congruence.
Qed.

Lemma duration_value_raises duration_raw e :
  duration_value duration_raw = Raise e -> e = OverflowError.
Proof.
  unfold duration_value, int_mul_float.
  destruct (py_int duration_raw) as [n|e1] eqn:E1; cbn [bind].
  - destruct (float_of_int n) as [x|e2] eqn:E2; cbn [bind].
    + destruct (py_round (float_mul x float_0_01) 2) as [y|e3] eqn:E3;
        cbn [bind try_except_TypeError_ValueError]; [discriminate|].
      apply py_round_raises in E3. subst e3. cbn. congruence.
    + apply float_of_int_raises in E2. subst e2. cbn. congruence.
  - apply py_int_raises in E1. subst e1. cbn. discriminate.
Qed.

Lemma packets_lost_text_raises rcvd_raw lost_raw e :
  packets_lost_text rcvd_raw lost_raw = Raise e -> e = OverflowError.
Proof.
  unfold packets_lost_text.
  destruct (py_int rcvd_raw) as [rcvd|e1] eqn:E1; cbn [bind];
    [|apply py_int_raises in E1; subst e1; cbn; discriminate].
  destruct (py_int lost_raw) as [lost|e2] eqn:E2; cbn [bind];
    [|apply py_int_raises in E2; subst e2; cbn; discriminate].
  destruct ((0 <=? lost) && (0 <? rcvd)) eqn:G; [|cbn; discriminate].
  apply andb_true_iff in G as [_ G]. apply Z.ltb_lt in G.
  unfold int_truediv, float_mul_int.
  destruct (Z.eqb_spec rcvd 0) as [->|_]; [lia|].
  match goal with |- context [is_inf ?y] => destruct (is_inf y) end;
    cbn [bind]; [cbn; congruence|].
  unfold float_of_int.
  match goal with |- context [is_inf ?y] => destruct (is_inf y) end;
    cbn; congruence.
Qed.

(** The handler leaves the lost key alone when either count does not parse. *)
Lemma packets_lost_text_unparsed rcvd_raw lost_raw :
  int_of_str rcvd_raw = None \/ int_of_str lost_raw = None ->
  packets_lost_text rcvd_raw lost_raw = Ok None.
Proof.
  unfold packets_lost_text, py_int. intros [H|H].
  - rewrite H. reflexivity.
  - rewrite H. destruct (int_of_str rcvd_raw); reflexivity.
Qed.

(** No percentage without received packets or with a negative loss. *)
Lemma packets_lost_text_plain rcvd_raw lost_raw rcvd lost :
  int_of_str rcvd_raw = Some rcvd -> int_of_str lost_raw = Some lost ->
  rcvd <= 0 \/ lost < 0 ->
  packets_lost_text rcvd_raw lost_raw = Ok (Some (str_of_int lost)).
Proof.
  unfold packets_lost_text, py_int. intros -> -> H. cbn [bind].
  replace ((0 <=? lost) && (0 <? rcvd)) with false; [reflexivity|].
  symmetry. apply andb_false_iff.
  destruct H; [right; apply Z.ltb_ge | left; apply Z.leb_gt]; lia.
Qed.

(** A text that does not parse as an integer gives the placeholder. *)
Lemma duration_value_unparsed duration_raw :
  int_of_str duration_raw = None ->
  duration_value duration_raw = Ok (VStr "N/A").
Proof. unfold duration_value, py_int. intros ->. reflexivity. Qed.

End DecoderFacts.

(** ** The decoded mapping, key by key *)

Section DictFacts.

Variable sip_cause_code_mapping : gmap string string.
Variable cdr_disconnect_reason : gmap string string.

Local Abbreviation parse_side := (parse_prot_data_side sip_cause_code_mapping).
Local Abbreviation common := (common_part sip_cause_code_mapping).
Local Abbreviation parse :=
  (parse_cdr_to_dict sip_cause_code_mapping cdr_disconnect_reason).

(** Lookups below a run of assignments to other, literal keys. *)
Ltac skip_other_keys :=
  unfold setitem;
  repeat (rewrite lookup_insert_ne by (first [discriminate | congruence])).

Lemma lookup_setdefault_ne key k v (d : dict) :
  key <> k -> setdefault key v d !! k = d !! k.
Proof.
  intros H. unfold setdefault. destruct (d !! key); [reflexivity|].
  by rewrite lookup_insert_ne.
Qed.

Lemma lookup_setdefault_eq key v (d : dict) :
  setdefault key v d !! key = Some (default v (d !! key)).
Proof.
  unfold setdefault. destruct (d !! key) eqn:E; cbn; [exact E|].
  by rewrite lookup_insert_eq.
Qed.

Lemma lookup_update_None (other d : dict) k :
  other !! k = None -> update other d !! k = d !! k.
Proof. intros H. unfold update. by apply lookup_union_r. Qed.

Lemma lookup_update_Some (other d : dict) k v :
  other !! k = Some v -> update other d !! k = Some v.
Proof. intros H. unfold update. by apply lookup_union_Some_l. Qed.

Lemma lookup_set_rtp_pair_ne local_key remote_key x (d : dict) k :
  local_key <> k -> remote_key <> k ->
  set_rtp_pair local_key remote_key x d !! k = d !! k.
Proof.
  intros H1 H2. unfold set_rtp_pair.
  destruct (truthy x && contains "/" x); [|reflexivity].
  by skip_other_keys.
Qed.

(** *** One leg *)

Lemma parse_side_unfold l side_prefix contact_idx :
  parse_side l side_prefix contact_idx
  = let out : dict :=
      <[side_prefix +:+ "_status" := VStr "N/A"]>
        (<[side_prefix +:+ "_call_id" := VStr "N/A"]> ∅) in
    if (length l <? 19)%nat then out
    else
      <[(if String.eqb side_prefix "ingress" then "ing_device_name"
         else "egr_device_name") :=
          VStr (extract_device_name_from_contact (safe_get l contact_idx ""))]>
        (<[side_prefix +:+ "_status" :=
             VStr ((if truthy (strip (safe_get l 18 ""))
                    then strip (safe_get l 18 "") else "UNKNOWN")
                   +:+ " ("
                   +:+ (if negb
                            (String.eqb
                               (if truthy (strip (safe_get l 18 ""))
                                then "sip_" +:+ strip (safe_get l 18 "")
                                else "sip_UNKNOWN") "sip_BYE")
                        then default "Unknown Code"
                               (sip_cause_code_mapping
                                  !! (if truthy (strip (safe_get l 18 ""))
                                      then "sip_" +:+ strip (safe_get l 18 "")
                                      else "sip_UNKNOWN"))
                        else "BYE")
                   +:+ ")")]>
           (if truthy (strip (safe_get l 1 ""))
            then <[side_prefix +:+ "_call_id" :=
                     VStr (strip (safe_get l 1 ""))]> out
            else out)).
Proof. reflexivity. Qed.

Lemma ingress_side_device l :
  parse_side l "ingress" 12 !! "ing_device_name"
  = if leg_short l then None
    else Some (VStr (extract_device_name_from_contact (safe_get l 12 ""))).
Proof.
  rewrite parse_side_unfold. cbv zeta. unfold leg_short.
  destruct (length l <? 19)%nat.
  - by rewrite !lookup_insert_ne.
  - apply lookup_insert_eq.
Qed.

Lemma egress_side_device l :
  parse_side l "egress" 13 !! "egr_device_name"
  = if leg_short l then None
    else Some (VStr (extract_device_name_from_contact (safe_get l 13 ""))).
Proof.
  rewrite parse_side_unfold. cbv zeta. unfold leg_short.
  destruct (length l <? 19)%nat.
  - by rewrite !lookup_insert_ne.
  - apply lookup_insert_eq.
Qed.

Lemma ingress_side_other l k :
  k <> "ingress_call_id" -> k <> "ingress_status" ->
  k <> "ing_device_name" -> parse_side l "ingress" 12 !! k = None.
Proof.
  intros H1 H2 H3. rewrite parse_side_unfold. cbv zeta.
  destruct (length l <? 19)%nat;
    [|destruct (truthy (strip (safe_get l 1 "")))];
    by rewrite !lookup_insert_ne.
Qed.

Lemma egress_side_other l k :
  k <> "egress_call_id" -> k <> "egress_status" ->
  k <> "egr_device_name" -> parse_side l "egress" 13 !! k = None.
Proof.
  intros H1 H2 H3. rewrite parse_side_unfold. cbv zeta.
  destruct (length l <? 19)%nat;
    [|destruct (truthy (strip (safe_get l 1 "")))];
    by rewrite !lookup_insert_ne.
Qed.

Lemma ingress_side_call_id l :
  is_Some (parse_side l "ingress" 12 !! "ingress_call_id").
Proof.
  rewrite parse_side_unfold. cbv zeta.
  destruct (length l <? 19)%nat;
    [|destruct (truthy (strip (safe_get l 1 "")))];
    rewrite ?lookup_insert_ne by discriminate;
    rewrite lookup_insert_eq; eauto.
Qed.

Lemma ingress_side_status l :
  is_Some (parse_side l "ingress" 12 !! "ingress_status").
Proof.
  rewrite parse_side_unfold. cbv zeta.
  destruct (length l <? 19)%nat;
    rewrite ?lookup_insert_ne by discriminate;
    rewrite lookup_insert_eq; eauto.
Qed.

Lemma egress_side_call_id l :
  is_Some (parse_side l "egress" 13 !! "egress_call_id").
Proof.
  rewrite parse_side_unfold. cbv zeta.
  destruct (length l <? 19)%nat;
    [|destruct (truthy (strip (safe_get l 1 "")))];
    rewrite ?lookup_insert_ne by discriminate;
    rewrite lookup_insert_eq; eauto.
Qed.

Lemma egress_side_status l :
  is_Some (parse_side l "egress" 13 !! "egress_status").
Proof.
  rewrite parse_side_unfold. cbv zeta.
  destruct (length l <? 19)%nat;
    rewrite ?lookup_insert_ne by discriminate;
    rewrite lookup_insert_eq; eauto.
Qed.

(** *** The part common to every record *)

Lemma common_part_calling_name raw_cdr :
  common raw_cdr !! "calling_name" = Some (VList (calling_name raw_cdr)).
Proof.
  unfold common_part. skip_other_keys.
  rewrite !lookup_setdefault_ne by discriminate.
  rewrite lookup_update_None by (by apply egress_side_other).
  rewrite lookup_update_None by (by apply ingress_side_other).
  apply lookup_insert_eq.
Qed.

Lemma common_part_cdr_type raw_cdr :
  common raw_cdr !! "cdr_type" = Some (VStr (cdr_type raw_cdr)).
Proof. unfold common_part. skip_other_keys. apply lookup_insert_eq. Qed.

Lemma common_part_gateway_name raw_cdr :
  common raw_cdr !! "gateway_name"
  = Some (VStr (safe_get (fields raw_cdr) 1 "")).
Proof. unfold common_part. skip_other_keys. apply lookup_insert_eq. Qed.

Lemma common_part_start_date raw_cdr :
  common raw_cdr !! "start_date"
  = Some (VStr (safe_get (fields raw_cdr) 5 "")).
Proof. unfold common_part. skip_other_keys. apply lookup_insert_eq. Qed.

Lemma common_part_start_time raw_cdr :
  common raw_cdr !! "start_time"
  = Some (VStr (safe_get (fields raw_cdr) 6 "")).
Proof. unfold common_part. skip_other_keys. apply lookup_insert_eq. Qed.

(** The device name of a leg: what the contact header gives, and the
    placeholder when the leg is short. *)
Lemma common_part_ing_device_name raw_cdr :
  common raw_cdr !! "ing_device_name"
  = Some (VStr (if leg_short (ingr_prot_data raw_cdr) then "N/A"
                else extract_device_name_from_contact
                       (safe_get (ingr_prot_data raw_cdr) 12 ""))).
Proof.
  unfold common_part. skip_other_keys.
  rewrite lookup_setdefault_ne by discriminate.
  rewrite lookup_setdefault_eq.
  rewrite lookup_update_None by (by apply egress_side_other).
  destruct (leg_short (ingr_prot_data raw_cdr)) eqn:E.
  - rewrite lookup_update_None by (by rewrite ingress_side_device, E).
    by rewrite lookup_insert_ne.
  - erewrite lookup_update_Some by (by rewrite ingress_side_device, E).
    reflexivity.
Qed.

Lemma common_part_egr_device_name raw_cdr :
  common raw_cdr !! "egr_device_name"
  = Some (VStr (if leg_short (egr_prot_data raw_cdr) then "N/A"
                else extract_device_name_from_contact
                       (safe_get (egr_prot_data raw_cdr) 13 ""))).
Proof.
  unfold common_part. skip_other_keys.
  rewrite lookup_setdefault_eq.
  assert (Hn : forall (d : dict),
             setdefault "ing_device_name" (VStr "N/A") d !! "egr_device_name"
             = d !! "egr_device_name")
    by (intros d; by apply lookup_setdefault_ne).
  rewrite Hn.
  destruct (leg_short (egr_prot_data raw_cdr)) eqn:E.
  - rewrite lookup_update_None by (by rewrite egress_side_device, E).
    rewrite lookup_update_None by (by apply ingress_side_other).
    by rewrite lookup_insert_ne.
  - erewrite lookup_update_Some by (by rewrite egress_side_device, E).
    reflexivity.
Qed.

Lemma common_part_leg_keys raw_cdr :
  is_Some (common raw_cdr !! "ingress_call_id")
  /\ is_Some (common raw_cdr !! "ingress_status")
  /\ is_Some (common raw_cdr !! "egress_call_id")
  /\ is_Some (common raw_cdr !! "egress_status").
Proof.
  unfold common_part.
  repeat split; skip_other_keys;
    rewrite !lookup_setdefault_ne by discriminate.
  - rewrite lookup_update_None by (by apply egress_side_other).
    destruct (ingress_side_call_id (ingr_prot_data raw_cdr)) as [v Hv].
    erewrite lookup_update_Some by exact Hv. eauto.
  - rewrite lookup_update_None by (by apply egress_side_other).
    destruct (ingress_side_status (ingr_prot_data raw_cdr)) as [v Hv].
    erewrite lookup_update_Some by exact Hv. eauto.
  - destruct (egress_side_call_id (egr_prot_data raw_cdr)) as [v Hv].
    erewrite lookup_update_Some by exact Hv. eauto.
  - destruct (egress_side_status (egr_prot_data raw_cdr)) as [v Hv].
    erewrite lookup_update_Some by exact Hv. eauto.
Qed.

(** No other key before the dispatch. *)
Lemma common_part_other raw_cdr k :
  k ∉ type_agnostic_keys -> common raw_cdr !! k = None.
Proof.
  unfold type_agnostic_keys. intros H.
  repeat (apply not_elem_of_cons in H as [? H]).
  unfold common_part. skip_other_keys.
  rewrite !lookup_setdefault_ne by congruence.
  rewrite lookup_update_None by (by apply egress_side_other).
  rewrite lookup_update_None by (by apply ingress_side_other).
  by rewrite lookup_insert_ne.
Qed.

(** Exactly the type-agnostic keys. *)
Lemma common_part_keys raw_cdr k :
  is_Some (common raw_cdr !! k) <-> k ∈ type_agnostic_keys.
Proof.
  split.
  - intros H. destruct (decide (k ∈ type_agnostic_keys)) as [|N]; [done|].
    rewrite (common_part_other raw_cdr k N) in H. by destruct H.
  - unfold type_agnostic_keys. intros H.
    pose proof (common_part_leg_keys raw_cdr) as (L1 & L2 & L3 & L4).
    repeat (apply elem_of_cons in H as [->|H]); try done.
    + rewrite common_part_calling_name. eauto.
    + rewrite common_part_ing_device_name. eauto.
    + rewrite common_part_egr_device_name. eauto.
    + rewrite common_part_cdr_type. eauto.
    + rewrite common_part_gateway_name. eauto.
    + rewrite common_part_start_date. eauto.
    + rewrite common_part_start_time. eauto.
    + by apply elem_of_nil in H.
Qed.

(** *** The dispatch on the record type *)

Lemma parse_unrecognized raw_cdr :
  recognized (cdr_type raw_cdr) = false ->
  parse raw_cdr = Ok (common raw_cdr).
Proof.
  unfold recognized. intros H.
  apply orb_false_iff in H as [H H3]. apply orb_false_iff in H as [H1 H2].
  unfold parse_cdr_to_dict. rewrite H1, H2, H3. reflexivity.
Qed.

Lemma parse_attempt raw_cdr :
  cdr_type raw_cdr = "ATTEMPT" ->
  parse raw_cdr
  = Ok (attempt_branch cdr_disconnect_reason raw_cdr (common raw_cdr)).
Proof. intros H. unfold parse_cdr_to_dict. rewrite H. reflexivity. Qed.

Lemma parse_start raw_cdr :
  cdr_type raw_cdr = "START" ->
  parse raw_cdr = Ok (start_branch raw_cdr (common raw_cdr)).
Proof. intros H. unfold parse_cdr_to_dict. rewrite H. reflexivity. Qed.

Lemma parse_stop raw_cdr :
  cdr_type raw_cdr = "STOP" ->
  parse raw_cdr = stop_branch cdr_disconnect_reason raw_cdr (common raw_cdr).
Proof.
  intros H. unfold parse_cdr_to_dict. rewrite H. cbn.
  destruct (stop_branch _ _ _); reflexivity.
Qed.

Lemma recognized_cases s :
  recognized s = true -> s = "ATTEMPT" \/ s = "STOP" \/ s = "START".
Proof.
  unfold recognized. intros H.
  apply orb_true_iff in H as [H|H]; [apply orb_true_iff in H as [H|H]|];
    apply String.eqb_eq in H; auto.
Qed.

(** *** What each branch stores *)

Ltac split_specific H :=
  unfold type_specific_keys in H;
  repeat (apply not_elem_of_cons in H as [? H]).

Lemma attempt_branch_lookups raw_cdr (d0 : dict) :
  let d := attempt_branch cdr_disconnect_reason raw_cdr d0 in
  d !! "service_provider"
    = Some (VStr (or_na (safe_get (fields raw_cdr) 14 "")))
  /\ d !! "calling_number"
     = Some (VStr (with_calling_name (safe_get (fields raw_cdr) 16 "")
                     (calling_name raw_cdr)))
  /\ d !! "called_number" = Some (VStr (safe_get (fields raw_cdr) 17 ""))
  /\ d !! "route_label"
     = Some (VStr (route_label_text (safe_get (fields raw_cdr) 25 "")))
  /\ d !! "disconnect_reason"
     = Some (VStr (disconnect_reason_text cdr_disconnect_reason
                     (safe_get (fields raw_cdr) 11 "")))
  /\ d !! "duration" = Some (VStr "N/A")
  /\ (forall k, k ∉ type_specific_keys -> d !! k = d0 !! k).
Proof.
  cbv zeta. unfold attempt_branch.
  repeat split;
    try (skip_other_keys;
         rewrite !lookup_set_rtp_pair_ne by discriminate;
         skip_other_keys;
         rewrite !lookup_set_rtp_pair_ne by discriminate;
         skip_other_keys; apply lookup_insert_eq).
  intros k H. split_specific H.
  skip_other_keys. rewrite lookup_set_rtp_pair_ne by congruence.
  skip_other_keys. rewrite lookup_set_rtp_pair_ne by congruence.
  skip_other_keys. reflexivity.
Qed.

Lemma start_branch_lookups raw_cdr (d0 : dict) :
  let d := start_branch raw_cdr d0 in
  d !! "service_provider"
    = Some (VStr (or_na (safe_get (fields raw_cdr) 12 "")))
  /\ d !! "calling_number"
     = Some (VStr (with_calling_name (safe_get (fields raw_cdr) 15 "")
                     (calling_name raw_cdr)))
  /\ d !! "called_number" = Some (VStr (safe_get (fields raw_cdr) 16 ""))
  /\ d !! "route_label"
     = Some (VStr (route_label_text (safe_get (fields raw_cdr) 23 "")))
  /\ d !! "disconnect_reason" = Some (VStr "N/A")
  /\ d !! "duration" = Some (VStr "N/A")
  /\ (forall k, k ∉ type_specific_keys -> d !! k = d0 !! k).
Proof.
  cbv zeta. unfold start_branch.
  repeat split;
    try (skip_other_keys;
         rewrite !lookup_set_rtp_pair_ne by discriminate;
         skip_other_keys;
         rewrite !lookup_set_rtp_pair_ne by discriminate;
         skip_other_keys; apply lookup_insert_eq).
  intros k H. split_specific H.
  skip_other_keys. rewrite lookup_set_rtp_pair_ne by congruence.
  skip_other_keys. rewrite lookup_set_rtp_pair_ne by congruence.
  skip_other_keys. reflexivity.
Qed.

(** A key the STOP branch assigns before the first packet count. *)
Ltac early_key Hskip Hskip1 :=
  rewrite Hskip by discriminate; skip_other_keys;
  rewrite lookup_set_rtp_pair_ne by discriminate; skip_other_keys;
  rewrite Hskip1 by discriminate; skip_other_keys;
  rewrite lookup_set_rtp_pair_ne by discriminate; skip_other_keys;
  apply lookup_insert_eq.

Lemma stop_branch_lookups raw_cdr (d0 : dict) :
  returns (stop_branch cdr_disconnect_reason raw_cdr d0) (fun d =>
    (exists v, duration_value (safe_get (fields raw_cdr) 13 "") = Ok v
               /\ d !! "duration" = Some v)
    /\ d !! "disconnect_reason"
       = Some (VStr (disconnect_reason_text cdr_disconnect_reason
                       (safe_get (fields raw_cdr) 14 "")))
    /\ d !! "service_provider"
       = Some (VStr (or_na (safe_get (fields raw_cdr) 17 "")))
    /\ d !! "calling_number"
       = Some (VStr (with_calling_name (safe_get (fields raw_cdr) 19 "")
                       (calling_name raw_cdr)))
    /\ d !! "called_number" = Some (VStr (safe_get (fields raw_cdr) 20 ""))
    /\ d !! "route_label"
       = Some (VStr (route_label_text (safe_get (fields raw_cdr) 28 "")))
    /\ (exists text,
          packets_lost_text (safe_get (fields raw_cdr) 41 "")
            (safe_get (cdr_fields_without_prot_data raw_cdr) 64 "") = Ok text
          /\ d !! "ingress_packets_lost"
             = Some (VStr (default
                             (safe_get (cdr_fields_without_prot_data raw_cdr)
                                64 "") text)))
    /\ (exists text,
          packets_lost_text
            (safe_get (cdr_fields_without_prot_data raw_cdr) 147 "")
            (safe_get (cdr_fields_without_prot_data raw_cdr) 148 "") = Ok text
          /\ d !! "egress_packets_lost"
             = Some (VStr (default
                             (safe_get (cdr_fields_without_prot_data raw_cdr)
                                148 "") text)))
    /\ (forall k, k ∉ type_specific_keys -> d !! k = d0 !! k)).
Proof.
  unfold stop_branch, set_duration, add_loss_percentage.
  destruct (duration_value (safe_get (fields raw_cdr) 13 ""))
    as [dv|e] eqn:Ed; cbn [bind returns];
    [|by apply duration_value_raises in Ed].
  destruct (packets_lost_text (safe_get (fields raw_cdr) 41 "")
              (safe_get (cdr_fields_without_prot_data raw_cdr) 64 ""))
    as [t1|e] eqn:E1; cbn [bind returns];
    [|by apply packets_lost_text_raises in E1].
  destruct (packets_lost_text
              (safe_get (cdr_fields_without_prot_data raw_cdr) 147 "")
              (safe_get (cdr_fields_without_prot_data raw_cdr) 148 ""))
    as [t2|e] eqn:E2; cbn [bind returns];
    [|by apply packets_lost_text_raises in E2].
  assert (Hskip : forall (d : dict) k,
             "egress_packets_lost" <> k ->
             match t2 with
             | Some v => setitem "egress_packets_lost" (VStr v) d
             | None => d
             end !! k = d !! k).
  { intros d k N. destruct t2; [|reflexivity]. by skip_other_keys. }
  assert (Hskip1 : forall (d : dict) k,
             "ingress_packets_lost" <> k ->
             match t1 with
             | Some v => setitem "ingress_packets_lost" (VStr v) d
             | None => d
             end !! k = d !! k).
  { intros d k N. destruct t1; [|reflexivity]. by skip_other_keys. }
  repeat split.
  - exists dv. split; [reflexivity|].
    early_key Hskip Hskip1.
  - early_key Hskip Hskip1.
  - early_key Hskip Hskip1.
  - early_key Hskip Hskip1.
  - early_key Hskip Hskip1.
  - early_key Hskip Hskip1.
  - exists t1. split; [reflexivity|].
    rewrite Hskip by discriminate. skip_other_keys.
    rewrite lookup_set_rtp_pair_ne by discriminate. skip_other_keys.
    destruct t1; cbn [default]; skip_other_keys; apply lookup_insert_eq.
  - exists t2. split; [reflexivity|].
    destruct t2; cbn [default]; skip_other_keys; apply lookup_insert_eq.
  - intros k H. split_specific H.
    rewrite Hskip by congruence. skip_other_keys.
    rewrite lookup_set_rtp_pair_ne by congruence. skip_other_keys.
    rewrite Hskip1 by congruence. skip_other_keys.
    rewrite lookup_set_rtp_pair_ne by congruence. skip_other_keys.
    reflexivity.
Qed.

End DictFacts.

(** ** The claims *)

(** *** Supporting facts about the whole decoder *)

Section Decode.

Variable sip_cause_code_mapping : gmap string string.
Variable cdr_disconnect_reason : gmap string string.

Local Abbreviation common := (common_part sip_cause_code_mapping).
Local Abbreviation parse :=
  (parse_cdr_to_dict sip_cause_code_mapping cdr_disconnect_reason).

(** Only a STOP record can fail, and only with [OverflowError]. *)
Lemma parse_raises_only_overflow raw_cdr e :
  parse raw_cdr = Raise e -> e = OverflowError /\ cdr_type raw_cdr = "STOP".
Proof.
  intros H.
  destruct (recognized (cdr_type raw_cdr)) eqn:R.
  - apply recognized_cases in R as [R|[R|R]].
    + rewrite (parse_attempt _ _ _ R) in H. discriminate.
    + split; [|exact R]. rewrite (parse_stop _ _ _ R) in H.
      pose proof (stop_branch_lookups cdr_disconnect_reason raw_cdr
                    (common raw_cdr)) as L.
      rewrite H in L. exact L.
    + rewrite (parse_start _ _ _ R) in H. discriminate.
  - rewrite (parse_unrecognized _ _ _ R) in H. discriminate.
Qed.

(** Every line that is not a STOP record decodes. *)
Lemma parse_returns_unless_stop raw_cdr :
  cdr_type raw_cdr <> "STOP" -> exists d, parse raw_cdr = Ok d.
Proof.
  intros N. destruct (parse raw_cdr) as [d|e] eqn:E; [eauto|].
  apply parse_raises_only_overflow in E as [_ E]. contradiction.
Qed.

(** A key that no branch assigns keeps the value of the common part. *)
Lemma parse_agnostic_key raw_cdr k :
  k ∉ type_specific_keys ->
  returns (parse raw_cdr) (fun d => d !! k = common raw_cdr !! k).
Proof.
  intros N.
  destruct (recognized (cdr_type raw_cdr)) eqn:R.
  - apply recognized_cases in R as [R|[R|R]].
    + rewrite (parse_attempt _ _ _ R). cbn.
      by apply attempt_branch_lookups.
    + rewrite (parse_stop _ _ _ R).
      pose proof (stop_branch_lookups cdr_disconnect_reason raw_cdr
                    (common raw_cdr)) as L.
      destruct (stop_branch _ _ _); cbn in *; [|exact L].
      by apply L.
    + rewrite (parse_start _ _ _ R). cbn.
      by apply start_branch_lookups.
  - rewrite (parse_unrecognized _ _ _ R). reflexivity.
Qed.

(** *** C10 *)

(** C10: decoding a line and decoding the line with its leading and
    trailing whitespace removed give the same outcome, the mapping or the
    exception. *)
Theorem C10_decode_ignores_outer_whitespace raw_cdr :
  parse (strip raw_cdr) = parse raw_cdr.
Proof.
  unfold parse_cdr_to_dict.
  rewrite cdr_type_strip, common_part_strip.
  destruct (String.eqb (cdr_type raw_cdr) "ATTEMPT"); cbn [bind];
    rewrite ?attempt_branch_strip;
    (destruct (String.eqb (cdr_type raw_cdr) "STOP"); cbn [bind];
     rewrite ?stop_branch_strip;
     [destruct (stop_branch _ _ _); cbn [bind]; [|reflexivity]|]);
    (destruct (String.eqb (cdr_type raw_cdr) "START"); cbn [bind];
     rewrite ?start_branch_strip; reflexivity).
Qed.

(** *** C2 *)

(** C2, as amended: the top-level field list is the plain comma split of
    the stripped line, so it has one field more than the line has commas,
    quoted or not; the redacted list is the comma split of the stripped
    line once every quoted span is removed, and on a line with balanced
    quotes it has one field more than the line has unquoted commas. *)
Theorem C2_field_counts raw_cdr :
  length (fields raw_cdr) = S (count ","%char raw_cdr)
  /\ cdr_fields_without_prot_data raw_cdr
     = split ","%char (strip (re_sub_quoted raw_cdr))
  /\ (Nat.even (count dquote raw_cdr) = true ->
      length (cdr_fields_without_prot_data raw_cdr)
      = S (unquoted_commas raw_cdr)).
Proof.
  split; [|split].
  - unfold fields. rewrite length_split, count_strip; auto using isspace_comma.
  - reflexivity.
  - intros H. unfold cdr_fields_without_prot_data.
    rewrite length_split, count_strip by apply isspace_comma.
    rewrite count_comma_re_sub_quoted by exact H. reflexivity.
Qed.

(** *** C3 *)

(** C3, as amended: an ATTEMPT record's calling number is read at 1-based
    position 17 and its called number at position 18; a STOP record's
    duration is read at 1-based position 14 and its disconnect-reason code
    at position 15. *)
Theorem C3_positions_read raw_cdr :
  (cdr_type raw_cdr = "ATTEMPT" ->
   exists d,
     parse raw_cdr = Ok d
     /\ d !! "calling_number"
        = Some (VStr (with_calling_name (field_at_position 17 raw_cdr)
                        (calling_name raw_cdr)))
     /\ d !! "called_number" = Some (VStr (field_at_position 18 raw_cdr)))
  /\ (cdr_type raw_cdr = "STOP" ->
      returns (parse raw_cdr) (fun d =>
        (exists v, duration_value (field_at_position 14 raw_cdr) = Ok v
                   /\ d !! "duration" = Some v)
        /\ d !! "disconnect_reason"
           = Some (VStr (disconnect_reason_text cdr_disconnect_reason
                           (field_at_position 15 raw_cdr))))).
Proof.
  unfold field_at_position.
  change (17 - 1) with 16. change (18 - 1) with 17.
  change (14 - 1) with 13. change (15 - 1) with 14.
  split; intros R.
  - rewrite (parse_attempt _ _ _ R). eexists. split; [reflexivity|].
    pose proof (attempt_branch_lookups cdr_disconnect_reason raw_cdr
                  (common raw_cdr)) as L. cbv zeta in L.
    split; apply L.
  - rewrite (parse_stop _ _ _ R).
    pose proof (stop_branch_lookups cdr_disconnect_reason raw_cdr
                  (common raw_cdr)) as L.
    destruct (stop_branch _ _ _); cbn in *; [|exact L].
    split; apply L.
Qed.

(** *** C4 *)

(** The three keys of a leg before the dispatch: what the leg parser
    returned, the device name defaulting to N/A. *)
Lemma common_part_ingress_leg raw_cdr k :
  k ∈ ["ingress_call_id"; "ingress_status"; "ing_device_name"] ->
  common raw_cdr !! k
  = Some (default (VStr "N/A")
            (parse_prot_data_side sip_cause_code_mapping
               (ingr_prot_data raw_cdr) "ingress" 12 !! k)).
Proof.
  intros Hk. rewrite !elem_of_cons, elem_of_nil in Hk.
  destruct Hk as [->|[->|[->|[]]]].
  - destruct (ingress_side_call_id sip_cause_code_mapping
                (ingr_prot_data raw_cdr)) as [v Hv].
    rewrite Hv. cbn [default]. unfold common_part. cbv zeta.
    unfold setitem. rewrite !lookup_insert_ne by discriminate.
    rewrite !lookup_setdefault_ne by discriminate.
    rewrite lookup_update_None by (by apply egress_side_other).
    by apply lookup_update_Some.
  - destruct (ingress_side_status sip_cause_code_mapping
                (ingr_prot_data raw_cdr)) as [v Hv].
    rewrite Hv. cbn [default]. unfold common_part. cbv zeta.
    unfold setitem. rewrite !lookup_insert_ne by discriminate.
    rewrite !lookup_setdefault_ne by discriminate.
    rewrite lookup_update_None by (by apply egress_side_other).
    by apply lookup_update_Some.
  - rewrite common_part_ing_device_name, ingress_side_device.
    destruct (leg_short (ingr_prot_data raw_cdr)); reflexivity.
Qed.

Lemma common_part_egress_leg raw_cdr k :
  k ∈ ["egress_call_id"; "egress_status"; "egr_device_name"] ->
  common raw_cdr !! k
  = Some (default (VStr "N/A")
            (parse_prot_data_side sip_cause_code_mapping
               (egr_prot_data raw_cdr) "egress" 13 !! k)).
Proof.
  intros Hk. rewrite !elem_of_cons, elem_of_nil in Hk.
  destruct Hk as [->|[->|[->|[]]]].
  - destruct (egress_side_call_id sip_cause_code_mapping
                (egr_prot_data raw_cdr)) as [v Hv].
    rewrite Hv. cbn [default]. unfold common_part. cbv zeta.
    unfold setitem. rewrite !lookup_insert_ne by discriminate.
    rewrite !lookup_setdefault_ne by discriminate.
    by apply lookup_update_Some.
  - destruct (egress_side_status sip_cause_code_mapping
                (egr_prot_data raw_cdr)) as [v Hv].
    rewrite Hv. cbn [default]. unfold common_part. cbv zeta.
    unfold setitem. rewrite !lookup_insert_ne by discriminate.
    rewrite !lookup_setdefault_ne by discriminate.
    by apply lookup_update_Some.
  - rewrite common_part_egr_device_name, egress_side_device.
    destruct (leg_short (egr_prot_data raw_cdr)); reflexivity.
Qed.

(** C4, as amended: with the quoted segments numbered 1, 2, 3, ... in
    order of appearance, the calling name is parsed from quoted segment 3;
    when the checker field holds SIP or GSX2GSX the ingress leg is parsed
    from quoted segment 1 and the egress leg from quoted segment 2;
    otherwise the ingress leg is empty and quoted segment 1 is tried as the
    egress trace.  The decoded mapping carries the calling name so parsed,
    and its call id, status and device name of either leg are what the leg
    parser returns on the trace so chosen, the device name being N/A when
    the parser returns none. *)
Theorem C4_legs_from_quoted_segments raw_cdr :
  (forall seg, segment_is 3 raw_cdr seg ->
     calling_name raw_cdr = split_or_empty (strip seg))
  /\ (ingress_present raw_cdr = true ->
      (forall seg, segment_is 1 raw_cdr seg ->
         ingr_prot_data raw_cdr = split_or_empty (strip seg))
      /\ (forall seg, segment_is 2 raw_cdr seg ->
            egr_prot_data raw_cdr
            = discard_without_sip (split_or_empty (strip seg))))
  /\ (ingress_present raw_cdr = false ->
      ingr_prot_data raw_cdr = []
      /\ (forall seg, segment_is 1 raw_cdr seg ->
            egr_prot_data raw_cdr
            = discard_without_sip (split_or_empty (strip seg))))
  /\ returns (parse raw_cdr) (fun d =>
       d !! "calling_name" = Some (VList (calling_name raw_cdr))
       /\ (forall k,
             k ∈ ["ingress_call_id"; "ingress_status"; "ing_device_name"] ->
             d !! k
             = Some (default (VStr "N/A")
                       (parse_prot_data_side sip_cause_code_mapping
                          (ingr_prot_data raw_cdr) "ingress" 12 !! k)))
       /\ (forall k,
             k ∈ ["egress_call_id"; "egress_status"; "egr_device_name"] ->
             d !! k
             = Some (default (VStr "N/A")
                       (parse_prot_data_side sip_cause_code_mapping
                          (egr_prot_data raw_cdr) "egress" 13 !! k)))).
Proof.
  assert (S1 : forall seg, segment_is 1 raw_cdr seg ->
                 safe_get (cdr_fields_parsed raw_cdr) 1 "" = seg)
    by (intros seg H; exact (cdr_fields_parsed_segment raw_cdr 0 seg H)).
  assert (S2 : forall seg, segment_is 2 raw_cdr seg ->
                 safe_get (cdr_fields_parsed raw_cdr) 3 "" = seg)
    by (intros seg H; exact (cdr_fields_parsed_segment raw_cdr 1 seg H)).
  assert (S3 : forall seg, segment_is 3 raw_cdr seg ->
                 safe_get (cdr_fields_parsed raw_cdr) 5 "" = seg)
    by (intros seg H; exact (cdr_fields_parsed_segment raw_cdr 2 seg H)).
  split; [|split; [|split]].
  - unfold calling_name. intros seg H. rewrite (S3 seg H). reflexivity.
  - unfold ingr_prot_data, egr_prot_data.
    intros P. rewrite P. split; intros seg H.
    + rewrite (S1 seg H). reflexivity.
    + rewrite (S2 seg H). reflexivity.
  - unfold ingr_prot_data, egr_prot_data.
    intros P. rewrite P. split; [reflexivity|]. intros seg H.
    rewrite (S1 seg H). reflexivity.
  - assert (Hk : forall k, k ∉ type_specific_keys ->
                   returns (parse raw_cdr)
                     (fun d => d !! k = common raw_cdr !! k))
      by (intros k; apply parse_agnostic_key).
    destruct (parse raw_cdr) as [d|e] eqn:E; cbn [returns] in *;
      [|apply (Hk "calling_name"); compute_done].
    split; [|split].
    + rewrite Hk by compute_done. apply common_part_calling_name.
    + intros k Hin. rewrite <- common_part_ingress_leg by exact Hin.
      apply Hk. rewrite !elem_of_cons, elem_of_nil in Hin.
      destruct Hin as [->|[->|[->|[]]]]; compute_done.
    + intros k Hin. rewrite <- common_part_egress_leg by exact Hin.
      apply Hk. rewrite !elem_of_cons, elem_of_nil in Hin.
      destruct Hin as [->|[->|[->|[]]]]; compute_done.
Qed.

(** *** C6 *)

(** C6: a line whose first field is none of START, ATTEMPT and STOP
    decodes without an error; the mapping holds exactly the type-agnostic
    keys, and every type-specific key is absent. *)
Theorem C6_unrecognized_type raw_cdr :
  recognized (cdr_type raw_cdr) = false ->
  exists d,
    parse raw_cdr = Ok d
    /\ (forall k, is_Some (d !! k) <-> k ∈ type_agnostic_keys)
    /\ Forall (fun k => d !! k = None) type_specific_keys.
Proof.
  intros R. exists (common raw_cdr).
  split; [by apply parse_unrecognized|].
  split; [apply common_part_keys|].
  apply Forall_forall. intros k Hk. apply common_part_other.
  revert k Hk. apply Forall_forall. compute_done.
Qed.

(** *** C5 *)

(** C5, as amended: whenever the decoder returns, and it returns on every
    line but a STOP record whose numbers overflow, the mapping holds
    cdr_type, gateway_name, start_date and start_time, each the field at
    index 0, 1, 5 and 6 or the empty string when the line is shorter, and
    both device-name keys, each the placeholder N/A when its leg is short;
    for a recognized record type it also holds calling_number,
    called_number, route_label and service_provider as strings, the last
    two never empty: the route label is its raw field (index 25, 28 or 23
    for ATTEMPT, STOP or START) or, when that is empty, N/A (GW-GW call),
    and the service provider is its raw field (index 14, 17 or 12) or,
    when that is empty, N/A; for an unrecognized type these four keys are
    absent. *)
Theorem C5_keys_present raw_cdr :
  returns (parse raw_cdr) (fun d =>
    d !! "cdr_type" = Some (VStr (safe_get (fields raw_cdr) 0 ""))
    /\ d !! "gateway_name" = Some (VStr (safe_get (fields raw_cdr) 1 ""))
    /\ d !! "start_date" = Some (VStr (safe_get (fields raw_cdr) 5 ""))
    /\ d !! "start_time" = Some (VStr (safe_get (fields raw_cdr) 6 ""))
    /\ (exists v, d !! "ing_device_name" = Some (VStr v)
                  /\ (leg_short (ingr_prot_data raw_cdr) = true -> v = "N/A"))
    /\ (exists v, d !! "egr_device_name" = Some (VStr v)
                  /\ (leg_short (egr_prot_data raw_cdr) = true -> v = "N/A"))
    /\ if recognized (cdr_type raw_cdr) then
         exists calling called label provider,
           d !! "calling_number" = Some (VStr calling)
           /\ d !! "called_number" = Some (VStr called)
           /\ d !! "route_label" = Some (VStr label)
           /\ d !! "service_provider" = Some (VStr provider)
           /\ label <> "" /\ provider <> ""
           /\ (forall i j,
                 (cdr_type raw_cdr = "ATTEMPT" /\ i = 25 /\ j = 14)
                 \/ (cdr_type raw_cdr = "STOP" /\ i = 28 /\ j = 17)
                 \/ (cdr_type raw_cdr = "START" /\ i = 23 /\ j = 12) ->
                 label
                 = (if String.eqb (safe_get (fields raw_cdr) i "") ""
                    then "N/A (GW-GW call)"
                    else safe_get (fields raw_cdr) i "")
                 /\ provider
                    = (if String.eqb (safe_get (fields raw_cdr) j "") ""
                       then "N/A"
                       else safe_get (fields raw_cdr) j ""))
       else
         d !! "calling_number" = None /\ d !! "called_number" = None
         /\ d !! "route_label" = None /\ d !! "service_provider" = None).
Proof.
  assert (Hna : forall s, or_na s <> "")
    by (intros [|c s]; discriminate).
  assert (Hrl : forall s, route_label_text s <> "")
    by (intros [|c s]; discriminate).
  assert (Ena : forall s, or_na s = if String.eqb s "" then "N/A" else s)
    by (intros [|c s]; reflexivity).
  assert (Erl : forall s, route_label_text s
                          = if String.eqb s "" then "N/A (GW-GW call)" else s)
    by (intros [|c s]; reflexivity).
  assert (Hcommon : returns (parse raw_cdr) (fun d =>
            d !! "cdr_type" = Some (VStr (safe_get (fields raw_cdr) 0 ""))
            /\ d !! "gateway_name"
               = Some (VStr (safe_get (fields raw_cdr) 1 ""))
            /\ d !! "start_date"
               = Some (VStr (safe_get (fields raw_cdr) 5 ""))
            /\ d !! "start_time"
               = Some (VStr (safe_get (fields raw_cdr) 6 ""))
            /\ (exists v, d !! "ing_device_name" = Some (VStr v)
                  /\ (leg_short (ingr_prot_data raw_cdr) = true
                      -> v = "N/A"))
            /\ (exists v, d !! "egr_device_name" = Some (VStr v)
                  /\ (leg_short (egr_prot_data raw_cdr) = true
                      -> v = "N/A")))).
  { assert (Hk : forall k, k ∈ ["cdr_type"; "gateway_name"; "start_date";
                               "start_time"; "ing_device_name";
                               "egr_device_name"] ->
                   returns (parse raw_cdr)
                     (fun d => d !! k = common raw_cdr !! k)).
    { intros k Hk. apply parse_agnostic_key.
      revert k Hk. apply Forall_forall. compute_done. }
    pose proof (Hk "cdr_type") as K1. pose proof (Hk "gateway_name") as K2.
    pose proof (Hk "start_date") as K3. pose proof (Hk "start_time") as K4.
    pose proof (Hk "ing_device_name") as K5.
    pose proof (Hk "egr_device_name") as K6.
    destruct (parse raw_cdr) as [d|e]; cbn [returns] in *;
      [|apply K1; compute_done].
    rewrite K1, K2, K3, K4, K5, K6 by compute_done.
    rewrite common_part_cdr_type, common_part_gateway_name,
      common_part_start_date, common_part_start_time,
      common_part_ing_device_name, common_part_egr_device_name.
    repeat split; eexists; (split; [reflexivity|]);
      intros E; rewrite E; reflexivity. }
  destruct (recognized (cdr_type raw_cdr)) eqn:R.
  - apply recognized_cases in R as [R|[R|R]].
    + rewrite (parse_attempt _ _ _ R) in *. cbn [returns] in *.
      destruct Hcommon as (?&?&?&?&?&?). repeat (split; [assumption|]).
      pose proof (attempt_branch_lookups cdr_disconnect_reason raw_cdr
                    (common raw_cdr)) as (L1&L2&L3&L4&_).
      do 4 eexists.
      split; [exact L2|]. split; [exact L3|]. split; [exact L4|].
      split; [exact L1|]. split; [apply Hrl|]. split; [apply Hna|].
      intros i j [(_ & -> & ->)|[(T & _)|(T & _)]];
        [|rewrite R in T; discriminate..].
      split; [apply Erl | apply Ena].
    + rewrite (parse_stop _ _ _ R) in *.
      pose proof (stop_branch_lookups cdr_disconnect_reason raw_cdr
                    (common raw_cdr)) as L.
      destruct (stop_branch _ _ _); cbn [returns] in *; [|exact L].
      destruct Hcommon as (?&?&?&?&?&?). repeat (split; [assumption|]).
      destruct L as (_&_&L1&L2&L3&L4&_).
      do 4 eexists.
      split; [exact L2|]. split; [exact L3|]. split; [exact L4|].
      split; [exact L1|]. split; [apply Hrl|]. split; [apply Hna|].
      intros i j [(T & _)|[(_ & -> & ->)|(T & _)]];
        [rewrite R in T; discriminate| |rewrite R in T; discriminate].
      split; [apply Erl | apply Ena].
    + rewrite (parse_start _ _ _ R) in *. cbn [returns] in *.
      destruct Hcommon as (?&?&?&?&?&?). repeat (split; [assumption|]).
      pose proof (start_branch_lookups raw_cdr (common raw_cdr))
        as (L1&L2&L3&L4&_).
      do 4 eexists.
      split; [exact L2|]. split; [exact L3|]. split; [exact L4|].
      split; [exact L1|]. split; [apply Hrl|]. split; [apply Hna|].
      intros i j [(T & _)|[(T & _)|(_ & -> & ->)]];
        [rewrite R in T; discriminate..|].
      split; [apply Erl | apply Ena].
  - rewrite (parse_unrecognized _ _ _ R) in *. cbn [returns] in *.
    destruct Hcommon as (?&?&?&?&?&?). repeat (split; [assumption|]).
    repeat split; apply common_part_other; compute_done.
Qed.

End Decode.

(** *** Closed instances *)

(** C1: the decoder is not total.  On a STOP record whose duration field
    is a one followed by 309 zeros the integer parses, its conversion to a
    float raises OverflowError, the handler catches only TypeError and
    ValueError, and the exception leaves the decoder. *)
Theorem C1_overflow_escapes_decode (T1 T2 : gmap string string) :
  parse_cdr_to_dict T1 T2 stop_line_huge_duration = Raise OverflowError.
Proof. vm_compute. reflexivity. Qed.

(** C2, as stated, fails: a quoted comma is a delimiter of the top-level
    split, so the line with one quoted comma between two plain commas has
    four top-level fields, not three. *)
Lemma C2_counterexample :
  length (fields line_quoted_comma)
  <> S (unquoted_commas line_quoted_comma).
Proof. vm_compute. discriminate. Qed.

(** The line with one quoted comma has balanced quotes. *)
Lemma C2_witness :
  length (cdr_fields_without_prot_data line_quoted_comma)
  = S (unquoted_commas line_quoted_comma).
Proof.
  apply (proj2 (proj2 (C2_field_counts line_quoted_comma))).
  reflexivity.
Defined.

(** C3, as stated, fails: on an ATTEMPT record the called number is not
    the field at 1-based position 17, and on a STOP record the disconnect
    reason is not built from the field at 1-based position 14. *)
Lemma C3_counterexample :
  match parse_cdr_to_dict no_table no_table attempt_line_numbered,
        parse_cdr_to_dict no_table no_table stop_line_numbered with
  | Ok a, Ok s =>
      a !! "called_number"
      <> Some (VStr (field_at_position 17 attempt_line_numbered))
      /\ s !! "disconnect_reason"
         <> Some (VStr (disconnect_reason_text no_table
                          (field_at_position 14 stop_line_numbered)))
  | _, _ => False
  end.
Proof. vm_compute. split; discriminate. Qed.

(** The numbered ATTEMPT record. *)
Lemma C3_witness :
  exists d,
    parse_cdr_to_dict no_table no_table attempt_line_numbered = Ok d
    /\ d !! "calling_number"
       = Some (VStr (with_calling_name
                       (field_at_position 17 attempt_line_numbered)
                       (calling_name attempt_line_numbered)))
    /\ d !! "called_number"
       = Some (VStr (field_at_position 18 attempt_line_numbered)).
Proof.
  apply (proj1 (C3_positions_read no_table no_table attempt_line_numbered)).
  reflexivity.
Defined.

(** C4, as stated, fails: on a START record with five quoted segments
    whose checker field holds SIP, the egress leg is not parsed from quoted
    segment 3 and the calling name is not parsed from quoted segment 5;
    the decoded calling name is the content of segment 3. *)
Lemma C4_counterexample :
  ingress_present start_line_five_segments = true
  /\ egr_prot_data start_line_five_segments
     <> discard_without_sip
          (split_or_empty (strip (quoted_segment 3 start_line_five_segments)))
  /\ calling_name start_line_five_segments
     <> split_or_empty (strip (quoted_segment 5 start_line_five_segments))
  /\ match parse_cdr_to_dict no_table no_table start_line_five_segments with
     | Ok d =>
         quoted_segment 5 start_line_five_segments = "E"
         /\ d !! "calling_name" = Some (VList ["C"])
     | Raise _ => False
     end.
Proof. vm_compute. repeat split; discriminate. Qed.

(** A record with two traces of 19 tokens and a record without ingress
    data. *)
Lemma C4_witness :
  calling_name start_line_five_segments = ["C"]
  /\ ingr_prot_data start_line_five_segments = ["SIP"; "a"]
  /\ egr_prot_data start_line_five_segments = ["SIP"; "b"]
  /\ ingr_prot_data line_five_segments = []
  /\ egr_prot_data line_five_segments = []
  /\ exists d,
       parse_cdr_to_dict no_table no_table start_line_two_legs = Ok d
       /\ d !! "ingress_call_id" = Some (VStr "callA")
       /\ d !! "ingress_status" = Some (VStr "BYE (BYE)")
       /\ d !! "egress_call_id" = Some (VStr "callB")
       /\ d !! "egress_status" = Some (VStr "404 (Unknown Code)")
       /\ d !! "calling_name" = Some (VList ["Bob"]).
Proof.
  pose proof (C4_legs_from_quoted_segments no_table no_table
                start_line_five_segments) as (N & P & _ & _).
  pose proof (C4_legs_from_quoted_segments no_table no_table
                line_five_segments) as (_ & _ & A & _).
  split; [exact (N "C" eq_refl)|].
  split; [exact (proj1 (P eq_refl) "SIP,a" eq_refl)|].
  split; [exact (proj2 (P eq_refl) "SIP,b" eq_refl)|].
  split; [exact (proj1 (A eq_refl))|].
  split; [exact (proj2 (A eq_refl) "A" eq_refl)|].
  pose proof (C4_legs_from_quoted_segments no_table no_table
                start_line_two_legs) as (_ & _ & _ & H).
  assert (T : cdr_type start_line_two_legs = "START") by reflexivity.
  rewrite (parse_start no_table no_table start_line_two_legs T) in H |- *.
  cbn [returns] in H. destruct H as (Hn & Hi & He).
  eexists. split; [reflexivity|].
  split; [rewrite Hi by compute_done; vm_compute; reflexivity|].
  split; [rewrite Hi by compute_done; vm_compute; reflexivity|].
  split; [rewrite He by compute_done; vm_compute; reflexivity|].
  split; [rewrite He by compute_done; vm_compute; reflexivity|].
  rewrite Hn. vm_compute. reflexivity.
Defined.

(** C5, as stated, fails: the empty line decodes to a mapping without
    calling_number, called_number, route_label or service_provider, and
    its gateway_name is the empty string, not the placeholder. *)
Lemma C5_counterexample :
  match parse_cdr_to_dict no_table no_table "" with
  | Ok d =>
      d !! "calling_number" = None /\ d !! "called_number" = None
      /\ d !! "route_label" = None /\ d !! "service_provider" = None
      /\ d !! "gateway_name" = Some (VStr "")
  | Raise _ => False
  end.
Proof. vm_compute. repeat split. Qed.

(** A START record of 16 fields: both defaults apply. *)
Lemma C5_witness :
  exists d,
    parse_cdr_to_dict no_table no_table start_line_no_name = Ok d
    /\ d !! "ing_device_name" = Some (VStr "N/A")
    /\ d !! "egr_device_name" = Some (VStr "N/A")
    /\ d !! "cdr_type" = Some (VStr "START")
    /\ is_Some (d !! "calling_number")
    /\ d !! "route_label" = Some (VStr "N/A (GW-GW call)")
    /\ d !! "service_provider" = Some (VStr "N/A").
Proof.
  pose proof (C5_keys_present no_table no_table start_line_no_name) as H.
  assert (T : cdr_type start_line_no_name = "START") by reflexivity.
  rewrite (parse_start no_table no_table start_line_no_name T) in H |- *.
  cbn [returns] in H.
  destruct H as (K1 & _ & _ & _ & (v1 & I1 & D1) & (v2 & I2 & D2) & R).
  eexists. split; [reflexivity|].
  rewrite (D1 eq_refl) in I1. rewrite (D2 eq_refl) in I2.
  split; [exact I1|]. split; [exact I2|]. split; [exact K1|].
  rewrite T in R. cbn [recognized] in R.
  change (String.eqb "START" "ATTEMPT" || String.eqb "START" "STOP"
          || String.eqb "START" "START") with true in R.
  destruct R as (c & ? & l & p & Hc & _ & Hl & Hp & _ & _ & Hd).
  destruct (Hd 23 12) as [El Ep]; [right; right; repeat split|].
  split; [rewrite Hc; eauto|].
  split; [rewrite Hl, El | rewrite Hp, Ep]; reflexivity.
Defined.

(** A line whose first field is FOO. *)
Lemma C6_witness :
  exists d,
    parse_cdr_to_dict no_table no_table unknown_type_line = Ok d
    /\ (forall k, is_Some (d !! k) <-> k ∈ type_agnostic_keys)
    /\ Forall (fun k => d !! k = None) type_specific_keys.
Proof.
  apply (C6_unrecognized_type no_table no_table unknown_type_line).
  reflexivity.
Defined.

(** C7: the code interpolates the list of name tokens where the claim
    puts the name.  On a START record with number 5551234 and the name Bob
    in its third quoted segment the decoded calling_number is the number
    followed by the list rendering of the name, brackets and quotes
    included, not by the name; without a name the number stands alone. *)
Theorem C7_calling_name_rendered_as_list (T1 T2 : gmap string string) :
  match parse_cdr_to_dict T1 T2 start_line_bob,
        parse_cdr_to_dict T1 T2 start_line_no_name with
  | Ok d, Ok d' =>
      calling_name start_line_bob = ["Bob"]
      /\ d !! "calling_number" = Some (VStr "5551234 (['Bob'])")
      /\ d !! "calling_number" <> Some (VStr "5551234 (Bob)")
      /\ d' !! "calling_number" = Some (VStr "5551234")
  | _, _ => False
  end.
Proof. vm_compute. repeat split. discriminate. Qed.

(** C8: on a STOP record that received 1 packet and lost a one followed
    by 309 zeros, both counts parse, the guard holds, and the division
    raises OverflowError, which the handler does not catch: no value is
    rendered and the decoder fails. *)
Theorem C8_loss_percentage_overflow_escapes (T1 T2 : gmap string string) :
  packets_lost_text "1" huge_digits = Raise OverflowError
  /\ parse_cdr_to_dict T1 T2 stop_line_huge_loss = Raise OverflowError.
Proof. vm_compute. split; reflexivity. Qed.

(** C9: on a STOP record whose duration is 2 followed by 308 zeros the
    duration is not converted: the multiplication raises OverflowError,
    which the handler does not catch, and the decoder fails. *)
Theorem C9_duration_overflow_escapes (T1 T2 : gmap string string) :
  duration_value ("2" +:+ zeros 308) = Raise OverflowError
  /\ parse_cdr_to_dict T1 T2 stop_line_duration_2e308 = Raise OverflowError.
Proof. vm_compute. split; reflexivity. Qed.

(** *** Regression anchors of the specification *)

(** The double nearest to 3.06. *)
Example float_3_06 :
  SFdiv prec emax (exact_int 306) (exact_int 100)
  = S754_finite false 6890507429876859 (-51).
Proof. vm_compute. reflexivity. Qed.

(** Raw 306 decodes to 3.06 seconds, raw abc to the placeholder. *)
Example duration_306 :
  duration_value "306"
  = Ok (VFloat (SFdiv prec emax (exact_int 306) (exact_int 100)))
  /\ duration_value "abc" = Ok (VStr "N/A").
Proof. vm_compute. split; reflexivity. Qed.

(** Lost 129 of 20640 received renders with its percentage; lost 0 of 0
    renders as the count alone. *)
Example packets_lost_examples :
  packets_lost_text "20640" "129" = Ok (Some "129 (0.6%)")
  /\ packets_lost_text "0" "0" = Ok (Some "0")
  /\ packets_lost_text "" "129" = Ok None.
Proof. vm_compute. repeat split. Qed.

(** The conversion of an integer to a float overflows from
    2^1024 - 2^970 on. *)
Example float_of_int_boundary :
  float_of_int (2 ^ 1024 - 2 ^ 970) = Raise OverflowError
  /\ float_of_int (2 ^ 1024 - 2 ^ 970 - 1)
     = Ok (S754_finite false 9007199254740991 971).
Proof. vm_compute. split; reflexivity. Qed.

(** A START record reads its calling number at index 15, 1-based
    position 16. *)
Example start_reads_position_16 :
  match parse_cdr_to_dict no_table no_table start_line_numbered with
  | Ok d => d !! "calling_number" = Some (VStr "16")
            /\ d !! "called_number" = Some (VStr "17")
  | Raise _ => False
  end.
Proof. vm_compute. split; reflexivity. Qed.

(** * Further properties of the code *)

(** ** Further properties of the tokenizer *)

Section TokenizerFacts.

(** Joining the pieces of a split with the separator gives the string
    back. *)
Lemma join_split sep s : join (String sep EmptyString) (split sep s) = s.
Proof.
  induction s as [|c t IH]; [reflexivity|].
  rewrite split_cons.
  pose proof (split_nonempty sep t) as Hn.
  destruct (Ascii.eqb_spec c sep) as [->|Hne].
  - destruct (split sep t) as [|h r] eqn:E; [contradiction|].
    change (join (String sep "") ("" :: h :: r))
      with (String sep (join (String sep "") (h :: r))).
    rewrite IH. reflexivity.
  - destruct (split sep t) as [|h r] eqn:E; [contradiction|].
    cbn [hd tl]. rewrite <- IH.
    destruct r as [|h' r']; reflexivity.
Qed.

(** No piece of a split holds the separator. *)
Lemma split_pieces_free sep s :
  Forall (fun piece => count sep piece = O) (split sep s).
Proof.
  induction s as [|c t IH]; [repeat constructor|].
  rewrite split_cons.
  pose proof (split_nonempty sep t) as Hn.
  destruct (Ascii.eqb c sep) eqn:E.
  - constructor; [reflexivity | exact IH].
  - destruct (split sep t) as [|h r]; [contradiction|].
    inversion IH as [|? ? Hh Hr]; subst. cbn [hd tl].
    constructor; [|exact Hr]. cbn [count]. rewrite E, Hh. reflexivity.
Qed.

(** X1: the three token lists lose nothing and never hold their own
    separator. *)
Theorem token_lists_lossless raw_cdr :
  join "," (fields raw_cdr) = strip raw_cdr
  /\ join q (cdr_fields_parsed raw_cdr) = strip raw_cdr
  /\ join "," (cdr_fields_without_prot_data raw_cdr)
     = strip (re_sub_quoted raw_cdr)
  /\ Forall (fun f => count ","%char f = O) (fields raw_cdr)
  /\ Forall (fun f => count dquote f = O) (cdr_fields_parsed raw_cdr)
  /\ length (cdr_fields_parsed raw_cdr) = S (count dquote raw_cdr).
Proof.
  unfold fields, cdr_fields_parsed, cdr_fields_without_prot_data, q.
  repeat split; try apply (join_split ","%char); try apply join_split;
    try apply split_pieces_free.
  rewrite length_split, count_strip by apply isspace_dquote. reflexivity.
Qed.

(** In skipping mode the scanner drops everything up to the closing
    quote, which it also drops. *)
Lemma count_dquote_re_sub_quoted_from s :
  (count dquote (re_sub_quoted_from s false)
   = if Nat.even (count dquote s) then O else 1%nat)
  /\ (0 < count dquote s ->
      count dquote (re_sub_quoted_from s true)
      = if Nat.even (count dquote s) then 1%nat else O)%nat.
Proof.
  induction s as [|c t [IHf IHt]]; [split; [reflexivity | cbn; lia]|].
  cbn [count re_sub_quoted_from].
  destruct (Ascii.eqb_spec c dquote) as [->|Hne]; cbn [Nat.add negb].
  - split.
    + rewrite Nat.even_succ.
      destruct (count dquote t) as [|n] eqn:E.
      * cbn. rewrite ?E. reflexivity.
      * change (0 <? S n)%nat with true. cbn iota. rewrite <- E in *.
        rewrite IHt by lia. rewrite <- Nat.negb_even.
        destruct (Nat.even (count dquote t)); reflexivity.
    + intros _. rewrite IHf, Nat.even_succ, <- Nat.negb_even.
      destruct (Nat.even (count dquote t)); reflexivity.
  - split.
    + cbn [count]. destruct (Ascii.eqb_spec c dquote); [contradiction|].
      exact IHf.
    + intros H. apply IHt. exact H.
Qed.

(** X2: after the quoted spans are removed at most one double quote is
    left, and none when the quotes of the line are balanced; removing
    again changes nothing more. *)
Theorem re_sub_quoted_leaves_at_most_one_quote s :
  count dquote (re_sub_quoted s)
  = (if Nat.even (count dquote s) then 0 else 1)%nat
  /\ re_sub_quoted (re_sub_quoted s) = re_sub_quoted s.
Proof.
  split; [apply count_dquote_re_sub_quoted_from|].
  assert (Hn : forall u, (count dquote u <= 1)%nat ->
                 re_sub_quoted_from u false = u).
  { induction u as [|c t IH]; [reflexivity|]. cbn [count re_sub_quoted_from].
    destruct (Ascii.eqb c dquote); cbn [Nat.add]; intros H.
    - destruct (count dquote t); [reflexivity | lia].
    - rewrite IH by exact H. reflexivity. }
  apply Hn. unfold re_sub_quoted.
  rewrite (proj1 (count_dquote_re_sub_quoted_from s)).
  destruct (Nat.even (count dquote s)); lia.
Qed.

End TokenizerFacts.

(** ** The helpers of the decoder *)

Section HelperFacts.

(** X4: a codec is named exactly when it is one of the four known codes,
    and a name other than N/A identifies its code. *)
Theorem get_codec_value_known codec :
  (get_codec_value codec <> "N/A"
   <-> In codec ["P:4:0"; "P:2:1"; "P:1:1"; "P:6:0"])
  /\ (forall codec', get_codec_value codec <> "N/A" ->
        get_codec_value codec = get_codec_value codec' -> codec = codec').
Proof.
  assert (cases : forall c,
    (c = "P:4:0" /\ get_codec_value c = "G.729A")
    \/ (c = "P:2:1" /\ get_codec_value c = "G.711 w/ Silence Suppression")
    \/ (c = "P:1:1" /\ get_codec_value c = "G.711 u-law")
    \/ (c = "P:6:0" /\ get_codec_value c = "Fax Relay")
    \/ (~ In c ["P:4:0"; "P:2:1"; "P:1:1"; "P:6:0"]
        /\ get_codec_value c = "N/A")).
  { intros c. unfold get_codec_value.
    destruct (String.eqb_spec c "P:4:0") as [->|H1]; [tauto|].
    destruct (String.eqb_spec c "P:2:1") as [->|H2]; [tauto|].
    destruct (String.eqb_spec c "P:1:1") as [->|H3]; [tauto|].
    destruct (String.eqb_spec c "P:6:0") as [->|H4]; [tauto|].
    do 4 right. split; [|reflexivity]. cbn [In]. intuition congruence. }
  split.
  - destruct (cases codec) as [[-> E]|[[-> E]|[[-> E]|[[-> E]|[N E]]]]];
      rewrite E; cbn [In]; split; intros H;
      try discriminate; try congruence; auto 6.
  - intros codec' Hn Heq.
    destruct (cases codec) as [[-> E]|[[-> E]|[[-> E]|[[-> E]|[N E]]]]];
      try congruence;
      destruct (cases codec')
        as [[-> E']|[[-> E']|[[-> E']|[[-> E']|[N' E']]]]];
      try reflexivity; rewrite E, E' in Heq; discriminate.
Qed.

Lemma nth_split_free sep s i :
  count sep (nth i (split sep s) "") = O.
Proof.
  pose proof (split_pieces_free sep s) as H.
  revert i. induction H as [|x l Hx Hl IH]; intros [|i]; cbn; auto.
Qed.

Lemma truthy_nonempty s : truthy s = true -> s <> "".
Proof. destruct s; [discriminate | discriminate]. Qed.

(** X5: the device name is never empty, carries no outer white space and no
    equals sign, and does not depend on white space around the header. *)
Theorem device_name_shape (inv_contact_header : string) :
  let name := extract_device_name_from_contact inv_contact_header in
  name <> ""
  /\ strip name = name
  /\ count "="%char name = O
  /\ extract_device_name_from_contact (strip inv_contact_header) = name.
Proof.
  cbv zeta. unfold extract_device_name_from_contact.
  rewrite strip_idempotent.
  set (h := strip inv_contact_header).
  set (want := if contains "transport" (lower h) then 2 else 1).
  destruct (truthy inv_contact_header) eqn:Hh; cbn [negb].
  2:{ destruct inv_contact_header; [|discriminate].
      repeat split; discriminate. }
  destruct (existsb (fun token => contains token (lower h))
              ["csf"; "sep"; "vms"]) eqn:Hm; cbn [negb].
  2:{ repeat split; [discriminate | destruct (truthy h); reflexivity]. }
  assert (Ht : truthy h = true).
  { destruct h; [discriminate Hm | reflexivity]. }
  rewrite Ht. cbn [negb].
  destruct ((want <? Z.of_nat (length (split "="%char h)))
            && truthy (strip (nth (Z.to_nat want) (split "="%char h) "")))
    eqn:Hc.
  2:{ repeat split; discriminate. }
  apply andb_true_iff in Hc as [_ Hc].
  repeat split.
  - apply truthy_nonempty. exact Hc.
  - apply strip_idempotent.
  - rewrite count_strip by reflexivity. apply nth_split_free.
Qed.

End HelperFacts.

Lemma append_nonempty_l (a b : string) : a <> "" -> a +:+ b <> "".
Proof. destruct a; [congruence | discriminate]. Qed.

Lemma device_name_nonempty h : extract_device_name_from_contact h <> "".
Proof.
  unfold extract_device_name_from_contact.
  destruct (negb (truthy h)); [discriminate|].
  destruct (negb _); [discriminate|].
  match goal with |- context [if ?c && truthy ?x then _ else _] =>
    destruct c; cbn [andb]; [destruct (truthy x) eqn:E|] end;
    try discriminate.
  apply truthy_nonempty. exact E.
Qed.

(** ** The legs *)

Section LegFacts.

Variable sip_cause_code_mapping : gmap string string.

Local Abbreviation parse_side := (parse_prot_data_side sip_cause_code_mapping).

Lemma side_lookup_cases l side_prefix contact_idx k v :
  side_prefix = "ingress" \/ side_prefix = "egress" ->
  parse_side l side_prefix contact_idx !! k = Some v ->
  exists s, v = VStr s /\ s <> "".
Proof.
  intros Hp. rewrite parse_side_unfold. cbv zeta.
  assert (Hs : forall code name : string,
            (if truthy code then code else "UNKNOWN") +:+ " (" +:+ name +:+ ")"
            <> "").
  { intros code name. apply append_nonempty_l.
    destruct (truthy code) eqn:E; [by apply truthy_nonempty | discriminate]. }
  destruct (length l <? 19)%nat.
  - intros H.
    apply lookup_insert_Some in H as [[_ <-]|[_ H]];
      [eexists; split; [reflexivity|discriminate]|].
    apply lookup_insert_Some in H as [[_ <-]|[_ H]];
      [eexists; split; [reflexivity|discriminate]|].
    rewrite lookup_empty in H. discriminate.
  - intros H.
    apply lookup_insert_Some in H as [[_ <-]|[_ H]];
      [eexists; split; [reflexivity | apply device_name_nonempty]|].
    apply lookup_insert_Some in H as [[_ <-]|[_ H]];
      [eexists; split; [reflexivity | apply Hs]|].
    destruct (truthy (strip (safe_get l 1 ""))) eqn:E.
    + apply lookup_insert_Some in H as [[_ <-]|[_ H]];
        [eexists; split; [reflexivity | by apply truthy_nonempty]|].
      apply lookup_insert_Some in H as [[_ <-]|[_ H]];
        [eexists; split; [reflexivity|discriminate]|].
      apply lookup_insert_Some in H as [[_ <-]|[_ H]];
        [eexists; split; [reflexivity|discriminate]|].
      rewrite lookup_empty in H. discriminate.
    + apply lookup_insert_Some in H as [[_ <-]|[_ H]];
        [eexists; split; [reflexivity|discriminate]|].
      apply lookup_insert_Some in H as [[_ <-]|[_ H]];
        [eexists; split; [reflexivity|discriminate]|].
      rewrite lookup_empty in H. discriminate.
Qed.

(** X6: whatever the trace holds, a leg yields only non-empty strings. *)
Theorem leg_values_nonempty (prot_data : list string) k v :
  parse_prot_data_side sip_cause_code_mapping prot_data "ingress" 12 !! k
    = Some v
  \/ parse_prot_data_side sip_cause_code_mapping prot_data "egress" 13 !! k
     = Some v ->
  exists s, v = VStr s /\ s <> "".
Proof.
  intros [H|H].
  - apply (side_lookup_cases prot_data "ingress" 12 k v); [by left | exact H].
  - apply (side_lookup_cases prot_data "egress" 13 k v); [by right | exact H].
Qed.

(** X7: a leg always has its call id and its status, has its device name
    exactly when the trace holds at least 19 tokens, and has no other
    key. *)
Theorem leg_keys (prot_data : list string) k :
  (is_Some (parse_prot_data_side sip_cause_code_mapping prot_data
              "ingress" 12 !! k)
   <-> k = "ingress_call_id" \/ k = "ingress_status"
       \/ (k = "ing_device_name" /\ (19 <= length prot_data)%nat))
  /\ (is_Some (parse_prot_data_side sip_cause_code_mapping prot_data
                 "egress" 13 !! k)
      <-> k = "egress_call_id" \/ k = "egress_status"
          \/ (k = "egr_device_name" /\ (19 <= length prot_data)%nat)).
Proof.
  split; split.
  - intros H.
    destruct (decide (k = "ingress_call_id")) as [|N1]; [tauto|].
    destruct (decide (k = "ingress_status")) as [|N2]; [tauto|].
    destruct (decide (k = "ing_device_name")) as [->|N3].
    + rewrite ingress_side_device in H. unfold leg_short in H.
      destruct (Nat.ltb_spec (length prot_data) 19);
        [by destruct H | right; right; split; [reflexivity | lia]].
    + rewrite ingress_side_other in H by assumption. by destruct H.
  - intros [->|[->|[-> H]]].
    + apply ingress_side_call_id.
    + apply ingress_side_status.
    + rewrite ingress_side_device. unfold leg_short.
      destruct (Nat.ltb_spec (length prot_data) 19); [lia | eauto].
  - intros H.
    destruct (decide (k = "egress_call_id")) as [|N1]; [tauto|].
    destruct (decide (k = "egress_status")) as [|N2]; [tauto|].
    destruct (decide (k = "egr_device_name")) as [->|N3].
    + rewrite egress_side_device in H. unfold leg_short in H.
      destruct (Nat.ltb_spec (length prot_data) 19);
        [by destruct H | right; right; split; [reflexivity | lia]].
    + rewrite egress_side_other in H by assumption. by destruct H.
  - intros [->|[->|[-> H]]].
    + apply egress_side_call_id.
    + apply egress_side_status.
    + rewrite egress_side_device. unfold leg_short.
      destruct (Nat.ltb_spec (length prot_data) 19); [lia | eauto].
Qed.

Lemma side_status l side_prefix contact_idx :
  side_prefix = "ingress" \/ side_prefix = "egress" ->
  (19 <= length l)%nat ->
  let status_code := strip (safe_get l 18 "") in
  parse_side l side_prefix contact_idx !! (side_prefix +:+ "_status")
  = Some (VStr
      ((if truthy status_code then status_code else "UNKNOWN") +:+ " (" +:+
       (if negb (String.eqb (if truthy status_code
                             then "sip_" +:+ status_code
                             else "sip_UNKNOWN") "sip_BYE")
        then default "Unknown Code"
               (sip_cause_code_mapping
                  !! (if truthy status_code then "sip_" +:+ status_code
                      else "sip_UNKNOWN"))
        else "BYE") +:+ ")")).
Proof.
  intros Hp Hl. rewrite parse_side_unfold. cbv zeta.
  destruct (Nat.ltb_spec (length l) 19); [lia|].
  destruct Hp as [-> | ->];
    (rewrite lookup_insert_ne by discriminate);
    rewrite lookup_insert_eq; reflexivity.
Qed.

(** X8: a BYE status is rendered without consulting the table, and a blank
    status is shown as UNKNOWN with the table's entry for sip_UNKNOWN. *)
Theorem leg_status_bye_and_blank (prot_data : list string) :
  (19 <= length prot_data)%nat ->
  (strip (safe_get prot_data 18 "") = "BYE" ->
   parse_prot_data_side sip_cause_code_mapping prot_data "ingress" 12
     !! "ingress_status" = Some (VStr "BYE (BYE)")
   /\ parse_prot_data_side sip_cause_code_mapping prot_data "egress" 13
        !! "egress_status" = Some (VStr "BYE (BYE)"))
  /\ (strip (safe_get prot_data 18 "") = "" ->
      let text := "UNKNOWN (" +:+
                  default "Unknown Code"
                    (sip_cause_code_mapping !! "sip_UNKNOWN") +:+ ")" in
      parse_prot_data_side sip_cause_code_mapping prot_data "ingress" 12
        !! "ingress_status" = Some (VStr text)
      /\ parse_prot_data_side sip_cause_code_mapping prot_data "egress" 13
           !! "egress_status" = Some (VStr text)).
Proof.
  intros Hl.
  pose proof (side_status prot_data "ingress" 12 (or_introl eq_refl) Hl) as Hi.
  pose proof (side_status prot_data "egress" 13 (or_intror eq_refl) Hl) as He.
  cbv zeta in Hi, He.
  change ("ingress" +:+ "_status") with "ingress_status" in Hi.
  change ("egress" +:+ "_status") with "egress_status" in He.
  split; intros E; rewrite E in Hi, He; split; assumption.
Qed.

End LegFacts.

(** ** The decoded mapping as a whole *)

Section DecodeFacts.

Variable sip_cause_code_mapping : gmap string string.
Variable cdr_disconnect_reason : gmap string string.

Local Abbreviation common := (common_part sip_cause_code_mapping).
Local Abbreviation parse :=
  (parse_cdr_to_dict sip_cause_code_mapping cdr_disconnect_reason).
Local Abbreviation typed := (map_Forall (M := dict) value_ok).

Lemma typed_setitem k v (d : dict) :
  value_ok k v -> typed d -> typed (setitem k v d).
Proof. intros Hv Hd. unfold setitem. by apply map_Forall_insert_2. Qed.

Lemma typed_set_rtp_pair local_key remote_key x (d : dict) :
  typed d -> typed (set_rtp_pair local_key remote_key x d).
Proof.
  intros Hd. unfold set_rtp_pair.
  destruct (truthy x && contains "/" x); [|exact Hd].
  apply typed_setitem; [exact I|]. apply typed_setitem; [exact I | exact Hd].
Qed.

Lemma typed_update (other d : dict) :
  typed other -> typed d -> typed (update other d).
Proof.
  intros Ho Hd k v H. unfold update in H.
  apply lookup_union_Some_raw in H as [H|[_ H]]; [by apply Ho | by apply Hd].
Qed.

Lemma typed_setdefault k v (d : dict) :
  value_ok k v -> typed d -> typed (setdefault k v d).
Proof.
  intros Hv Hd. unfold setdefault. destruct (d !! k); [exact Hd|].
  by apply map_Forall_insert_2.
Qed.

Lemma typed_common raw_cdr : typed (common raw_cdr).
Proof.
  unfold common_part. cbv zeta.
  repeat (apply typed_setitem; [exact I|]).
  repeat (apply typed_setdefault; [exact I|]).
  apply typed_update.
  { intros k v H.
    apply (side_lookup_cases _ _ "egress" 13) in H as (s & -> & _);
      [exact I | by right]. }
  apply typed_update.
  { intros k v H.
    apply (side_lookup_cases _ _ "ingress" 12) in H as (s & -> & _);
      [exact I | by left]. }
  apply typed_setitem; [reflexivity|]. apply map_Forall_empty.
Qed.

Lemma typed_attempt raw_cdr (d0 : dict) :
  typed d0 -> typed (attempt_branch cdr_disconnect_reason raw_cdr d0).
Proof.
  intros H. unfold attempt_branch. cbv zeta.
  repeat first [ apply typed_setitem; [exact I|]
               | apply typed_set_rtp_pair ].
  exact H.
Qed.

Lemma typed_start raw_cdr (d0 : dict) :
  typed d0 -> typed (start_branch raw_cdr d0).
Proof.
  intros H. unfold start_branch. cbv zeta.
  repeat first [ apply typed_setitem; [exact I|]
               | apply typed_set_rtp_pair ].
  exact H.
Qed.

Lemma duration_value_kind duration_raw v :
  duration_value duration_raw = Ok v ->
  (v = VStr "N/A" /\ int_of_str duration_raw = None)
  \/ (exists x n, v = VFloat x /\ int_of_str duration_raw = Some n).
Proof.
  unfold duration_value, int_mul_float, py_int.
  destruct (int_of_str duration_raw) as [n|]; cbn [bind].
  - destruct (float_of_int n) as [x|e2] eqn:E2; cbn [bind].
    + destruct (py_round (float_mul x float_0_01) 2) as [y|e3] eqn:E3;
        cbn [bind try_except_TypeError_ValueError].
      * intros [= <-]. right. eauto.
      * apply py_round_raises in E3. subst e3. cbn. discriminate.
    + apply float_of_int_raises in E2. subst e2. cbn. discriminate.
  - cbn. intros [= <-]. by left.
Qed.

Lemma typed_stop raw_cdr (d0 : dict) :
  typed d0 ->
  returns (stop_branch cdr_disconnect_reason raw_cdr d0)
    (map_Forall value_ok).
Proof.
  intros H. unfold stop_branch, set_duration, add_loss_percentage.
  destruct (duration_value (safe_get (fields raw_cdr) 13 ""))
    as [dv|e] eqn:Ed; cbn [bind returns];
    [|by apply duration_value_raises in Ed].
  destruct (packets_lost_text (safe_get (fields raw_cdr) 41 "")
              (safe_get (cdr_fields_without_prot_data raw_cdr) 64 ""))
    as [t1|e] eqn:E1; cbn [bind returns];
    [|by apply packets_lost_text_raises in E1].
  destruct (packets_lost_text
              (safe_get (cdr_fields_without_prot_data raw_cdr) 147 "")
              (safe_get (cdr_fields_without_prot_data raw_cdr) 148 ""))
    as [t2|e] eqn:E2; cbn [bind returns];
    [|by apply packets_lost_text_raises in E2].
  assert (Hdv : value_ok "duration" dv).
  { apply duration_value_kind in Ed as [[-> _]|(x & n & -> & _)];
      reflexivity. }
  destruct t2; destruct t1;
    repeat first [ apply typed_setitem; [first [exact I | exact Hdv]|]
                 | apply typed_set_rtp_pair ];
    exact H.
Qed.

(** X9: in a decoded record every value is a string, except the calling
    name, which is a list of strings, and the duration, which a STOP record
    may hold as a float. *)
Theorem decode_values_typed raw_cdr :
  returns (parse raw_cdr) (fun d =>
    forall k v, d !! k = Some v ->
      match v with
      | VStr _ => True
      | VList _ => k = "calling_name"
      | VFloat _ => k = "duration" /\ cdr_type raw_cdr = "STOP"
      end).
Proof.
  pose proof (typed_common raw_cdr) as Hc.
  destruct (recognized (cdr_type raw_cdr)) eqn:R.
  - apply recognized_cases in R as [T|[T|T]].
    + rewrite (parse_attempt _ _ _ T). cbn [returns]. intros k v Hk.
      pose proof (typed_attempt raw_cdr _ Hc k v Hk) as Hv.
      destruct v; try exact Hv.
      cbn in Hv. subst k.
      destruct (attempt_branch_lookups cdr_disconnect_reason raw_cdr
                  (common raw_cdr)) as (_ & _ & _ & _ & _ & Hd & _).
      cbv zeta in Hd. congruence.
    + rewrite (parse_stop _ _ _ T).
      pose proof (typed_stop raw_cdr _ Hc) as Hs.
      destruct (stop_branch cdr_disconnect_reason raw_cdr (common raw_cdr));
        cbn [returns] in *; [|exact Hs].
      intros k v Hk. specialize (Hs k v Hk). destruct v; try exact Hs.
      split; [exact Hs | exact T].
    + rewrite (parse_start _ _ _ T). cbn [returns]. intros k v Hk.
      pose proof (typed_start raw_cdr _ Hc k v Hk) as Hv.
      destruct v; try exact Hv.
      cbn in Hv. subst k.
      destruct (start_branch_lookups raw_cdr (common raw_cdr))
        as (_ & _ & _ & _ & _ & Hd & _).
      cbv zeta in Hd. congruence.
  - rewrite (parse_unrecognized _ _ _ R). cbn [returns]. intros k v Hk.
    pose proof (Hc k v Hk) as Hv. destruct v; try exact Hv.
    cbn in Hv. subst k.
    rewrite (common_part_other sip_cause_code_mapping raw_cdr "duration")
      in Hk by compute_done.
    discriminate.
Qed.

(** X10: a decoded record holds no key outside the eleven general and the
    thirty-one type-specific ones. *)
Theorem decode_keys_known raw_cdr :
  returns (parse raw_cdr) (fun d =>
    forall k, is_Some (d !! k) ->
      k ∈ type_agnostic_keys \/ k ∈ type_specific_keys).
Proof.
  destruct (parse raw_cdr) as [d|e] eqn:E; cbn [returns].
  - intros k Hk.
    destruct (decide (k ∈ type_specific_keys)) as [|N]; [by right|].
    left. apply (common_part_keys sip_cause_code_mapping raw_cdr).
    pose proof (parse_agnostic_key sip_cause_code_mapping
                  cdr_disconnect_reason raw_cdr k N) as H.
    rewrite E in H. cbn [returns] in H. by rewrite <- H.
  - by apply parse_raises_only_overflow in E as [-> _].
Qed.


Lemma has_slash_truthy x : truthy x && contains "/" x = contains "/" x.
Proof. destruct x; reflexivity. Qed.

Lemma lookup_set_rtp_pair_local local_key remote_key x (d : dict) :
  local_key <> remote_key ->
  set_rtp_pair local_key remote_key x d !! local_key
  = if contains "/" x then Some (rtp_local x) else d !! local_key.
Proof.
  intros N. unfold set_rtp_pair. rewrite has_slash_truthy.
  destruct (contains "/" x); [|reflexivity].
  unfold setitem. rewrite lookup_insert_ne by congruence.
  apply lookup_insert_eq.
Qed.

Lemma lookup_set_rtp_pair_remote local_key remote_key x (d : dict) :
  set_rtp_pair local_key remote_key x d !! remote_key
  = if contains "/" x then Some (rtp_remote x) else d !! remote_key.
Proof.
  unfold set_rtp_pair. rewrite has_slash_truthy.
  destruct (contains "/" x); [|reflexivity].
  unfold setitem. apply lookup_insert_eq.
Qed.

Ltac skip_keys :=
  unfold setitem;
  repeat (rewrite lookup_insert_ne by (first [discriminate | congruence])).

Ltac rtp_key :=
  skip_keys;
  first
    [ rewrite lookup_set_rtp_pair_local by discriminate
    | rewrite lookup_set_rtp_pair_remote
    | rewrite lookup_set_rtp_pair_ne by discriminate; skip_keys;
      first [ rewrite lookup_set_rtp_pair_local by discriminate
            | rewrite lookup_set_rtp_pair_remote ] ];
  match goal with
  | |- (if ?c then _ else _) = _ => destruct c; [reflexivity|]
  end;
  skip_keys;
  rewrite ?lookup_set_rtp_pair_ne by discriminate;
  skip_keys.

Lemma attempt_branch_rtp raw_cdr (d0 : dict) :
  (forall k, k ∈ type_specific_keys -> d0 !! k = None) ->
  rtp_keys_of (safe_get (fields raw_cdr) 32 "")
    (safe_get (fields raw_cdr) 34 "")
    (attempt_branch cdr_disconnect_reason raw_cdr d0).
Proof.
  intros H0. unfold attempt_branch, rtp_keys_of. cbv zeta.
  repeat split; rtp_key; apply H0; compute_done.
Qed.

Lemma start_branch_rtp raw_cdr (d0 : dict) :
  (forall k, k ∈ type_specific_keys -> d0 !! k = None) ->
  rtp_keys_of (safe_get (fields raw_cdr) 30 "")
    (safe_get (fields raw_cdr) 32 "")
    (start_branch raw_cdr d0).
Proof.
  intros H0. unfold start_branch, rtp_keys_of. cbv zeta.
  repeat split; rtp_key; apply H0; compute_done.
Qed.


Ltac stop_open :=
  unfold stop_branch, set_duration, add_loss_percentage;
  match goal with
  | |- context [duration_value ?a] =>
      destruct (duration_value a) as [dv|?e] eqn:Ed; cbn [bind returns];
      [|by apply duration_value_raises in Ed]
  end;
  match goal with
  | |- context [bind (packets_lost_text ?a ?b) _] =>
      destruct (packets_lost_text a b) as [t1|?e] eqn:E1;
      cbn [bind returns]; [|by apply packets_lost_text_raises in E1]
  end;
  match goal with
  | |- context [bind (packets_lost_text ?a ?b) _] =>
      destruct (packets_lost_text a b) as [t2|?e] eqn:E2;
      cbn [bind returns]; [|by apply packets_lost_text_raises in E2]
  end.

Lemma lookup_lost_text_ne key (text : option string) (d : dict) k :
  key <> k ->
  match text with
  | Some v => setitem key (VStr v) d
  | None => d
  end !! k = d !! k.
Proof. intros N. destruct text; [|reflexivity]. by skip_keys. Qed.

Ltac stop_skip :=
  rewrite ?lookup_lost_text_ne by discriminate; skip_keys;
  rewrite ?lookup_set_rtp_pair_ne by discriminate; skip_keys;
  rewrite ?lookup_lost_text_ne by discriminate; skip_keys;
  rewrite ?lookup_set_rtp_pair_ne by discriminate; skip_keys.

Ltac stop_rtp_key :=
  rewrite ?lookup_lost_text_ne by discriminate; skip_keys;
  first
    [ rewrite lookup_set_rtp_pair_local by discriminate
    | rewrite lookup_set_rtp_pair_remote
    | rewrite lookup_set_rtp_pair_ne by discriminate; skip_keys;
      rewrite ?lookup_lost_text_ne by discriminate; skip_keys;
      first [ rewrite lookup_set_rtp_pair_local by discriminate
            | rewrite lookup_set_rtp_pair_remote ] ];
  match goal with
  | |- (if ?c then _ else _) = _ => destruct c; [reflexivity|]
  end;
  stop_skip.

Lemma stop_branch_more raw_cdr (d0 : dict) :
  (forall k, k ∈ type_specific_keys -> d0 !! k = None) ->
  returns (stop_branch cdr_disconnect_reason raw_cdr d0) (fun d =>
    rtp_keys_of (safe_get (fields raw_cdr) 35 "")
      (safe_get (fields raw_cdr) 37 "") d
    /\ d !! "disconnect_initiator"
       = Some (VStr (disconnect_initiator_text
                       (safe_get (cdr_fields_without_prot_data raw_cdr)
                          63 "")))
    /\ d !! "ingress_codec"
       = Some (VStr (get_codec_value
                       (safe_get (cdr_fields_without_prot_data raw_cdr)
                          78 "")))
    /\ d !! "egress_codec"
       = Some (VStr (get_codec_value
                       (safe_get (cdr_fields_without_prot_data raw_cdr)
                          79 "")))).
Proof.
  intros H0. stop_open. unfold rtp_keys_of.
  repeat split.
  1-4: stop_rtp_key; apply H0; compute_done.
  all: stop_skip; apply lookup_insert_eq.
Qed.

Lemma specific_not_agnostic k :
  k ∈ type_specific_keys -> k ∉ type_agnostic_keys.
Proof.
  intros H Ha. apply list_elem_of_In in H. apply list_elem_of_In in Ha.
  assert (F : forallb (fun k => negb (existsb (String.eqb k)
                                        type_agnostic_keys))
                type_specific_keys = true) by reflexivity.
  rewrite forallb_forall in F. specialize (F k H).
  apply negb_true_iff in F.
  assert (E : existsb (String.eqb k) type_agnostic_keys = true).
  { apply existsb_exists. exists k. split; [exact Ha|apply String.eqb_refl]. }
  congruence.
Qed.

Lemma common_lacks_specific raw_cdr k :
  k ∈ type_specific_keys -> common raw_cdr !! k = None.
Proof.
  intros H. apply common_part_other. by apply specific_not_agnostic.
Qed.

(** X11: the two RTP keys of a leg are stored together or not at all: both
    are present, with the text before and after the first slash of the
    stripped raw field, exactly when the raw field holds a slash. *)
Theorem rtp_pair_set_together raw_cdr :
  returns (parse raw_cdr) (fun d =>
    (cdr_type raw_cdr = "START" ->
     rtp_keys_of (safe_get (fields raw_cdr) 30 "")
       (safe_get (fields raw_cdr) 32 "") d)
    /\ (cdr_type raw_cdr = "ATTEMPT" ->
        rtp_keys_of (safe_get (fields raw_cdr) 32 "")
          (safe_get (fields raw_cdr) 34 "") d)
    /\ (cdr_type raw_cdr = "STOP" ->
        rtp_keys_of (safe_get (fields raw_cdr) 35 "")
          (safe_get (fields raw_cdr) 37 "") d)).
Proof.
  pose proof (common_lacks_specific raw_cdr) as H0.
  destruct (recognized (cdr_type raw_cdr)) eqn:R.
  - apply recognized_cases in R as [T|[T|T]].
    + rewrite (parse_attempt _ _ _ T). cbn [returns]. rewrite T.
      split; [discriminate|split; [intros _|discriminate]].
      by apply attempt_branch_rtp.
    + rewrite (parse_stop _ _ _ T).
      pose proof (stop_branch_more raw_cdr _ H0) as Hs.
      destruct (stop_branch cdr_disconnect_reason raw_cdr (common raw_cdr));
        cbn [returns] in *; [|exact Hs].
      rewrite T. split; [discriminate|split; [discriminate|intros _]].
      apply Hs.
    + rewrite (parse_start _ _ _ T). cbn [returns]. rewrite T.
      split; [intros _|split; discriminate].
      by apply start_branch_rtp.
  - rewrite (parse_unrecognized _ _ _ R). cbn [returns].
    unfold recognized in R.
    split; [|split]; intros T; rewrite T in R; discriminate.
Qed.


Ltac plain_key :=
  skip_keys; rewrite ?lookup_set_rtp_pair_ne by discriminate;
  skip_keys; rewrite ?lookup_set_rtp_pair_ne by discriminate;
  skip_keys; first [apply lookup_insert_eq | idtac].

(** The keys that hold a measurement of the finished call. *)
Lemma attempt_measurements raw_cdr (d0 : dict) :
  Forall (fun k => attempt_branch cdr_disconnect_reason raw_cdr d0 !! k
                   = Some (VStr "N/A"))
    [ "duration"; "ingress_audio_packets_sent";
      "ingress_audio_packets_rcvd"; "ingress_packets_lost";
      "egress_audio_packets_sent"; "egress_audio_packets_rcvd";
      "egress_packets_lost" ].
Proof.
  unfold attempt_branch. cbv zeta.
  repeat (apply List.Forall_cons; [by plain_key|]). apply List.Forall_nil.
Qed.

Lemma start_measurements raw_cdr (d0 : dict) :
  Forall (fun k => start_branch raw_cdr d0 !! k = Some (VStr "N/A"))
    [ "duration"; "ingress_audio_packets_sent";
      "ingress_audio_packets_rcvd"; "ingress_packets_lost";
      "egress_audio_packets_sent"; "egress_audio_packets_rcvd";
      "egress_packets_lost"; "disconnect_time";
      "disconnect_reason"; "disconnect_initiator";
      "ingress_codec"; "egress_codec" ].
Proof.
  unfold start_branch. cbv zeta.
  repeat (apply List.Forall_cons; [by plain_key|]). apply List.Forall_nil.
Qed.

Lemma start_stop_date raw_cdr :
  start_branch raw_cdr (common raw_cdr) !! "stop_date" = None.
Proof.
  unfold start_branch. cbv zeta. plain_key.
  apply common_lacks_specific. compute_done.
Qed.

(** X12: a record that is not a STOP record carries no measurement: an
    ATTEMPT record has N/A for the duration and the six packet counts, and
    a START record has N/A for these and for the disconnect time, reason
    and initiator and both codecs, and has no stop date at all. *)
Theorem non_stop_records_lack_measurements raw_cdr :
  (cdr_type raw_cdr = "ATTEMPT" ->
   exists d, parse raw_cdr = Ok d
     /\ Forall (fun k => d !! k = Some (VStr "N/A"))
          [ "duration"; "ingress_audio_packets_sent";
            "ingress_audio_packets_rcvd"; "ingress_packets_lost";
            "egress_audio_packets_sent"; "egress_audio_packets_rcvd";
            "egress_packets_lost" ])
  /\ (cdr_type raw_cdr = "START" ->
      exists d, parse raw_cdr = Ok d
        /\ Forall (fun k => d !! k = Some (VStr "N/A"))
             [ "duration"; "ingress_audio_packets_sent";
               "ingress_audio_packets_rcvd"; "ingress_packets_lost";
               "egress_audio_packets_sent"; "egress_audio_packets_rcvd";
               "egress_packets_lost"; "disconnect_time";
               "disconnect_reason"; "disconnect_initiator";
               "ingress_codec"; "egress_codec" ]
        /\ d !! "stop_date" = None).
Proof.
  split; intros T.
  - rewrite (parse_attempt _ _ _ T). eexists. split; [reflexivity|].
    apply attempt_measurements.
  - rewrite (parse_start _ _ _ T). eexists. split; [reflexivity|].
    split; [apply start_measurements | apply start_stop_date].
Qed.

Lemma attempt_branch_more raw_cdr (d0 : dict) :
  let d := attempt_branch cdr_disconnect_reason raw_cdr d0 in
  d !! "disconnect_initiator"
    = Some (VStr (disconnect_initiator_text
                    (safe_get (cdr_fields_without_prot_data raw_cdr) 56 "")))
  /\ d !! "ingress_codec"
     = Some (VStr (get_codec_value
                     (safe_get (cdr_fields_without_prot_data raw_cdr)
                        68 "")))
  /\ d !! "egress_codec"
     = Some (VStr (get_codec_value
                     (safe_get (cdr_fields_without_prot_data raw_cdr)
                        69 ""))).
Proof.
  cbv zeta. unfold attempt_branch. repeat split; plain_key.
Qed.

Lemma start_branch_more raw_cdr (d0 : dict) :
  let d := start_branch raw_cdr d0 in
  d !! "disconnect_initiator" = Some (VStr "N/A")
  /\ d !! "ingress_codec" = Some (VStr "N/A")
  /\ d !! "egress_codec" = Some (VStr "N/A").
Proof.
  cbv zeta. unfold start_branch. repeat split; plain_key.
Qed.

Lemma codec_name_cases codec :
  In (get_codec_value codec)
    [ "G.729A"; "G.711 w/ Silence Suppression"; "G.711 u-law"; "Fax Relay";
      "N/A" ].
Proof.
  unfold get_codec_value.
  destruct (String.eqb codec "P:4:0"); [cbn; tauto|].
  destruct (String.eqb codec "P:2:1"); [cbn; tauto|].
  destruct (String.eqb codec "P:1:1"); [cbn; tauto|].
  destruct (String.eqb codec "P:6:0"); cbn; tauto.
Qed.

(** X13: whatever the line holds, a decoded codec is one of the four codec
    names or N/A. *)
Theorem decoded_codec_names raw_cdr :
  returns (parse raw_cdr) (fun d =>
    forall k v, k = "ingress_codec" \/ k = "egress_codec" ->
      d !! k = Some v ->
      exists name, v = VStr name
        /\ In name [ "G.729A"; "G.711 w/ Silence Suppression";
                     "G.711 u-law"; "Fax Relay"; "N/A" ]).
Proof.
  destruct (recognized (cdr_type raw_cdr)) eqn:R.
  - apply recognized_cases in R as [T|[T|T]].
    + rewrite (parse_attempt _ _ _ T). cbn [returns].
      destruct (attempt_branch_more raw_cdr (common raw_cdr))
        as (_ & Hi & He).
      cbv zeta in Hi, He.
      intros k v [-> | ->] Hk; [rewrite Hi in Hk | rewrite He in Hk];
        injection Hk as <-;
        eexists; (split; [reflexivity | apply codec_name_cases]).
    + rewrite (parse_stop _ _ _ T).
      pose proof (stop_branch_more raw_cdr _ (common_lacks_specific raw_cdr))
        as Hs.
      destruct (stop_branch cdr_disconnect_reason raw_cdr (common raw_cdr));
        cbn [returns] in *; [|exact Hs].
      destruct Hs as (_ & _ & Hi & He).
      intros k v [-> | ->] Hk; [rewrite Hi in Hk | rewrite He in Hk];
        injection Hk as <-;
        eexists; (split; [reflexivity | apply codec_name_cases]).
    + rewrite (parse_start _ _ _ T). cbn [returns].
      destruct (start_branch_more raw_cdr (common raw_cdr))
        as (_ & Hi & He).
      cbv zeta in Hi, He.
      intros k v [-> | ->] Hk; [rewrite Hi in Hk | rewrite He in Hk];
        injection Hk as <-;
        eexists; (split; [reflexivity | cbn; tauto]).
  - rewrite (parse_unrecognized _ _ _ R). cbn [returns].
    intros k v [-> | ->] Hk;
      rewrite common_lacks_specific in Hk by compute_done; discriminate.
Qed.

(** X14: the duration of a STOP record that decodes is N/A when the raw
    field is no integer, and otherwise the float obtained by rounding the
    product of the integer and 0.01 to two places. *)
Theorem stop_duration_is_hundredths raw_cdr :
  cdr_type raw_cdr = "STOP" ->
  returns (parse raw_cdr) (fun d =>
    match int_of_str (safe_get (fields raw_cdr) 13 "") with
    | None => d !! "duration" = Some (VStr "N/A")
    | Some n =>
        exists product rounded,
          int_mul_float n float_0_01 = Ok product
          /\ py_round product 2 = Ok rounded
          /\ d !! "duration" = Some (VFloat rounded)
    end).
Proof.
  intros T. rewrite (parse_stop _ _ _ T).
  pose proof (stop_branch_lookups cdr_disconnect_reason raw_cdr
                (common raw_cdr)) as Hs.
  destruct (stop_branch cdr_disconnect_reason raw_cdr (common raw_cdr));
    cbn [returns] in *; [|exact Hs].
  destruct Hs as ((v & Hv & Hd) & _).
  revert Hv. unfold duration_value, py_int.
  destruct (int_of_str (safe_get (fields raw_cdr) 13 "")) as [n|];
    cbn [bind].
  - destruct (int_mul_float n float_0_01) as [y|e2] eqn:E2; cbn [bind].
    + destruct (py_round y 2) as [x|e3] eqn:E3;
        cbn [bind try_except_TypeError_ValueError].
      * intros [= <-]. eauto.
      * apply py_round_raises in E3. subst e3. cbn. discriminate.
    + unfold int_mul_float in E2.
      destruct (float_of_int n) as [x|e] eqn:E; cbn [bind] in E2;
        [discriminate|].
      apply float_of_int_raises in E. subst e. injection E2 as <-.
      cbn. discriminate.
  - cbn. intros [= <-]. exact Hd.
Qed.

Lemma packets_lost_text_no_percentage rcvd_raw lost_raw :
  no_percentage rcvd_raw lost_raw ->
  exists text, packets_lost_text rcvd_raw lost_raw = Ok text.
Proof.
  intros [H|[H|(rcvd & lost & Hr & Hl & H)]].
  - rewrite packets_lost_text_unparsed by (by left). eauto.
  - rewrite packets_lost_text_unparsed by (by right). eauto.
  - rewrite (packets_lost_text_plain _ _ rcvd lost Hr Hl H). eauto.
Qed.

(** X15: decoding never fails on text that is no number, nor divides by
    zero: a line decodes whenever its duration field is no integer and, on
    either leg, a packet count is no integer, nothing was received or the
    loss is negative. *)
Theorem decode_returns_without_numbers raw_cdr :
  int_of_str (safe_get (fields raw_cdr) 13 "") = None ->
  no_percentage (safe_get (fields raw_cdr) 41 "")
    (safe_get (cdr_fields_without_prot_data raw_cdr) 64 "") ->
  no_percentage (safe_get (cdr_fields_without_prot_data raw_cdr) 147 "")
    (safe_get (cdr_fields_without_prot_data raw_cdr) 148 "") ->
  exists d, parse raw_cdr = Ok d
    /\ (cdr_type raw_cdr = "STOP" -> d !! "duration" = Some (VStr "N/A")).
Proof.
  intros Hd Hi He.
  destruct (String.eqb_spec (cdr_type raw_cdr) "STOP") as [T|N].
  - pose proof (stop_branch_lookups cdr_disconnect_reason raw_cdr
                  (common raw_cdr)) as L.
    rewrite (parse_stop _ _ _ T).
    destruct (packets_lost_text_no_percentage _ _ Hi) as [t1 E1].
    destruct (packets_lost_text_no_percentage _ _ He) as [t2 E2].
    pose proof (duration_value_unparsed _ Hd) as Ed.
    revert L. unfold stop_branch, set_duration, add_loss_percentage.
    rewrite Ed. cbn [bind]. rewrite E1. cbn [bind]. rewrite E2.
    cbn [bind returns]. intros ((v & Hv & Hk) & _).
    eexists. split; [reflexivity|]. intros _.
    rewrite Hk. congruence.
  - destruct (parse_returns_unless_stop sip_cause_code_mapping
                cdr_disconnect_reason raw_cdr N) as [d E].
    exists d. split; [exact E | contradiction].
Qed.


Lemma common_leg_value raw_cdr k v :
  k ∈ [ "ingress_call_id"; "ingress_status"; "ing_device_name";
        "egress_call_id"; "egress_status"; "egr_device_name" ] ->
  common raw_cdr !! k = Some v -> exists s, v = VStr s /\ s <> "".
Proof.
  intros Hk.
  assert (Hside : forall w,
    parse_prot_data_side sip_cause_code_mapping (ingr_prot_data raw_cdr)
      "ingress" 12 !! k = Some w
    \/ parse_prot_data_side sip_cause_code_mapping (egr_prot_data raw_cdr)
         "egress" 13 !! k = Some w ->
    exists s, w = VStr s /\ s <> "").
  { intros w [H|H].
    - apply (side_lookup_cases sip_cause_code_mapping
               (ingr_prot_data raw_cdr) "ingress" 12 k w);
        [by left | exact H].
    - apply (side_lookup_cases sip_cause_code_mapping
               (egr_prot_data raw_cdr) "egress" 13 k w);
        [by right | exact H]. }
  unfold common_part. cbv zeta.
  assert (N : k <> "cdr_type" /\ k <> "gateway_name" /\ k <> "start_date"
              /\ k <> "start_time" /\ k <> "calling_name").
  { rewrite !elem_of_cons, elem_of_nil in Hk.
    repeat destruct Hk as [->|Hk]; [..|contradiction];
      repeat split; discriminate. }
  destruct N as (N1 & N2 & N3 & N4 & N5).
  skip_keys.
  set (inner := update _ (update _ _)).
  assert (Hinner : forall w, inner !! k = Some w ->
                     exists s, w = VStr s /\ s <> "").
  { intros w. unfold inner, update.
    intros H. apply lookup_union_Some_raw in H as [H|[_ H]]; [eauto|].
    apply lookup_union_Some_raw in H as [H|[_ H]]; [eauto|].
    rewrite lookup_insert_ne in H by congruence.
    rewrite lookup_empty in H. discriminate. }
  assert (Hdef : forall key (d : dict),
            (forall w, d !! k = Some w -> exists s, w = VStr s /\ s <> "") ->
            forall w, setdefault key (VStr "N/A") d !! k = Some w ->
                      exists s, w = VStr s /\ s <> "").
  { intros key d Hd w. unfold setdefault.
    destruct (d !! key) eqn:E; [apply Hd|].
    intros H. apply lookup_insert_Some in H as [[_ <-]|[_ H]];
      [eexists; split; [reflexivity | discriminate] | by apply Hd]. }
  apply Hdef, Hdef, Hinner.
Qed.

Lemma disconnect_reason_text_nonempty dr_code :
  disconnect_reason_text cdr_disconnect_reason dr_code <> "".
Proof.
  unfold disconnect_reason_text. apply append_nonempty_l.
  destruct (truthy dr_code); discriminate.
Qed.

Lemma disconnect_initiator_text_nonempty x :
  disconnect_initiator_text x <> "".
Proof.
  unfold disconnect_initiator_text.
  destruct (String.eqb_spec x "0") as [->|_]; [discriminate|].
  destruct (String.eqb_spec x "1") as [->|_]; [discriminate|].
  destruct (String.eqb_spec x "2") as [->|_]; [discriminate|].
  destruct (truthy x) eqn:E; [|discriminate].
  apply append_nonempty_l. by apply truthy_nonempty.
Qed.

Lemma get_codec_value_nonempty codec : get_codec_value codec <> "".
Proof.
  pose proof (codec_name_cases codec) as H. cbn [In] in H.
  intros E. rewrite E in H. intuition discriminate.
Qed.

(** X16: the keys that name a leg's call id, status and device, the
    disconnect reason and initiator and the two codecs never hold an empty
    string: a blank input is replaced by a default text. *)
Theorem decode_labels_never_blank raw_cdr :
  returns (parse raw_cdr) (fun d =>
    forall k v,
      k ∈ [ "ingress_call_id"; "ingress_status"; "ing_device_name";
            "egress_call_id"; "egress_status"; "egr_device_name";
            "disconnect_reason"; "disconnect_initiator";
            "ingress_codec"; "egress_codec" ] ->
      d !! k = Some v -> exists s, v = VStr s /\ s <> "").
Proof.
  assert (Hleg : returns (parse raw_cdr) (fun d => forall k v,
            k ∈ [ "ingress_call_id"; "ingress_status"; "ing_device_name";
                  "egress_call_id"; "egress_status"; "egr_device_name" ] ->
            d !! k = Some v -> exists s, v = VStr s /\ s <> "")).
  { destruct (parse raw_cdr) as [d|e] eqn:E; cbn [returns];
      [|by apply parse_raises_only_overflow in E as [-> _]].
    intros k v Hk Hv.
    assert (N : k ∉ type_specific_keys).
    { intros Hs. apply specific_not_agnostic in Hs. apply Hs.
      clear -Hk. unfold type_agnostic_keys.
      rewrite !elem_of_cons, elem_of_nil in Hk. rewrite !elem_of_cons.
      tauto. }
    pose proof (parse_agnostic_key sip_cause_code_mapping
                  cdr_disconnect_reason raw_cdr k N) as H.
    rewrite E in H. cbn [returns] in H. rewrite H in Hv.
    by apply (common_leg_value raw_cdr k v). }
  assert (Hsplit : forall (d : dict),
    (forall k v,
       k ∈ [ "ingress_call_id"; "ingress_status"; "ing_device_name";
             "egress_call_id"; "egress_status"; "egr_device_name" ] ->
       d !! k = Some v -> exists s, v = VStr s /\ s <> "") ->
    (forall k, k ∈ [ "disconnect_reason"; "disconnect_initiator";
                     "ingress_codec"; "egress_codec" ] ->
       d !! k = None \/ exists s, d !! k = Some (VStr s) /\ s <> "") ->
    forall k v,
      k ∈ [ "ingress_call_id"; "ingress_status"; "ing_device_name";
            "egress_call_id"; "egress_status"; "egr_device_name";
            "disconnect_reason"; "disconnect_initiator";
            "ingress_codec"; "egress_codec" ] ->
      d !! k = Some v -> exists s, v = VStr s /\ s <> "").
  { intros d H1 H2 k v Hk Hv.
    assert (C : k ∈ [ "ingress_call_id"; "ingress_status"; "ing_device_name";
                      "egress_call_id"; "egress_status"; "egr_device_name" ]
                \/ k ∈ [ "disconnect_reason"; "disconnect_initiator";
                         "ingress_codec"; "egress_codec" ]).
    { clear -Hk. rewrite !elem_of_cons, elem_of_nil in *. tauto. }
    destruct C as [C|C]; [by apply (H1 k)|].
    destruct (H2 k C) as [E|(s & E & Hs)]; [congruence|].
    exists s. split; [congruence | exact Hs]. }
  assert (Hfour : forall (d : dict) a b c e,
    d !! "disconnect_reason" = Some (VStr a) -> a <> "" ->
    d !! "disconnect_initiator" = Some (VStr b) -> b <> "" ->
    d !! "ingress_codec" = Some (VStr c) -> c <> "" ->
    d !! "egress_codec" = Some (VStr e) -> e <> "" ->
    forall k, k ∈ [ "disconnect_reason"; "disconnect_initiator";
                    "ingress_codec"; "egress_codec" ] ->
      d !! k = None \/ exists s, d !! k = Some (VStr s) /\ s <> "").
  { intros d a b c e Ha Na Hb Nb Hc Nc He Ne k Hk.
    rewrite !elem_of_cons, elem_of_nil in Hk.
    destruct Hk as [->|[->|[->|[->|[]]]]]; right; eauto. }
  destruct (recognized (cdr_type raw_cdr)) eqn:R.
  - apply recognized_cases in R as [T|[T|T]].
    + rewrite (parse_attempt _ _ _ T) in *. cbn [returns] in *.
      apply Hsplit; [exact Hleg|].
      destruct (attempt_branch_more raw_cdr (common raw_cdr))
        as (Hi & Hc & He).
      destruct (attempt_branch_lookups cdr_disconnect_reason raw_cdr
                  (common raw_cdr)) as (_ & _ & _ & _ & Hd & _).
      cbv zeta in *.
      eapply Hfour; eauto using disconnect_reason_text_nonempty,
        disconnect_initiator_text_nonempty, get_codec_value_nonempty.
    + rewrite (parse_stop _ _ _ T) in *.
      pose proof (stop_branch_more raw_cdr _ (common_lacks_specific raw_cdr))
        as Hs.
      pose proof (stop_branch_lookups cdr_disconnect_reason raw_cdr
                    (common raw_cdr)) as Hl.
      destruct (stop_branch cdr_disconnect_reason raw_cdr (common raw_cdr));
        cbn [returns] in *; [|exact Hs].
      apply Hsplit; [exact Hleg|].
      destruct Hs as (_ & Hi & Hc & He).
      destruct Hl as (_ & Hd & _).
      eapply Hfour; eauto using disconnect_reason_text_nonempty,
        disconnect_initiator_text_nonempty, get_codec_value_nonempty.
    + rewrite (parse_start _ _ _ T) in *. cbn [returns] in *.
      apply Hsplit; [exact Hleg|].
      destruct (start_branch_more raw_cdr (common raw_cdr))
        as (Hi & Hc & He).
      destruct (start_branch_lookups raw_cdr (common raw_cdr))
        as (_ & _ & _ & _ & Hd & _).
      cbv zeta in *.
      eapply Hfour; eauto; discriminate.
  - rewrite (parse_unrecognized _ _ _ R) in *. cbn [returns] in *.
    apply Hsplit; [exact Hleg|].
    intros k Hk. left. apply common_lacks_specific.
    clear -Hk. unfold type_specific_keys.
    rewrite !elem_of_cons, elem_of_nil in Hk. rewrite !elem_of_cons.
    tauto.
Qed.

End DecodeFacts.

(** ** The condensed view *)

Section ViewFacts.

Variable sip_cause_code_mapping : gmap string string.
Variable cdr_disconnect_reason : gmap string string.

Local Abbreviation common := (common_part sip_cause_code_mapping).
Local Abbreviation parse :=
  (parse_cdr_to_dict sip_cause_code_mapping cdr_disconnect_reason).

Local Abbreviation shown :=
  (fun kv : string * pyval => negb (suppressible kv.1 && eq_na kv.2)).

Lemma visible_items_fold (fields acc : list (string * pyval)) :
  fold_left
    (fun visible_items '(k, v) =>
       if suppressible k && eq_na v then visible_items
       else visible_items ++ [(k, v)])
    fields acc
  = acc ++ List.filter shown fields.
Proof.
  revert acc. induction fields as [|[k v] l IH]; intros acc.
  - cbn. by rewrite app_nil_r.
  - cbn [fold_left List.filter fst snd]. rewrite IH.
    destruct (suppressible k && eq_na v); cbn [negb]; [reflexivity|].
    by rewrite <- app_assoc.
Qed.

Lemma visible_items_filter fields :
  visible_items fields = List.filter shown fields.
Proof. unfold visible_items. by rewrite visible_items_fold. Qed.

Lemma eq_na_spec v : eq_na v = true <-> v = VStr "N/A".
Proof.
  destruct v as [s| |]; cbn; [|split; discriminate..].
  destruct (String.eqb_spec s "N/A") as [->|N]; split; try done.
  intros [= E]. contradiction.
Qed.

(** X17: a section shows its rows in order and hides exactly the rows whose
    value is the string N/A and whose label is the service duration or
    names a device, an audio packet count or a packet loss; a row with any
    other value is always shown. *)
Theorem visible_items_hides_only_na fields :
  visible_items fields
  = List.filter (fun kv => negb (suppressible kv.1 && eq_na kv.2)) fields
  /\ (forall k v, In (k, v) (visible_items fields) <->
        In (k, v) fields /\ ~ (suppressible k = true /\ v = VStr "N/A")).
Proof.
  split; [apply visible_items_filter|].
  intros k v. rewrite visible_items_filter, filter_In. cbn [fst snd].
  rewrite negb_true_iff, andb_false_iff, <- eq_na_spec.
  destruct (suppressible k), (eq_na v); intuition congruence.
Qed.

(** X18: the condensed view shows, in this order, the values of forty
    keys of the decoded mapping, N/A standing for a missing key: every key
    the decoder can write except the start date and the calling name, and
    no key the decoder never writes.  The view changes whenever one of the
    forty changes, and only then. *)
Theorem view_reads_displayed_keys :
  (forall d : dict,
     map snd (concat (parsed_cdr_sections d))
     = map (get_or_na d) displayed_keys)
  /\ (forall k, k ∈ type_agnostic_keys ++ type_specific_keys ->
        k ∈ displayed_keys \/ k = "start_date" \/ k = "calling_name")
  /\ (forall k, k ∈ displayed_keys ->
        k ∈ type_agnostic_keys ++ type_specific_keys
        /\ k <> "start_date" /\ k <> "calling_name")
  /\ (forall (d : dict) k v, k ∉ displayed_keys ->
        parsed_cdr_sections (<[k := v]> d) = parsed_cdr_sections d)
  /\ (forall (d : dict) k v, k ∈ displayed_keys ->
        v <> get_or_na d k ->
        parsed_cdr_sections (<[k := v]> d) <> parsed_cdr_sections d).
Proof.
  assert (Hread : forall d : dict,
            map snd (concat (parsed_cdr_sections d))
            = map (get_or_na d) displayed_keys) by reflexivity.
  split; [exact Hread|]. split; [|split; [|split]].
  - intros k Hk.
    assert (F : forallb (fun k => existsb (String.eqb k) displayed_keys
                                  || String.eqb k "start_date"
                                  || String.eqb k "calling_name")
                  (type_agnostic_keys ++ type_specific_keys) = true)
      by reflexivity.
    rewrite forallb_forall in F. apply list_elem_of_In in Hk.
    specialize (F k Hk).
    apply orb_true_iff in F as [F|F]; [apply orb_true_iff in F as [F|F]|].
    + left. apply existsb_exists in F as (x & Hx & E).
      apply String.eqb_eq in E. subst x. by apply list_elem_of_In.
    + right; left. by apply String.eqb_eq.
    + right; right. by apply String.eqb_eq.
  - intros k Hk.
    assert (F : forallb (fun k => existsb (String.eqb k)
                                    (type_agnostic_keys ++ type_specific_keys)
                                  && negb (String.eqb k "start_date")
                                  && negb (String.eqb k "calling_name"))
                  displayed_keys = true)
      by reflexivity.
    rewrite forallb_forall in F. apply list_elem_of_In in Hk.
    specialize (F k Hk).
    apply andb_true_iff in F as [F F3]. apply andb_true_iff in F as [F1 F2].
    apply existsb_exists in F1 as (x & Hx & E).
    apply String.eqb_eq in E. subst x.
    split; [by apply list_elem_of_In|].
    apply negb_true_iff in F2, F3.
    split; intros ->; discriminate.
  - intros d k v Hk. unfold displayed_keys in Hk.
    repeat (apply not_elem_of_cons in Hk as [? Hk]).
    unfold parsed_cdr_sections, get_or_na. cbv zeta.
    rewrite !lookup_insert_ne by congruence. reflexivity.
  - intros d k v Hk Hv E.
    assert (Hm : map (get_or_na (<[k := v]> d)) displayed_keys
                 = map (get_or_na d) displayed_keys)
      by (rewrite <- !Hread, E; reflexivity).
    apply list_elem_of_In in Hk.
    pose proof (proj1 map_ext_in_iff Hm k Hk) as Hg.
    unfold get_or_na in Hg at 1. rewrite lookup_insert_eq in Hg.
    cbn [default] in Hg. contradiction.
Qed.

Lemma get_or_na_Some (d : dict) k v :
  d !! k = Some v -> get_or_na d k = v.
Proof. unfold get_or_na. by intros ->. Qed.

Lemma get_or_na_None (d : dict) k :
  d !! k = None -> get_or_na d k = VStr "N/A".
Proof. unfold get_or_na. by intros ->. Qed.


Lemma visible_items_In fields k v :
  In (k, v) (visible_items fields) <->
  In (k, v) fields /\ (suppressible k && eq_na v = false).
Proof.
  rewrite visible_items_filter, filter_In. cbn [fst snd].
  by rewrite negb_true_iff.
Qed.

(** The rows of the view whose label is a measurement label, when the seven
    measurement keys hold N/A. *)
Lemma measurements_hidden (d : dict) :
  Forall (fun k => d !! k = Some (VStr "N/A"))
    [ "duration"; "ingress_audio_packets_sent";
      "ingress_audio_packets_rcvd"; "ingress_packets_lost";
      "egress_audio_packets_sent"; "egress_audio_packets_rcvd";
      "egress_packets_lost" ] ->
  forall section k v,
    In section (parsed_cdr_sections d) ->
    In (k, v) (visible_items section) ->
    ~ In k measurement_labels.
Proof.
  intros H section k v Hs Hv Hm.
  apply visible_items_In in Hv as [Hin Hshown].
  assert (Hall : In (k, v) (concat (parsed_cdr_sections d)))
    by (apply in_concat; eauto).
  clear Hs Hin.
  rewrite !List.Forall_cons_iff in H.
  destruct H as (E1 & E2 & E3 & E4 & E5 & E6 & E7 & _).
  apply get_or_na_Some in E1, E2, E3, E4, E5, E6, E7.
  unfold parsed_cdr_sections in Hall. cbv zeta in Hall.
  cbn [concat app In] in Hall.
  unfold measurement_labels in Hm. cbn [In] in Hm.
  repeat destruct Hall as [[= <- <-]|Hall]; [..|destruct Hall].
  all: try (intuition discriminate).
  all: revert Hshown; rewrite ?E1, ?E2, ?E3, ?E4, ?E5, ?E6, ?E7;
    vm_compute; discriminate.
Qed.

(** X19: for a START or an ATTEMPT record the condensed view shows neither
    the service duration nor any packet row. *)
Theorem view_hides_measurements_unless_stop raw_cdr :
  cdr_type raw_cdr = "START" \/ cdr_type raw_cdr = "ATTEMPT" ->
  exists d, parse raw_cdr = Ok d
    /\ forall section k v,
         In section (parsed_cdr_sections d) ->
         In (k, v) (visible_items section) ->
         ~ In k measurement_labels.
Proof.
  intros [T|T].
  - rewrite (parse_start _ _ _ T). eexists. split; [reflexivity|].
    apply measurements_hidden.
    pose proof (start_measurements raw_cdr (common raw_cdr)) as H.
    repeat (apply List.Forall_cons_iff in H as [? H]).
    repeat (apply List.Forall_cons; [assumption|]). apply List.Forall_nil.
  - rewrite (parse_attempt _ _ _ T). eexists. split; [reflexivity|].
    apply measurements_hidden. apply attempt_measurements.
Qed.

(** X20: for a STOP record that decodes, the view shows the service duration
    exactly when the raw duration is an integer. *)
Theorem view_shows_duration_iff_integer raw_cdr :
  cdr_type raw_cdr = "STOP" ->
  returns (parse raw_cdr) (fun d =>
    In "Call Service Duration"
       (map fst (visible_items (nth 0 (parsed_cdr_sections d) [])))
    <-> int_of_str (safe_get (fields raw_cdr) 13 "") <> None).
Proof.
  intros T. rewrite (parse_stop _ _ _ T).
  pose proof (stop_branch_lookups cdr_disconnect_reason raw_cdr
                (common raw_cdr)) as Hs.
  destruct (stop_branch cdr_disconnect_reason raw_cdr (common raw_cdr))
    as [d|e]; cbn [returns] in *; [|exact Hs].
  destruct Hs as ((v & Hv & Hd) & _).
  apply get_or_na_Some in Hd.
  apply duration_value_kind in Hv.
  unfold parsed_cdr_sections. cbv zeta. cbn [nth].
  rewrite Hd. rewrite in_map_iff. split.
  - intros ([k w] & Hk & Hin). cbn [fst] in Hk. subst k.
    apply visible_items_In in Hin as [Hin Hshown].
    cbn [In] in Hin.
    repeat destruct Hin as [[= <-]|Hin]; [..|destruct Hin];
      try discriminate.
    destruct Hv as [[-> _]|(x & n & -> & ->)]; [|discriminate].
    revert Hshown. vm_compute. discriminate.
  - intros Hn. exists ("Call Service Duration", v). split; [reflexivity|].
    apply visible_items_In. split; [cbn [In]; tauto|].
    destruct Hv as [[-> E]|(x & n & -> & _)]; [contradiction|].
    cbn [eq_na]. apply andb_false_r.
Qed.

(** X21: for a record of an unrecognized type the view shows the type, the
    gateway name and the start time as read from the line, and N/A in every
    other row of the first two sections, the duration row being hidden. *)
Theorem view_of_unrecognized_record raw_cdr :
  recognized (cdr_type raw_cdr) = false ->
  exists d, parse raw_cdr = Ok d
    /\ map visible_items (firstn 2 (parsed_cdr_sections d))
       = [ [ ("CDR Type", VStr (cdr_type raw_cdr));
             ("Gateway Name", VStr (safe_get (fields raw_cdr) 1 ""));
             ("Disconnect Date", VStr "N/A");
             ("Start Time", VStr (safe_get (fields raw_cdr) 6 ""));
             ("Disconnect Time", VStr "N/A");
             ("Calling Number", VStr "N/A");
             ("Called Number", VStr "N/A");
             ("Billing Number", VStr "N/A") ];
           [ ("Route Label", VStr "N/A");
             ("Route Attempt Number", VStr "N/A");
             ("Route Selected", VStr "N/A");
             ("Service Provider", VStr "N/A");
             ("GSX Call ID (GCID)", VStr "N/A") ] ].
Proof.
  intros R. rewrite (parse_unrecognized _ _ _ R).
  eexists. split; [reflexivity|].
  unfold parsed_cdr_sections. cbv zeta. cbn [firstn map].
  rewrite (get_or_na_Some _ _ _ (common_part_cdr_type _ raw_cdr)).
  rewrite (get_or_na_Some _ _ _ (common_part_gateway_name _ raw_cdr)).
  rewrite (get_or_na_Some _ _ _ (common_part_start_time _ raw_cdr)).
  rewrite !get_or_na_None
    by (apply common_lacks_specific; compute_done).
  generalize (cdr_type raw_cdr) (safe_get (fields raw_cdr) 1 "")
    (safe_get (fields raw_cdr) 6 "").
  intros a b c. reflexivity.
Qed.

End ViewFacts.

(** ** The full view *)

Section FullViewFacts.

Lemma land_4_testbit state :
  (Z.land state 4 =? 0) = negb (Z.testbit state 2).
Proof.
  destruct (Z.testbit state 2) eqn:E; cbn [negb].
  - assert (H : Z.land state 4 = 4).
    { apply Z.bits_inj'. intros n Hn. rewrite Z.land_spec.
      change 4 with (2 ^ 2). rewrite Z.pow2_bits_eqb by lia.
      destruct (Z.eqb_spec 2 n) as [<-|N];
        [rewrite E; reflexivity | apply andb_false_r]. }
    rewrite H. reflexivity.
  - assert (H : Z.land state 4 = 0).
    { apply Z.bits_inj'. intros n Hn. rewrite Z.land_spec, Z.bits_0.
      change 4 with (2 ^ 2). rewrite Z.pow2_bits_eqb by lia.
      destruct (Z.eqb_spec 2 n) as [<-|N];
        [rewrite E; reflexivity | apply andb_false_r]. }
    rewrite H. reflexivity.
Qed.

Lemma lower_char_c ch :
  lower_char ch = "c"%char <-> ch = "c"%char \/ ch = "C"%char.
Proof.
  destruct ch as [[] [] [] [] [] [] [] []]; vm_compute;
    split; intros H; try discriminate; auto;
    destruct H as [H|H]; discriminate.
Qed.

Lemma lower_char_a ch :
  lower_char ch = "a"%char <-> ch = "a"%char \/ ch = "A"%char.
Proof.
  destruct ch as [[] [] [] [] [] [] [] []]; vm_compute;
    split; intros H; try discriminate; auto;
    destruct H as [H|H]; discriminate.
Qed.

Lemma lower_is_letter keysym (x X : ascii) :
  (forall ch, lower_char ch = x <-> ch = x \/ ch = X) ->
  lower keysym = String x "" <->
  keysym = String x "" \/ keysym = String X "".
Proof.
  intros Hx. destruct keysym as [|ch [|ch' t]]; cbn [lower].
  - split; [discriminate | intros [H|H]; discriminate].
  - split.
    + intros [= H]. apply Hx in H as [-> | ->]; auto.
    + intros [[= ->]|[= ->]]; f_equal; apply Hx; auto.
  - split; [discriminate | intros [H|H]; discriminate].
Qed.

(** X22: a key is let through exactly when the Control bit (bit 2) of
    the event state is set and the key is c or a in either case; every
    other key is stopped. *)
Theorem block_edit_allows_only_ctrl_c_a state keysym :
  (block_edit state keysym = None
   <-> Z.testbit state 2 = true /\ In keysym ["c"; "C"; "a"; "A"])
  /\ (block_edit state keysym <> None ->
      block_edit state keysym = Some "break").
Proof.
  unfold block_edit. rewrite land_4_testbit, negb_involutive.
  cbn [existsb In]. rewrite orb_false_r.
  pose proof (lower_is_letter keysym _ _ lower_char_c) as Hc.
  pose proof (lower_is_letter keysym _ _ lower_char_a) as Ha.
  destruct (Z.testbit state 2); cbn [andb].
  - destruct (String.eqb_spec (lower keysym) "c") as [E1|N1];
      [|destruct (String.eqb_spec (lower keysym) "a") as [E2|N2]];
      cbn [orb].
    + split; [|congruence]. split; [|reflexivity]. intros _.
      split; [reflexivity|]. apply Hc in E1.
      destruct E1 as [-> | ->]; auto 6.
    + split; [|congruence]. split; [|reflexivity]. intros _.
      split; [reflexivity|]. apply Ha in E2.
      destruct E2 as [-> | ->]; auto 6.
    + split; [|reflexivity]. split; [discriminate|].
      intros [_ H]. exfalso.
      destruct H as [<-|[<-|[<-|[<-|[]]]]];
        first [by apply N1 | by apply N2].
  - split; [|reflexivity]. split; [discriminate | intros [H _]; discriminate].
Qed.

Lemma goto_match_index idx st :
  search_matches st <> [] ->
  search_matches (goto_match idx st) = search_matches st
  /\ search_index (goto_match idx st)
     = idx mod Z.of_nat (length (search_matches st)).
Proof.
  intros H. unfold goto_match.
  destruct (search_matches st) eqn:E; [contradiction|]. cbn. auto.
Qed.

(** X23: with at least one match, Next and Prev always leave an index inside
    the list, so a span is selected; they leave the list alone, undo each
    other from an index inside the list, and wrap around at both ends. *)
Theorem match_navigation_wraps (st : search_state) :
  search_matches st <> [] ->
  let n := Z.of_nat (length (search_matches st)) in
  (search_matches (next_match st) = search_matches st
   /\ search_matches (prev_match st) = search_matches st)
  /\ (0 <= search_index (next_match st) < n
      /\ 0 <= search_index (prev_match st) < n)
  /\ (is_Some (selected (next_match st))
      /\ is_Some (selected (prev_match st)))
  /\ (0 <= search_index st < n ->
      prev_match (next_match st) = st /\ next_match (prev_match st) = st)
  /\ (search_index st = n - 1 -> search_index (next_match st) = 0)
  /\ (search_index st = 0 -> search_index (prev_match st) = n - 1).
Proof.
  intros Hne n.
  assert (Hn : 0 < n).
  { unfold n. destruct (search_matches st); [contradiction | cbn; lia]. }
  assert (Hnext : next_match st = goto_match (search_index st + 1) st).
  { unfold next_match. destruct (search_matches st); [contradiction|].
    reflexivity. }
  assert (Hprev : prev_match st = goto_match (search_index st - 1) st).
  { unfold prev_match. destruct (search_matches st); [contradiction|].
    reflexivity. }
  destruct (goto_match_index (search_index st + 1) st Hne) as [M1 I1].
  destruct (goto_match_index (search_index st - 1) st Hne) as [M2 I2].
  rewrite <- Hnext in M1, I1. rewrite <- Hprev in M2, I2.
  fold n in I1, I2.
  assert (B1 : 0 <= search_index (next_match st) < n)
    by (rewrite I1; apply Z.mod_pos_bound; lia).
  assert (B2 : 0 <= search_index (prev_match st) < n)
    by (rewrite I2; apply Z.mod_pos_bound; lia).
  assert (Hsel : forall st', search_matches st' = search_matches st ->
                   0 <= search_index st' < n -> is_Some (selected st')).
  { intros st' M B. unfold selected.
    destruct (Z.ltb_spec (search_index st') 0); [lia|].
    destruct (nth_error _ _) eqn:En; [eauto|].
    apply nth_error_None in En. rewrite M in En. unfold n in B. lia. }
  split; [split; assumption|].
  split; [split; assumption|].
  split; [split; by apply Hsel|].
  split; [|split].
  - intros B. split.
    + assert (Hne' : search_matches (next_match st) <> []) by congruence.
      unfold prev_match.
      destruct (search_matches (next_match st)) eqn:E; [contradiction|].
      rewrite <- E in *.
      destruct (goto_match_index (search_index (next_match st) - 1)
                  (next_match st) Hne') as [M I].
      remember (goto_match (search_index (next_match st) - 1)
                  (next_match st)) as st2.
      rewrite M1 in I, M. fold n in I. rewrite I1 in I.
      rewrite Zminus_mod_idemp_l in I.
      replace (search_index st + 1 - 1) with (search_index st) in I by lia.
      rewrite Z.mod_small in I by lia.
      clear Heqst2. destruct st as [ms i], st2 as [ms' i']. cbn in *.
      congruence.
    + assert (Hne' : search_matches (prev_match st) <> []) by congruence.
      unfold next_match.
      destruct (search_matches (prev_match st)) eqn:E; [contradiction|].
      rewrite <- E in *.
      destruct (goto_match_index (search_index (prev_match st) + 1)
                  (prev_match st) Hne') as [M I].
      remember (goto_match (search_index (prev_match st) + 1)
                  (prev_match st)) as st2.
      rewrite M2 in I, M. fold n in I. rewrite I2 in I.
      rewrite Zplus_mod_idemp_l in I.
      replace (search_index st - 1 + 1) with (search_index st) in I by lia.
      rewrite Z.mod_small in I by lia.
      clear Heqst2. destruct st as [ms i], st2 as [ms' i']. cbn in *.
      congruence.
  - intros E. rewrite I1, E. replace (n - 1 + 1) with n by lia.
    apply Z.mod_same. lia.
  - intros E. rewrite I2, E. cbn.
    symmetry. apply (Zmod_unique (-1) n (-1)); lia.
Qed.


Lemma matches_at_length ignore_case q text :
  matches_at ignore_case q text = true ->
  (String.length q <= String.length text)%nat.
Proof.
  revert text. induction q as [|p q IH]; intros text; [cbn; lia|].
  destruct text as [|c t]; [discriminate|]. cbn [matches_at String.length].
  intros H. apply andb_true_iff in H as [_ H]. apply IH in H. lia.
Qed.

Lemma slice_from_empty n : slice_from n "" = "".
Proof. destruct n; reflexivity. Qed.

(** What the scan yields from offset [pos] with [skip] characters still to
    pass. *)
Lemma finditer_from_spec ignore_case q text pos skip :
  q <> "" ->
  let spans := finditer_from ignore_case q text pos skip in
  Forall (fun m : nat * nat =>
            (pos + skip <= fst m)%nat
            /\ snd m = (fst m + String.length q)%nat
            /\ (snd m <= pos + String.length text)%nat
            /\ matches_at ignore_case q (slice_from (fst m - pos) text)
               = true) spans
  /\ StronglySorted (fun a b : nat * nat => (snd a <= fst b)%nat) spans
  /\ (forall p, (skip <= p)%nat ->
        matches_at ignore_case q (slice_from p text) = true ->
        exists m, In m spans /\ (fst m <= pos + p < snd m)%nat)
  /\ (length spans * String.length q <= String.length text - skip)%nat.
Proof.
  intros Hq. cbv zeta.
  assert (Hlen : (1 <= String.length q)%nat).
  { destruct q; [contradiction | cbn; lia]. }
  revert pos skip. induction text as [|c t IH]; intros pos skip.
  - cbn [finditer_from]. split; [constructor|]. split; [constructor|].
    split; [|cbn; lia].
    intros p _ H. rewrite slice_from_empty in H.
    destruct q; [contradiction | discriminate].
  - assert (Hshift : forall k,
      Forall (fun m : nat * nat =>
                (S pos + k <= fst m)%nat
                /\ snd m = (fst m + String.length q)%nat
                /\ (snd m <= S pos + String.length t)%nat
                /\ matches_at ignore_case q (slice_from (fst m - S pos) t)
                   = true)
        (finditer_from ignore_case q t (S pos) k) ->
      Forall (fun m : nat * nat =>
                (pos + S k <= fst m)%nat
                /\ snd m = (fst m + String.length q)%nat
                /\ (snd m <= pos + String.length (String c t))%nat
                /\ matches_at ignore_case q
                     (slice_from (fst m - pos) (String c t)) = true)
        (finditer_from ignore_case q t (S pos) k)).
    { intros k H. eapply List.Forall_impl; [|exact H].
      intros [a b] (H1 & H2 & H3 & H4). cbn [fst snd String.length] in *.
      repeat split; try lia.
      replace (a - pos)%nat with (S (a - S pos)) by lia. exact H4. }
    destruct skip as [|k]; cbn [finditer_from].
    + destruct (matches_at ignore_case q (String c t)) eqn:Em.
      * destruct (IH (S pos) (String.length q - 1)%nat)
          as (F & S0 & C & L).
        apply Hshift in F.
        pose proof (matches_at_length _ _ _ Em) as Hl.
        cbn [String.length] in Hl.
        split; [|split; [|split]].
        -- constructor.
           ++ cbn [fst snd String.length]. repeat split; try lia.
              replace (pos - pos)%nat with O by lia. exact Em.
           ++ eapply List.Forall_impl; [|exact F].
              intros [a b] (H1 & H2 & H3 & H4). cbn [fst snd] in *.
              repeat split; try lia. exact H4.
        -- constructor; [exact S0|].
           eapply List.Forall_impl; [|exact F].
           intros [a b] (H1 & _). cbn [fst snd] in *. lia.
        -- intros p _ Hp.
           destruct (Nat.ltb_spec p (String.length q)) as [Hlt|Hge].
           ++ exists (pos, (pos + String.length q)%nat).
              split; [left; reflexivity | cbn [fst snd]; lia].
           ++ destruct p as [|p']; [lia|]. cbn [slice_from] in Hp.
              destruct (C p') as (m & Hin & Hm); [lia | exact Hp |].
              exists m. split; [right; exact Hin | lia].
        -- cbn [length String.length]. lia.
      * destruct (IH (S pos) O) as (F & S0 & C & L).
        apply Hshift in F.
        split; [|split; [|split]].
        -- eapply List.Forall_impl; [|exact F].
           intros [a b] (H1 & H2 & H3 & H4). cbn [fst snd] in *.
           repeat split; try lia. exact H4.
        -- exact S0.
        -- intros p _ Hp. destruct p as [|p'].
           ++ cbn [slice_from] in Hp. congruence.
           ++ cbn [slice_from] in Hp.
              destruct (C p') as (m & Hin & Hm); [lia | exact Hp |].
              exists m. split; [exact Hin | lia].
        -- cbn [String.length]. lia.
    + destruct (IH (S pos) k) as (F & S0 & C & L).
      apply Hshift in F.
      split; [exact F|]. split; [exact S0|].
      split; [|cbn [String.length]; lia].
      intros p Hp Hm. destruct p as [|p']; [lia|]. cbn [slice_from] in Hm.
      destruct (C p') as (m & Hin & Hb); [lia | exact Hm |].
      exists m. split; [exact Hin | lia].
Qed.

(** X24: the search reports spans that each hold the query, lie inside
    the text, follow one another from left to right without overlap, and
    leave out no occurrence that does not overlap a reported span; so it
    reports at most as many as fit in the text. *)
Theorem finditer_spans ignore_case q text :
  q <> "" ->
  let spans := finditer ignore_case q text in
  Forall (fun m : nat * nat =>
            snd m = (fst m + String.length q)%nat
            /\ (snd m <= String.length text)%nat
            /\ matches_at ignore_case q (slice_from (fst m) text) = true)
    spans
  /\ StronglySorted (fun a b : nat * nat => (snd a <= fst b)%nat) spans
  /\ (forall p, matches_at ignore_case q (slice_from p text) = true ->
        exists m, In m spans /\ (fst m <= p < snd m)%nat)
  /\ (length spans * String.length q <= String.length text)%nat.
Proof.
  intros Hq. cbv zeta. unfold finditer.
  destruct (finditer_from_spec ignore_case q text 0 0 Hq)
    as (F & S0 & C & L).
  split; [|split; [|split]].
  - eapply List.Forall_impl; [|exact F].
    intros [a b] (H1 & H2 & H3 & H4). cbn [fst snd] in *.
    rewrite Nat.sub_0_r in H4. repeat split; [exact H2 | lia | exact H4].
  - exact S0.
  - intros p Hp. destruct (C p) as (m & Hin & Hm); [lia | exact Hp |].
    exists m. split; [exact Hin | lia].
  - lia.
Qed.

(** The first span of the scan starts at the leftmost occurrence. *)
Lemma finditer_leftmost ignore_case q text p :
  q <> "" ->
  matches_at ignore_case q (slice_from p text) = true ->
  (forall p', (p' < p)%nat ->
     matches_at ignore_case q (slice_from p' text) = false) ->
  exists rest,
    finditer ignore_case q text = (p, (p + String.length q)%nat) :: rest.
Proof.
  intros Hq Hp Hleft. unfold finditer.
  destruct (finditer_from_spec ignore_case q text 0 0 Hq)
    as (F & S0 & C & _).
  destruct (C p) as (m & Hin & Hm); [lia | exact Hp |].
  destruct (finditer_from ignore_case q text 0 0) as [|[a b] rest];
    [destruct Hin|].
  apply List.Forall_cons_iff in F as [(_ & Hb & _ & Ha) _].
  cbn [fst snd] in Ha, Hb. rewrite Nat.sub_0_r in Ha.
  assert (Hge : (p <= a)%nat).
  { destruct (Nat.le_gt_cases p a) as [|Hlt]; [assumption|].
    rewrite (Hleft a Hlt) in Ha. discriminate. }
  assert (Hle : (a <= p)%nat).
  { destruct Hin as [<-|Hin]; [cbn [fst] in Hm; lia|].
    apply StronglySorted_inv in S0 as [_ S0].
    rewrite List.Forall_forall in S0. specialize (S0 m Hin).
    cbn [fst snd] in S0. lia. }
  assert (a = p) by lia. subst a b. eauto.
Qed.

Lemma finditer_none ignore_case q text :
  q <> "" ->
  (forall p, matches_at ignore_case q (slice_from p text) = false) ->
  finditer ignore_case q text = [].
Proof.
  intros Hq Hno. unfold finditer.
  destruct (finditer_from_spec ignore_case q text 0 0 Hq) as (F & _).
  destruct (finditer_from ignore_case q text 0 0) as [|[a b] rest];
    [reflexivity|].
  apply List.Forall_cons_iff in F as [(_ & _ & _ & Ha) _].
  rewrite Hno in Ha. discriminate.
Qed.

(** X25: a search looks for the stripped query, so white space around it
    does not matter.  When the stripped query is not empty and occurs
    nowhere in the text, the search leaves no match, the index -1 and the
    status line 0 match(es); when it occurs, the search selects the span of
    its leftmost occurrence, as match 0. *)
Theorem run_search_selects_leftmost entry ignore_case text :
  strip entry <> "" ->
  let q := strip entry in
  let out := run_search entry ignore_case text true in
  run_search (strip entry) ignore_case text true = out
  /\ ((forall p, matches_at ignore_case q (slice_from p text) = false) ->
      out = ({| search_matches := []; search_index := -1 |},
             "0 match(es)"))
  /\ (forall p,
        matches_at ignore_case q (slice_from p text) = true ->
        (forall p', (p' < p)%nat ->
           matches_at ignore_case q (slice_from p' text) = false) ->
        search_index (fst out) = 0
        /\ selected (fst out)
           = Some (tk_index p, tk_index (p + String.length q))).
Proof.
  intros Hq. cbv zeta. unfold run_search. rewrite strip_idempotent.
  destruct (truthy (strip entry)) eqn:Et;
    [|destruct (strip entry); [contradiction | discriminate]].
  cbn [negb]. split; [reflexivity|]. split.
  - intros Hno. rewrite (finditer_none _ _ _ Hq Hno). reflexivity.
  - intros p Hp Hleft.
    destruct (finditer_leftmost _ _ _ p Hq Hp Hleft) as [rest ->].
    cbn [map fst snd]. split; reflexivity.
Qed.

End FullViewFacts.

(** ** The gate on the legs *)

Section GateFacts.

Variable sip_cause_code_mapping : gmap string string.
Variable cdr_disconnect_reason : gmap string string.

Local Abbreviation common := (common_part sip_cause_code_mapping).
Local Abbreviation parse :=
  (parse_cdr_to_dict sip_cause_code_mapping cdr_disconnect_reason).

Lemma common_ingress_key raw_cdr k :
  k = "ingress_call_id" \/ k = "ingress_status" ->
  common raw_cdr !! k
  = parse_prot_data_side sip_cause_code_mapping (ingr_prot_data raw_cdr)
      "ingress" 12 !! k.
Proof.
  intros Hk. unfold common_part. cbv zeta.
  assert (N : k <> "cdr_type" /\ k <> "gateway_name" /\ k <> "start_date"
              /\ k <> "start_time" /\ k <> "ing_device_name"
              /\ k <> "egr_device_name" /\ k <> "calling_name"
              /\ k <> "egress_call_id" /\ k <> "egress_status").
  { destruct Hk as [-> | ->]; repeat split; discriminate. }
  destruct N as (N1 & N2 & N3 & N4 & N5 & N6 & N7 & N8 & N9).
  unfold setitem. rewrite !lookup_insert_ne by congruence.
  rewrite !lookup_setdefault_ne by congruence.
  rewrite lookup_update_None by (apply egress_side_other; congruence).
  assert (S : is_Some (parse_prot_data_side sip_cause_code_mapping
                         (ingr_prot_data raw_cdr) "ingress" 12 !! k)).
  { destruct Hk as [-> | ->];
      [apply ingress_side_call_id | apply ingress_side_status]. }
  destruct S as [v S]. rewrite S. by apply lookup_update_Some.
Qed.

Lemma common_egress_key raw_cdr k :
  k = "egress_call_id" \/ k = "egress_status" ->
  common raw_cdr !! k
  = parse_prot_data_side sip_cause_code_mapping (egr_prot_data raw_cdr)
      "egress" 13 !! k.
Proof.
  intros Hk. unfold common_part. cbv zeta.
  assert (N : k <> "cdr_type" /\ k <> "gateway_name" /\ k <> "start_date"
              /\ k <> "start_time" /\ k <> "ing_device_name"
              /\ k <> "egr_device_name").
  { destruct Hk as [-> | ->]; repeat split; discriminate. }
  destruct N as (N1 & N2 & N3 & N4 & N5 & N6).
  unfold setitem. rewrite !lookup_insert_ne by congruence.
  rewrite !lookup_setdefault_ne by congruence.
  assert (S : is_Some (parse_prot_data_side sip_cause_code_mapping
                         (egr_prot_data raw_cdr) "egress" 13 !! k)).
  { destruct Hk as [-> | ->];
      [apply egress_side_call_id | apply egress_side_status]. }
  destruct S as [v S]. rewrite S. by apply lookup_update_Some.
Qed.

Lemma empty_leg_key side_prefix contact_idx k :
  k = side_prefix +:+ "_call_id" \/ k = side_prefix +:+ "_status" ->
  side_prefix = "ingress" \/ side_prefix = "egress" ->
  parse_prot_data_side sip_cause_code_mapping [] side_prefix contact_idx !! k
  = Some (VStr "N/A").
Proof.
  intros Hk Hp. rewrite parse_side_unfold. cbv zeta. cbn [length Nat.ltb Nat.leb].
  destruct Hp as [-> | ->]; destruct Hk as [-> | ->];
    rewrite ?lookup_insert_ne by discriminate; apply lookup_insert_eq.
Qed.

(** The three keys of a leg, all N/A. *)
Lemma common_blank_legs raw_cdr :
  (ingr_prot_data raw_cdr = [] ->
   Forall (fun k => common raw_cdr !! k = Some (VStr "N/A"))
     ["ingress_call_id"; "ingress_status"; "ing_device_name"])
  /\ (egr_prot_data raw_cdr = [] ->
      Forall (fun k => common raw_cdr !! k = Some (VStr "N/A"))
        ["egress_call_id"; "egress_status"; "egr_device_name"]).
Proof.
  split; intros E.
  - repeat apply List.Forall_cons; [| | |apply List.Forall_nil].
    + rewrite common_ingress_key by tauto. rewrite E.
      apply empty_leg_key; tauto.
    + rewrite common_ingress_key by tauto. rewrite E.
      apply empty_leg_key; tauto.
    + rewrite common_part_ing_device_name, E. reflexivity.
  - repeat apply List.Forall_cons; [| | |apply List.Forall_nil].
    + rewrite common_egress_key by tauto. rewrite E.
      apply empty_leg_key; tauto.
    + rewrite common_egress_key by tauto. rewrite E.
      apply empty_leg_key; tauto.
    + rewrite common_part_egr_device_name, E. reflexivity.
Qed.

(** X26: a leg is decoded only behind its gate.  When the checker field of
    the record holds neither SIP nor GSX2GSX the three ingress keys are
    N/A, and when no token of the egress trace holds SIP the three egress
    keys are N/A, whatever the traces contain. *)
Theorem legs_need_sip raw_cdr :
  returns (parse raw_cdr) (fun d =>
    (ingress_present raw_cdr = false ->
     Forall (fun k => d !! k = Some (VStr "N/A"))
       ["ingress_call_id"; "ingress_status"; "ing_device_name"])
    /\ (Forall (fun item => contains "SIP" item = false)
          (egress_trace raw_cdr) ->
        Forall (fun k => d !! k = Some (VStr "N/A"))
          ["egress_call_id"; "egress_status"; "egr_device_name"])).
Proof.
  destruct (common_blank_legs raw_cdr) as [Hi He].
  assert (Hd : returns (parse raw_cdr) (fun d =>
            forall k, k ∈ [ "ingress_call_id"; "ingress_status";
                            "ing_device_name"; "egress_call_id";
                            "egress_status"; "egr_device_name" ] ->
              d !! k = common raw_cdr !! k)).
  { destruct (parse raw_cdr) as [d|e] eqn:E; cbn [returns];
      [|by apply parse_raises_only_overflow in E as [-> _]].
    intros k Hk.
    assert (N : k ∉ type_specific_keys).
    { rewrite !elem_of_cons, elem_of_nil in Hk.
      unfold type_specific_keys.
      repeat destruct Hk as [->|Hk]; [..|contradiction]; compute_done. }
    pose proof (parse_agnostic_key sip_cause_code_mapping
                  cdr_disconnect_reason raw_cdr k N) as H.
    rewrite E in H. exact H. }
  destruct (parse raw_cdr) as [d|e]; cbn [returns] in *; [|exact Hd].
  split.
  - intros Hp.
    assert (E : ingr_prot_data raw_cdr = []).
    { unfold ingr_prot_data. rewrite Hp. reflexivity. }
    specialize (Hi E).
    rewrite !List.Forall_cons_iff in Hi. destruct Hi as (H1 & H2 & H3 & _).
    repeat apply List.Forall_cons; [| | |apply List.Forall_nil];
      rewrite Hd by compute_done; assumption.
  - intros Hs.
    assert (E : egr_prot_data raw_cdr = []).
    { unfold egr_prot_data, discard_without_sip.
      fold (egress_trace raw_cdr).
      replace (if ingress_present raw_cdr
               then split_or_empty
                      (strip (safe_get (cdr_fields_parsed raw_cdr) 3 ""))
               else split_or_empty
                      (strip (safe_get (cdr_fields_parsed raw_cdr) 1 "")))
        with (egress_trace raw_cdr)
        by (unfold egress_trace; destruct (ingress_present raw_cdr);
            reflexivity).
      assert (X : existsb (fun item => contains "SIP" item)
                    (egress_trace raw_cdr) = false).
      { induction Hs as [|x l Hx Hl IH]; [reflexivity|].
        cbn [existsb]. rewrite Hx, IH. reflexivity. }
      rewrite X. reflexivity. }
    specialize (He E).
    rewrite !List.Forall_cons_iff in He. destruct He as (H1 & H2 & H3 & _).
    repeat apply List.Forall_cons; [| | |apply List.Forall_nil];
      rewrite Hd by compute_done; assumption.
Qed.

End GateFacts.

Lemma get_codec_value_known_witness : get_codec_value "P:1:1" <> "N/A".
Proof.
  apply (proj2 (proj1 (get_codec_value_known "P:1:1"))). cbn. tauto.
Defined.

(** The leg of an empty trace. *)
Lemma leg_values_nonempty_witness :
  exists s, VStr "N/A" = VStr s /\ s <> "".
Proof.
  apply (leg_values_nonempty no_table [] "ingress_call_id" (VStr "N/A")).
  left. vm_compute. reflexivity.
Defined.

(** A trace of 19 tokens that ends in BYE. *)
Lemma leg_status_bye_and_blank_witness :
  parse_prot_data_side no_table (repeat "" 18 ++ ["BYE"]) "ingress" 12
    !! "ingress_status" = Some (VStr "BYE (BYE)").
Proof.
  assert (H : (19 <= length (repeat "" 18 ++ ["BYE"]))%nat) by (cbn; lia).
  exact (proj1 (proj1 (leg_status_bye_and_blank no_table
                         (repeat "" 18 ++ ["BYE"]) H) eq_refl)).
Defined.

Lemma non_stop_records_lack_measurements_witness :
  (exists d,
     parse_cdr_to_dict no_table no_table attempt_line_numbered = Ok d
     /\ d !! "duration" = Some (VStr "N/A"))
  /\ (exists d,
        parse_cdr_to_dict no_table no_table start_line_numbered = Ok d
        /\ d !! "duration" = Some (VStr "N/A")
        /\ d !! "stop_date" = None).
Proof.
  split.
  - destruct (proj1 (non_stop_records_lack_measurements no_table no_table
                       attempt_line_numbered) eq_refl) as (d & E & H).
    exists d. split; [exact E|]. exact (List.Forall_inv H).
  - destruct (proj2 (non_stop_records_lack_measurements no_table no_table
                       start_line_numbered) eq_refl) as (d & E & H & N).
    exists d. split; [exact E|]. split; [exact (List.Forall_inv H) | exact N].
Defined.

Lemma stop_duration_is_hundredths_witness :
  returns (parse_cdr_to_dict no_table no_table stop_line_306) (fun d =>
    match int_of_str (safe_get (fields stop_line_306) 13 "") with
    | None => d !! "duration" = Some (VStr "N/A")
    | Some n =>
        exists product rounded,
          int_mul_float n float_0_01 = Ok product
          /\ py_round product 2 = Ok rounded
          /\ d !! "duration" = Some (VFloat rounded)
    end).
Proof.
  apply (stop_duration_is_hundredths no_table no_table stop_line_306).
  reflexivity.
Defined.

Lemma view_hides_measurements_unless_stop_witness :
  exists d,
    parse_cdr_to_dict no_table no_table start_line_numbered = Ok d
    /\ forall section k v,
         In section (parsed_cdr_sections d) ->
         In (k, v) (visible_items section) ->
         ~ In k measurement_labels.
Proof.
  apply (view_hides_measurements_unless_stop no_table no_table
           start_line_numbered).
  left. reflexivity.
Defined.

Lemma view_shows_duration_iff_integer_witness :
  returns (parse_cdr_to_dict no_table no_table stop_line_306) (fun d =>
    In "Call Service Duration"
       (map fst (visible_items (nth 0 (parsed_cdr_sections d) [])))
    <-> int_of_str (safe_get (fields stop_line_306) 13 "") <> None).
Proof.
  apply (view_shows_duration_iff_integer no_table no_table stop_line_306).
  reflexivity.
Defined.

Lemma view_of_unrecognized_record_witness :
  exists d,
    parse_cdr_to_dict no_table no_table unknown_type_line = Ok d
    /\ map visible_items (firstn 2 (parsed_cdr_sections d))
       = [ [ ("CDR Type", VStr (cdr_type unknown_type_line));
             ("Gateway Name", VStr (safe_get (fields unknown_type_line) 1 ""));
             ("Disconnect Date", VStr "N/A");
             ("Start Time", VStr (safe_get (fields unknown_type_line) 6 ""));
             ("Disconnect Time", VStr "N/A");
             ("Calling Number", VStr "N/A");
             ("Called Number", VStr "N/A");
             ("Billing Number", VStr "N/A") ];
           [ ("Route Label", VStr "N/A");
             ("Route Attempt Number", VStr "N/A");
             ("Route Selected", VStr "N/A");
             ("Service Provider", VStr "N/A");
             ("GSX Call ID (GCID)", VStr "N/A") ] ].
Proof.
  apply (view_of_unrecognized_record no_table no_table unknown_type_line).
  reflexivity.
Defined.

(** Control and a capital C. *)
Lemma block_edit_allows_only_ctrl_c_a_witness :
  block_edit 4 "C" = None.
Proof.
  apply (proj1 (block_edit_allows_only_ctrl_c_a 4 "C")).
  split; [reflexivity | cbn; tauto].
Defined.

(** Two matches, the second one selected. *)
Lemma match_navigation_wraps_witness :
  search_index
    (next_match {| search_matches := [("1.0+0c", "1.0+2c");
                                      ("1.0+5c", "1.0+7c")];
                   search_index := 1 |}) = 0.
Proof.
  assert (H : [("1.0+0c", "1.0+2c"); ("1.0+5c", "1.0+7c")]
              <> ([] : list (string * string))) by discriminate.
  destruct (match_navigation_wraps
              {| search_matches := [("1.0+0c", "1.0+2c");
                                    ("1.0+5c", "1.0+7c")];
                 search_index := 1 |} H)
    as (_ & _ & _ & _ & Hlast & _).
  apply Hlast. reflexivity.
Defined.

Lemma finditer_spans_witness :
  (length (finditer true "ab" "xABab") * String.length "ab"
   <= String.length "xABab")%nat.
Proof.
  assert (H : "ab" <> "") by discriminate.
  destruct (finditer_spans true "ab" "xABab" H) as (_ & _ & _ & L).
  exact L.
Defined.

(** The query ab, typed with blanks around it, in a text that holds it
    first in capitals. *)
Lemma run_search_selects_leftmost_witness :
  search_index (fst (run_search " ab " true "xABab" true)) = 0
  /\ selected (fst (run_search " ab " true "xABab" true))
     = Some (tk_index 1, tk_index (1 + String.length (strip " ab "))).
Proof.
  assert (H : strip " ab " <> "") by discriminate.
  destruct (run_search_selects_leftmost " ab " true "xABab" H)
    as (_ & _ & L).
  apply (L 1%nat); [reflexivity|].
  intros p' Hp'. assert (p' = 0%nat) by lia. subst p'. reflexivity.
Defined.

(** A STOP record whose duration is abc and that has no packet counts. *)
Lemma decode_returns_without_numbers_witness :
  exists d,
    parse_cdr_to_dict no_table no_table stop_line_abc = Ok d
    /\ (cdr_type stop_line_abc = "STOP" ->
        d !! "duration" = Some (VStr "N/A")).
Proof.
  apply (decode_returns_without_numbers no_table no_table stop_line_abc).
  - reflexivity.
  - left. reflexivity.
  - left. reflexivity.
Defined.
